(** * WeMaps backend: rooms, membership, locks, snapshot cache and chat log

    A shallow embedding of [src/services/roomService.ts],
    [src/utils/roomCode.ts], the chat and presence handlers of
    [src/config/socket.ts] and the [catch] blocks of the room routes.

    Modelling conventions.
    - The durable store (Prisma/PostgreSQL) is a pair of tables, each a list
      of rows in insertion order.  The unique constraints of the Prisma
      schema (primary keys, [room_code], [(room_id, user_id)]) make an insert
      fail; the schema has no constraint on [join_order].  The foreign keys
      to the users table and the ranges of the columns are not modelled: an
      insert the store accepts is accepted here with the same row, but not
      the other way round.  What is proved of a successful call therefore
      holds of the store; that a call inserting a row succeeds is shown
      only on the scenarios, whose users are taken to exist.
    - [prisma.$transaction] is an error monad over the tables that rolls the
      tables back when its body throws.
    - Redis is a record with one finite map per key template
      ([room_code:<code>], [lock:room:<id>:join], [room:<id>],
      [room:<id>:members], [location:<room>:<user>],
      [chat:room:<id>:messages]), indexed by the ids in the key; keys of
      different templates are different keys, as they are for ids and codes
      without a colon.  A JSON document stored in a key is the record it
      serialises.  Time-to-live expiry is an environment step that deletes
      the key.
    - Everything the code draws from its environment is an explicit
      argument: [uuidv4()] results, [new Date()] (milliseconds, as [Z]) and
      the candidates of [generateRandomCode].
    - A call of [joinRoom] is also given as a run of steps, one per group
      of awaited calls, so that what happens to the lock while other
      requests and the clock act in between can be stated.
    - Strings stand for JavaScript strings through their UTF-8 encoding. *)

From Stdlib Require Import ZArith List Bool Lia String Ascii Sorted.
From stdpp Require Import base gmap strings.
Import ListNotations.

Local Open Scope string_scope.
Local Open Scope Z_scope.

(** ** Errors and results *)

Inductive Error : Type :=
| RoomNotFoundOrInactive   (* 'Room not found or inactive' *)
| RoomBusy                 (* 'Room is currently being modified. Please try again.' *)
| RoomNotFound             (* 'Room not found' *)
| RoomNotActive            (* 'Room is not active' *)
| RoomExpired              (* 'Room has expired' *)
| RoomFull                 (* 'Room is full' *)
| AlreadyMember            (* 'You are already a member of this room' *)
| NotMember                (* 'You are not a member of this room' *)
| NotActiveMember          (* 'You are not an active member of this room' *)
| AccessDenied             (* 'Access denied' *)
| CodeExhausted            (* 'Failed to generate unique room code after maximum attempts' *)
| UniqueViolation          (* Prisma P2002 *)
| RecordNotFound           (* Prisma P2025 *)
| StoreFailure.            (* any other failure of the store or of the cache *)

Definition message (e : Error) : string :=
  match e with
  | RoomNotFoundOrInactive => "Room not found or inactive"
  | RoomBusy => "Room is currently being modified. Please try again."
  | RoomNotFound => "Room not found"
  | RoomNotActive => "Room is not active"
  | RoomExpired => "Room has expired"
  | RoomFull => "Room is full"
  | AlreadyMember => "You are already a member of this room"
  | NotMember => "You are not a member of this room"
  | NotActiveMember => "You are not an active member of this room"
  | AccessDenied => "Access denied"
  | CodeExhausted => "Failed to generate unique room code after maximum attempts"
  | UniqueViolation => "Unique constraint failed"
  | RecordNotFound => "Record to update not found"
  | StoreFailure => "Store failure"
  end.

Inductive result (A : Type) : Type :=
| Ok (a : A)
| Err (e : Error).

Arguments Ok {A} a.
Arguments Err {A} e.

Definition is_ok {A} (r : result A) : bool :=
  match r with Ok _ => true | Err _ => false end.

(** JavaScript truthiness of an optional string: [undefined], [null] and the
    empty string are falsy. *)
Definition truthy (s : option string) : bool :=
  match s with
  | Some s => negb (s =? "")%string
  | None => false
  end.

(** [a || b] on an optional string with a string default. *)
Definition or_else (a : option string) (b : string) : string :=
  match a with
  | Some s => if (s =? "")%string then b else s
  | None => b
  end.

(** ** Rows of the durable store (the Prisma schema) *)

Module Room.
Record t : Type := mk {
  id : string;
  room_code : string;
  name : string;
  destination_name : string;
  destination_lat : Z;
  destination_lng : Z;
  created_by : string;
  max_members : Z;
  status : string;
  created_at : Z;
  updated_at : Z;
  expires_at : option Z;
  completed_at : option Z
}.

Definition close (now : Z) (r : t) : t :=
  mk (id r) (room_code r) (name r) (destination_name r) (destination_lat r)
     (destination_lng r) (created_by r) (max_members r)
     "closed" (created_at r) now (expires_at r) (Some now).
End Room.

Module RoomMember.
Record t : Type := mk {
  id : string;
  room_id : string;
  user_id : string;
  nickname : string;
  role : string;
  status : string;
  joined_at : Z;
  left_at : option Z;
  last_seen : option Z;
  join_order : Z
}.

(** [data: { status: 'active', nickname: ..., last_seen: new Date() }] *)
Definition reactivate (nick : string) (now : Z) (m : t) : t :=
  mk (id m) (room_id m) (user_id m) nick (role m) "active"
     (joined_at m) (left_at m) (Some now) (join_order m).

(** [data: { status: 'left', left_at: new Date() }] *)
Definition leave (now : Z) (m : t) : t :=
  mk (id m) (room_id m) (user_id m) (nickname m) (role m) "left"
     (joined_at m) (Some now) (last_seen m) (join_order m).

(** [data: { role: 'owner' }] *)
Definition promote (m : t) : t :=
  mk (id m) (room_id m) (user_id m) (nickname m) "owner" (status m)
     (joined_at m) (left_at m) (last_seen m) (join_order m).
End RoomMember.

Record DB : Type := mkDB {
  rooms : list Room.t;
  room_members : list RoomMember.t
}.

(** ** Queries *)

Definition is_room (rid : string) (r : Room.t) : bool :=
  (Room.id r =? rid)%string.

Definition has_code (code : string) (r : Room.t) : bool :=
  (Room.room_code r =? code)%string.

Definition is_member_of (rid uid : string) (m : RoomMember.t) : bool :=
  (RoomMember.room_id m =? rid)%string && (RoomMember.user_id m =? uid)%string.

Definition is_active_in (rid : string) (m : RoomMember.t) : bool :=
  (RoomMember.room_id m =? rid)%string && (RoomMember.status m =? "active")%string.

Definition has_member_id (mid : string) (m : RoomMember.t) : bool :=
  (RoomMember.id m =? mid)%string.

(** [where: { id: roomMember.id, status: 'active' }] *)
Definition still_active (m : RoomMember.t) (x : RoomMember.t) : bool :=
  has_member_id (RoomMember.id m) x && (RoomMember.status x =? "active")%string.

(** [room.findUnique({ where: { id } })] *)
Definition room_findUnique (rid : string) (d : DB) : option Room.t :=
  List.find (is_room rid) (rooms d).

(** [room.findUnique({ where: { room_code } })] *)
Definition room_findByCode (code : string) (d : DB) : option Room.t :=
  List.find (has_code code) (rooms d).

(** [include: { members: { where: { status: 'active' } } }] *)
Definition active_members (rid : string) (d : DB) : list RoomMember.t :=
  List.filter (is_active_in rid) (room_members d).

(** [roomMember.findFirst({ where: { room_id, user_id } })], and the
    [findUnique] on the compound key [room_id_user_id]. *)
Definition roomMember_find (rid uid : string) (d : DB) : option RoomMember.t :=
  List.find (is_member_of rid uid) (room_members d).

(** The first row of least [join_order]: [orderBy: { join_order: 'asc' }]
    followed by taking the first row. Rows of equal [join_order] come in
    table order. *)
Fixpoint first_by_join_order (l : list RoomMember.t) : option RoomMember.t :=
  match l with
  | [] => None
  | m :: l' =>
      match first_by_join_order l' with
      | None => Some m
      | Some m' =>
          if RoomMember.join_order m <=? RoomMember.join_order m'
          then Some m else Some m'
      end
  end.

(** [findFirst({ where: { room_id, user_id: { not: userId }, status: 'active' },
                 orderBy: { join_order: 'asc' } })] *)
Definition next_member (rid uid : string) (d : DB) : option RoomMember.t :=
  first_by_join_order
    (List.filter (fun m => is_active_in rid m
                           && negb (RoomMember.user_id m =? uid)%string)
                 (room_members d)).

(** ** Transactions *)

Definition Tx (A : Type) : Type := DB -> result A * DB.

Definition ret {A} (a : A) : Tx A := fun d => (Ok a, d).

Definition throw {A} (e : Error) : Tx A := fun d => (Err e, d).

Definition bind {A B} (m : Tx A) (k : A -> Tx B) : Tx B :=
  fun d =>
    match m d with
    | (Ok a, d') => k a d'
    | (Err e, d') => (Err e, d')
    end.

Notation "'let*' x ':=' m 'in' k" := (bind m (fun x => k))
  (at level 10, x name, m at level 100, k at level 200).

Notation "m ';;' k" := (bind m (fun _ => k))
  (at level 100, k at level 200, right associativity).

Definition query {A} (q : DB -> A) : Tx A := fun d => (Ok (q d), d).

(** [prisma.$transaction]: the writes of a body that throws are undone. *)
Definition transaction {A} (body : Tx A) (d : DB) : result A * DB :=
  match body d with
  | (Ok a, d') => (Ok a, d')
  | (Err e, _) => (Err e, d)
  end.

(** ** Writes *)

(** [room.create]: the primary key and [room_code] are unique. The foreign
    key [created_by] and the range of [max_members] are not checked. *)
Definition room_create (r : Room.t) : Tx Room.t :=
  fun d =>
    if existsb (fun r' => is_room (Room.id r) r' || has_code (Room.room_code r) r')
               (rooms d)
    then (Err UniqueViolation, d)
    else (Ok r, mkDB (rooms d ++ [r]) (room_members d)).

(** [roomMember.create]: the primary key and [(room_id, user_id)] are
    unique. The foreign keys [room_id] and [user_id] are not checked. *)
Definition roomMember_create (m : RoomMember.t) : Tx RoomMember.t :=
  fun d =>
    if existsb (fun m' => has_member_id (RoomMember.id m) m'
                          || is_member_of (RoomMember.room_id m) (RoomMember.user_id m) m')
               (room_members d)
    then (Err UniqueViolation, d)
    else (Ok m, mkDB (rooms d) (room_members d ++ [m])).

Definition update_where {A} (p : A -> bool) (f : A -> A) (l : list A) : list A :=
  List.map (fun x => if p x then f x else x) l.

(** [roomMember.update({ where, data })]: returns the updated row, throws
    when no row matches. *)
Definition roomMember_update (p : RoomMember.t -> bool)
    (f : RoomMember.t -> RoomMember.t) : Tx RoomMember.t :=
  fun d =>
    match List.find p (room_members d) with
    | None => (Err RecordNotFound, d)
    | Some m => (Ok (f m), mkDB (rooms d) (update_where p f (room_members d)))
    end.

(** [room.update({ where: { id }, data })] *)
Definition room_update (rid : string) (f : Room.t -> Room.t) : Tx Room.t :=
  fun d =>
    match List.find (is_room rid) (rooms d) with
    | None => (Err RecordNotFound, d)
    | Some r => (Ok (f r), mkDB (update_where (is_room rid) f (rooms d)) (room_members d))
    end.

(** ** The Redis store *)

Record ChatMessage : Type := mkChatMessage {
  msg_id : string;
  msg_roomId : string;
  msg_userId : string;
  msg_userName : string;
  content : string;
  timestamp : Z
}.

(** The JSON snapshot of a room: the room row, the included active members
    when the snapshot was read from the store, and [memberCount]. *)
Record RoomView : Type := mkRoomView {
  view_room : Room.t;
  members : option (list RoomMember.t);
  memberCount : option Z
}.

Record Redis : Type := mkRedis {
  room_code_keys : gmap string string;        (* room_code:<code> *)
  lock_keys : gmap string string;             (* lock:room:<roomId>:join *)
  room_keys : gmap string RoomView;           (* room:<roomId> *)
  member_sets : gmap string (gset string);    (* room:<roomId>:members *)
  location_keys : gmap (string * string) string; (* location:<roomId>:<userId> *)
  chat_lists : gmap string (list ChatMessage) (* chat:room:<roomId>:messages *)
}.

Definition set_room_codes (f : gmap string string -> gmap string string) (r : Redis) : Redis :=
  mkRedis (f (room_code_keys r)) (lock_keys r) (room_keys r) (member_sets r)
          (location_keys r) (chat_lists r).

Definition set_locks (f : gmap string string -> gmap string string) (r : Redis) : Redis :=
  mkRedis (room_code_keys r) (f (lock_keys r)) (room_keys r) (member_sets r)
          (location_keys r) (chat_lists r).

Definition set_room_keys (f : gmap string RoomView -> gmap string RoomView) (r : Redis) : Redis :=
  mkRedis (room_code_keys r) (lock_keys r) (f (room_keys r)) (member_sets r)
          (location_keys r) (chat_lists r).

Definition set_member_sets (f : gmap string (gset string) -> gmap string (gset string))
    (r : Redis) : Redis :=
  mkRedis (room_code_keys r) (lock_keys r) (room_keys r) (f (member_sets r))
          (location_keys r) (chat_lists r).

Definition set_locations (f : gmap (string * string) string -> gmap (string * string) string)
    (r : Redis) : Redis :=
  mkRedis (room_code_keys r) (lock_keys r) (room_keys r) (member_sets r)
          (f (location_keys r)) (chat_lists r).

Definition set_chats (f : gmap string (list ChatMessage) -> gmap string (list ChatMessage))
    (r : Redis) : Redis :=
  mkRedis (room_code_keys r) (lock_keys r) (room_keys r) (member_sets r)
          (location_keys r) (f (chat_lists r)).

(** [SET key value NX PX 10000]: [None] is the null reply (key present). *)
Definition set_nx (key value : string) (r : Redis) : option Redis :=
  match lock_keys r !! key with
  | Some _ => None
  | None => Some (set_locks (insert key value) r)
  end.

(** The release script:
    [if redis.call("get", KEYS[1]) == ARGV[1] then return redis.call("del", KEYS[1])
     else return 0 end] *)
Definition release_script (key token : string) (r : Redis) : Redis :=
  match lock_keys r !! key with
  | Some v => if (v =? token)%string then set_locks (delete key) r else r
  | None => r
  end.

(** The lock's time-to-live running out. *)
Definition lock_expires (key : string) (r : Redis) : Redis :=
  set_locks (delete key) r.

(** [SADD key members]: creates the set when the key is absent. *)
Definition sAdd (key : string) (ids : list string) (r : Redis) : Redis :=
  set_member_sets
    (fun m => <[key := list_to_set ids ∪ default ∅ (m !! key)]> m) r.

(** [SREM key member]: a set that becomes empty is removed. *)
Definition sRem (key member : string) (r : Redis) : Redis :=
  set_member_sets
    (fun m =>
       match m !! key with
       | None => m
       | Some s =>
           let s' := s ∖ {[member]} in
           if decide (s' = ∅) then delete key m else <[key := s']> m
       end) r.

(** [SISMEMBER key member] *)
Definition sIsMember (key member : string) (r : Redis) : bool :=
  bool_decide (member ∈ default (∅ : gset string) (member_sets r !! key)).

(** [LPUSH key value]: the new element becomes the head. *)
Definition lPush (key : string) (m : ChatMessage) (r : Redis) : Redis :=
  set_chats (fun c => <[key := m :: default [] (c !! key)]> c) r.

(** [LRANGE key 0 -1] *)
Definition lRange_all (key : string) (r : Redis) : list ChatMessage :=
  default [] (chat_lists r !! key).

Record State : Type := mkState {
  db : DB;
  redis : Redis
}.

Definition with_db (d : DB) (st : State) : State := mkState d (redis st).

Definition on_redis (f : Redis -> Redis) (st : State) : State :=
  mkState (db st) (f (redis st)).

(** ** [utils/roomCode.ts] *)

(** One pass of the [while (attempts < maxAttempts)] loop per unit of
    [attempts]; [rand i] is the candidate drawn by the [i]-th call of
    [generateRandomCode]. *)
Fixpoint generateRoomCode_loop (attempts : nat) (rand : nat -> string) (i : nat)
    (st : State) : result string * State :=
  match attempts with
  | O => (Err CodeExhausted, st)
  | S attempts' =>
      let code := rand i in
      match room_findByCode code (db st) with
      | Some _ => generateRoomCode_loop attempts' rand (S i) st
      | None =>
          if truthy (room_code_keys (redis st) !! code)
          then generateRoomCode_loop attempts' rand (S i) st
          else (Ok code, on_redis (set_room_codes (insert code "reserved")) st)
      end
  end.

Definition maxAttempts : nat := 10.

Definition generateRoomCode (rand : nat -> string) (st : State) : result string * State :=
  generateRoomCode_loop maxAttempts rand 0 st.

(** [redisClient.del(`room_code:${code}`)] *)
Definition releaseRoomCode (code : string) (st : State) : State :=
  on_redis (set_room_codes (delete code)) st.

(** ** [services/roomService.ts] *)

Record CreateRoomData : Type := mkCreateRoomData {
  cr_name : string;
  destinationName : string;
  destinationLat : Z;
  destinationLng : Z;
  maxMembers : Z;
  expiresIn : Z;
  createdBy : string
}.

Record JoinRoomData : Type := mkJoinRoomData {
  roomCode : string;
  userId : string;
  nickname : option string
}.

Record JoinResult : Type := mkJoinResult {
  room : Room.t;
  roomMember : RoomMember.t;
  isRejoining : bool
}.

(** A call of the environment that rejects although the modelled state
    would let it through. *)
Inductive Fault : Type :=
| NoFault
| TransactionFault   (* [prisma.$transaction] rejects (time-out, connection) *)
| CacheFault.        (* the [setEx] of the code mapping rejects *)

(** [roomData.members?.length || roomData.memberCount || 0] *)
Definition cached_count (v : RoomView) : Z :=
  let len := match members v with Some l => Z.of_nat (length l) | None => 0 end in
  if negb (len =? 0) then len
  else match memberCount v with
       | Some c => c
       | None => 0
       end.

Definition cacheRoomData (roomId : string) (roomData : RoomView) (st : State) : State :=
  let cacheData := mkRoomView (view_room roomData) (members roomData)
                              (Some (cached_count roomData)) in
  let st1 := on_redis (set_room_keys (insert roomId cacheData)) st in
  match members roomData with
  | Some ms =>
      let memberIds := List.map RoomMember.user_id ms in
      if (0 <? Z.of_nat (length memberIds)) then on_redis (sAdd roomId memberIds) st1
      else st1
  | None => st1
  end.

(** [room.memberCount = Math.max(0, (room.memberCount || 0) + delta)] *)
Definition updateRoomMemberCount (roomId : string) (delta : Z) (st : State) : State :=
  match room_keys (redis st) !! roomId with
  | Some room =>
      let count := Z.max 0 (default 0 (memberCount room) + delta) in
      on_redis (set_room_keys
                  (insert roomId (mkRoomView (view_room room) (members room) (Some count))))
               st
  | None => st
  end.

Definition createRoom_tx (data : CreateRoomData) (code roomId memberId : string)
    (now : Z) : Tx (Room.t * RoomMember.t) :=
  let* r := room_create
              (Room.mk roomId code (cr_name data) (destinationName data)
                       (destinationLat data) (destinationLng data) (createdBy data)
                       (maxMembers data) "active" now now
                       (Some (now + expiresIn data * 60 * 60 * 1000)) None) in
  let* m := roomMember_create
              (RoomMember.mk memberId (Room.id r) (createdBy data) (cr_name data)
                             "owner" "active" now None (Some now) 1) in
  ret (r, m).

Definition createRoom (data : CreateRoomData) (rand : nat -> string)
    (roomId memberId : string) (now : Z) (fault : Fault) (st : State)
    : result Room.t * State :=
  match generateRoomCode rand st with
  | (Err e, st0) => (Err e, st0)
  | (Ok code, st0) =>
      let committed :=
        match fault with
        | TransactionFault => (Err StoreFailure, db st0)
        | _ => transaction (createRoom_tx data code roomId memberId now) (db st0)
        end in
      match committed with
      | (Err e, _) => (Err e, releaseRoomCode code st0)
      | (Ok (r, _), d) =>
          let st1 := cacheRoomData (Room.id r) (mkRoomView r None (Some 1)) (with_db d st0) in
          match fault with
          | CacheFault => (Err StoreFailure, releaseRoomCode code st1)
          | _ => (Ok r, on_redis (set_room_codes (insert code (Room.id r))) st1)
          end
      end
  end.

(** [room.expires_at && room.expires_at < new Date()] *)
Definition expired (now : Z) (r : Room.t) : bool :=
  match Room.expires_at r with
  | Some e => e <? now
  | None => false
  end.

Definition joinRoom_tx (roomId userId : string) (nickname : option string)
    (memberId : string) (now : Z) : Tx JoinResult :=
  let* found := query (room_findUnique roomId) in
  let* active := query (active_members roomId) in
  match found with
  | None => throw RoomNotFound
  | Some room =>
      if negb (Room.status room =? "active")%string then throw RoomNotActive
      else if expired now room then throw RoomExpired
      else if Z.of_nat (length active) >=? Room.max_members room then throw RoomFull
      else
        let* existingMember := query (roomMember_find roomId userId) in
        match existingMember with
        | Some existing =>
            if (RoomMember.status existing =? "active")%string then throw AlreadyMember
            else
              let* updatedMember :=
                roomMember_update
                  (has_member_id (RoomMember.id existing))
                  (RoomMember.reactivate
                     (or_else nickname (RoomMember.nickname existing)) now) in
              ret (mkJoinResult room updatedMember true)
        | None =>
            let* created :=
              roomMember_create
                (RoomMember.mk memberId roomId userId (or_else nickname "Member")
                               "member" "active" now None (Some now)
                               (Z.of_nat (length active) + 1)) in
            ret (mkJoinResult room created false)
        end
  end.

(** The room id behind a code: the cached mapping, else the store. *)
Definition resolve_code (code : string) (st : State) : result string :=
  let cached := room_code_keys (redis st) !! code in
  if truthy cached then Ok (default "" cached)
  else
    match room_findByCode code (db st) with
    | Some r => if (Room.status r =? "active")%string then Ok (Room.id r)
                else Err RoomNotFoundOrInactive
    | None => Err RoomNotFoundOrInactive
    end.

(** The body of the [try] block of [joinRoom], run while the lock is held. *)
Definition joinRoom_locked (roomId : string) (data : JoinRoomData)
    (memberId : string) (now : Z) (st : State) : result JoinResult * State :=
  match transaction (joinRoom_tx roomId (userId data) (nickname data) memberId now) (db st) with
  | (Ok res, d) => (Ok res, updateRoomMemberCount roomId 1 (with_db d st))
  | (Err e, _) => (Err e, st)
  end.

Definition joinRoom (data : JoinRoomData) (lockValue memberId : string) (now : Z)
    (st : State) : result JoinResult * State :=
  match resolve_code (roomCode data) st with
  | Err e => (Err e, st)
  | Ok roomId =>
      let lockKey := roomId in
      match set_nx lockKey lockValue (redis st) with
      | None => (Err RoomBusy, st)
      | Some locked =>
          let (res, st') := joinRoom_locked roomId data memberId now (mkState (db st) locked) in
          (* finally *)
          (res, on_redis (release_script lockKey lockValue) st')
      end
  end.

Definition leaveRoom_tx (roomId userId : string) (now : Z) : Tx RoomMember.t :=
  let* found := query (roomMember_find roomId userId) in
  match found with
  | None => throw NotMember
  | Some roomMember =>
      if (RoomMember.status roomMember =? "left")%string then ret roomMember
      else if negb (RoomMember.status roomMember =? "active")%string
      then throw NotActiveMember
      else
        let* updatedMember :=
          roomMember_update (still_active roomMember) (RoomMember.leave now) in
        (if (RoomMember.role roomMember =? "owner")%string
         then
           let* nextMember := query (next_member roomId userId) in
           match nextMember with
           | Some next =>
               roomMember_update (has_member_id (RoomMember.id next)) RoomMember.promote ;;
               ret tt
           | None =>
               room_update roomId (Room.close now) ;;
               ret tt
           end
         else ret tt) ;;
        ret updatedMember
  end.

Definition leaveRoom (roomId userId : string) (now : Z) (st : State)
    : result RoomMember.t * State :=
  match transaction (leaveRoom_tx roomId userId now) (db st) with
  | (Err e, _) => (Err e, st)
  | (Ok result, d) =>
      let st1 := with_db d st in
      if (RoomMember.status result =? "left")%string
      then
        let st2 := updateRoomMemberCount roomId (-1) st1 in
        let st3 := on_redis (set_locations (delete (roomId, userId))) st2 in
        (Ok result, on_redis (sRem roomId userId) st3)
      else (Ok result, st1)
  end.

(** Stable insertion by [join_order], for [orderBy: { join_order: 'asc' }]. *)
Fixpoint insert_by_join_order (m : RoomMember.t) (l : list RoomMember.t) : list RoomMember.t :=
  match l with
  | [] => [m]
  | m' :: l' =>
      if RoomMember.join_order m <? RoomMember.join_order m'
      then m :: l
      else m' :: insert_by_join_order m l'
  end.

Definition order_by_join_order (l : list RoomMember.t) : list RoomMember.t :=
  List.fold_right insert_by_join_order [] l.

Definition getRoomDetails (roomId : string) (userId : option string) (st : State)
    : result RoomView * State :=
  match room_keys (redis st) !! roomId with
  | Some roomData =>
      if truthy userId && negb (sIsMember roomId (default "" userId) (redis st))
      then (Err AccessDenied, st)
      else (Ok roomData, st)
  | None =>
      match room_findUnique roomId (db st) with
      | None => (Err RoomNotFound, st)
      | Some r =>
          let ms := order_by_join_order (active_members roomId (db st)) in
          if truthy userId
             && negb (existsb (fun m => (RoomMember.user_id m =? default "" userId)%string) ms)
          then (Err AccessDenied, st)
          else
            let view := mkRoomView r (Some ms) None in
            (Ok view, cacheRoomData roomId view st)
      end
  end.

(** ** The chat handlers of [config/socket.ts] *)

Record AuthenticatedSocket : Type := mkSocket {
  socket_userId : string;
  socket_userName : string
}.

(** What a handler sends out: events emitted to the calling socket and
    messages published on a Redis channel. *)
Inductive Event : Type :=
| emit_error (text : string)
| emit_chat_history (messages : list ChatMessage)
| publish (channel : string) (m : ChatMessage).

(** Strings stand for JavaScript strings through their UTF-8 encoding.
    [String.prototype.trim] strips the white space and line terminators of
    ECMAScript from both ends: U+0009 to U+000D, U+0020, U+00A0, U+1680,
    U+2000 to U+200A, U+2028, U+2029, U+202F, U+205F, U+3000 and U+FEFF. *)
Definition utf8 (codes : list N) : list ascii := List.map ascii_of_N codes.

Definition white_space : list (list ascii) :=
  List.map utf8
    [ [9]; [10]; [11]; [12]; [13]; [32];
      [194; 160];
      [225; 154; 128];
      [226; 128; 128]; [226; 128; 129]; [226; 128; 130]; [226; 128; 131];
      [226; 128; 132]; [226; 128; 133]; [226; 128; 134]; [226; 128; 135];
      [226; 128; 136]; [226; 128; 137]; [226; 128; 138];
      [226; 128; 168]; [226; 128; 169]; [226; 128; 175];
      [226; 129; 159];
      [227; 128; 128];
      [239; 187; 191] ]%N.

(** [s] without its prefix [w], when it has that prefix. *)
Fixpoint strip_prefix (w s : list ascii) : option (list ascii) :=
  match w with
  | [] => Some s
  | a :: w' =>
      match s with
      | b :: s' => if Ascii.eqb a b then strip_prefix w' s' else None
      | [] => None
      end
  end.

Fixpoint strip_any (ws : list (list ascii)) (s : list ascii) : option (list ascii) :=
  match ws with
  | [] => None
  | w :: ws' =>
      match strip_prefix w s with
      | Some rest => Some rest
      | None => strip_any ws' s
      end
  end.

(** Strips, at most [n] times, one of [ws] from the front of [s]. *)
Fixpoint drop_leading (ws : list (list ascii)) (n : nat) (s : list ascii) : list ascii :=
  match n with
  | O => s
  | S n' =>
      match strip_any ws s with
      | Some rest => drop_leading ws n' rest
      | None => s
      end
  end.

Definition trim_bytes (s : list ascii) : list ascii :=
  let front := drop_leading white_space (length s) s in
  List.rev (drop_leading (List.map (@List.rev ascii) white_space) (length front)
                         (List.rev front)).

Definition trim (s : string) : string :=
  string_of_list_ascii (trim_bytes (list_ascii_of_string s)).

(** A run of white space. *)
Definition blank (s : list ascii) : Prop :=
  exists ws, Forall (fun w => In w white_space) ws /\ s = List.concat ws.

(** [roomMember.findFirst({ where: { room_id, user_id, status: 'active' } })] *)
Definition active_membership (rid uid : string) (d : DB) : option RoomMember.t :=
  List.find (fun m => is_member_of rid uid m && (RoomMember.status m =? "active")%string)
            (room_members d).

(** The ['send-message'] handler. *)
Definition send_message (socket : AuthenticatedSocket) (roomId text : string)
    (messageId : string) (now : Z) (st : State) : list Event * State :=
  match active_membership roomId (socket_userId socket) (db st) with
  | None => ([emit_error "Not authorized to send messages in this room"], st)
  | Some _ =>
      let chatMessage :=
        mkChatMessage messageId roomId (socket_userId socket) (socket_userName socket)
                      (trim text) now in
      ([publish ("chat:room:" ++ roomId ++ ":updates") chatMessage],
       on_redis (lPush roomId chatMessage) st)
  end.

(** The ['request-chat-history'] handler: [rawMessages.map(JSON.parse).reverse()]. *)
Definition request_chat_history (socket : AuthenticatedSocket) (roomId : string)
    (st : State) : list Event * State :=
  match active_membership roomId (socket_userId socket) (db st) with
  | None => ([emit_error "Not authorized to access chat history"], st)
  | Some _ =>
      let rawMessages := lRange_all roomId (redis st) in
      ([emit_chat_history (List.rev rawMessages)], st)
  end.

(** ** Runs of the room service *)

Inductive Op : Type :=
| OpCreate (data : CreateRoomData) (rand : nat -> string) (roomId memberId : string)
           (now : Z) (fault : Fault)
| OpJoin (data : JoinRoomData) (lockValue memberId : string) (now : Z)
| OpLeave (roomId userId : string) (now : Z).

Definition step (o : Op) (st : State) : State :=
  match o with
  | OpCreate data rand roomId memberId now fault =>
      snd (createRoom data rand roomId memberId now fault st)
  | OpJoin data lockValue memberId now => snd (joinRoom data lockValue memberId now st)
  | OpLeave roomId userId now => snd (leaveRoom roomId userId now st)
  end.

Definition run (ops : list Op) (st : State) : State :=
  List.fold_left (fun s o => step o s) ops st.

Definition empty_redis : Redis := mkRedis ∅ ∅ ∅ ∅ ∅ ∅.

Definition initial : State := mkState (mkDB [] []) empty_redis.

Definition reachable (st : State) : Prop := exists ops, st = run ops initial.

(** The rows of a room, active and left alike. *)
Definition members_of (rid : string) (d : DB) : list RoomMember.t :=
  List.filter (fun m => (RoomMember.room_id m =? rid)%string) (room_members d).

Definition active_owners (rid : string) (d : DB) : list RoomMember.t :=
  List.filter (fun m => is_active_in rid m && (RoomMember.role m =? "owner")%string)
              (room_members d).

(** ** Vocabulary of the statements *)

(** The guard of the transaction that fires first, if any: the room's
    status, then its expiry, then its size. *)
Definition join_guard (now : Z) (r : Room.t) (d : DB) : option Error :=
  if negb (Room.status r =? "active")%string then Some RoomNotActive
  else if expired now r then Some RoomExpired
  else if Z.of_nat (length (active_members (Room.id r) d)) >=? Room.max_members r
       then Some RoomFull
       else None.

(** The identity of a row and the columns a rejoin must not touch. *)
Definition row_key (m : RoomMember.t) : string * string * string * Z :=
  (RoomMember.id m, RoomMember.room_id m, RoomMember.user_id m, RoomMember.join_order m).

(** The members that remain when [userId] leaves [roomId]. *)
Definition remaining_members (roomId userId : string) (now : Z) (m : RoomMember.t) (d : DB)
    : list RoomMember.t :=
  List.filter (fun x => is_active_in roomId x && negb (RoomMember.user_id x =? userId)%string)
              (update_where (still_active m) (RoomMember.leave now) (room_members d)).

(** The constraints of the schema, and the sign of the join orders. *)
Record consistent (d : DB) : Prop := mkConsistent {
  member_ids_unique : NoDup (List.map RoomMember.id (room_members d));
  memberships_unique :
    NoDup (List.map (fun m => (RoomMember.room_id m, RoomMember.user_id m)) (room_members d));
  room_ids_unique : NoDup (List.map Room.id (rooms d));
  room_codes_unique : NoDup (List.map Room.room_code (rooms d));
  join_orders_positive : Forall (fun m => 0 < RoomMember.join_order m) (room_members d)
}.

Definition preserves {A} (P : DB -> Prop) (t : Tx A) : Prop :=
  forall d, P d -> P (snd (t d)).

(** ** The chat log as a run of appends *)

Record Send : Type := mkSend {
  sender : AuthenticatedSocket;
  text : string;
  messageId : string;
  sent_at : Z
}.

Definition message_of (roomId : string) (s : Send) : ChatMessage :=
  mkChatMessage (messageId s) roomId (socket_userId (sender s))
                (socket_userName (sender s)) (trim (text s)) (sent_at s).

Definition send_all (roomId : string) (sends : list Send) (st : State) : State :=
  List.fold_left
    (fun acc s => snd (send_message (sender s) roomId (text s) (messageId s) (sent_at s) acc))
    sends st.

Definition history (roomId : string) (st : State) : list ChatMessage :=
  List.rev (lRange_all roomId (redis st)).

Definition is_active_member (roomId : string) (d : DB) (socket : AuthenticatedSocket) : Prop :=
  is_Some (active_membership roomId (socket_userId socket) d).

(** ** Scenarios *)

Definition outcome (o : Op) (st : State) : bool :=
  match o with
  | OpCreate data rand roomId memberId now fault =>
      is_ok (fst (createRoom data rand roomId memberId now fault st))
  | OpJoin data lockValue memberId now => is_ok (fst (joinRoom data lockValue memberId now st))
  | OpLeave roomId userId now => is_ok (fst (leaveRoom roomId userId now st))
  end.

(** Whether each operation of a run succeeded. *)
Fixpoint outcomes (ops : list Op) (st : State) : list bool :=
  match ops with
  | [] => []
  | o :: ops' => outcome o st :: outcomes ops' (step o st)
  end.

Definition always_ABC123 (i : nat) : string := "ABC123".

Definition create_trip (maxMembers expiresIn : Z) : Op :=
  OpCreate (mkCreateRoomData "Trip" "Park" 10 20 maxMembers expiresIn "alice")
           always_ABC123 "r1" "m1" 1000 NoFault.

Definition join_as (user : string) : JoinRoomData :=
  mkJoinRoomData "ABC123" user None.

(** alice creates the room, bob joins and leaves, carol joins. *)
Definition join_after_leave : list Op :=
  [ create_trip 5 24;
    OpJoin (join_as "bob") "token-1" "m2" 2000;
    OpLeave "r1" "bob" 3000;
    OpJoin (join_as "carol") "token-2" "m3" 4000 ].

(** alice creates the room, bob joins, alice leaves and joins again. *)
Definition owner_rejoins : list Op :=
  [ create_trip 5 24;
    OpJoin (join_as "bob") "token-1" "m2" 2000;
    OpLeave "r1" "alice" 3000;
    OpJoin (join_as "alice") "token-2" "m3" 4000 ].

(** A room for two, open for one hour, with both places taken. *)
Definition full_room : State :=
  run [ create_trip 2 1; OpJoin (join_as "bob") "token-1" "m2" 2000 ] initial.

(** bob has joined and left. *)
Definition bob_left : State :=
  run [ create_trip 5 24;
        OpJoin (join_as "bob") "token-1" "m2" 2000;
        OpLeave "r1" "bob" 3000 ] initial.

Definition after_create : State := run [create_trip 5 24] initial.

Definition alice_socket : AuthenticatedSocket := mkSocket "alice" "Alice".

Definition two_sends : list Send :=
  [ mkSend alice_socket "on my way" "c1" 5000;
    mkSend alice_socket "  five minutes  " "c2" 6000 ].

Definition always_XYZ789 (i : nat) : string := "XYZ789".

(** A room created at time 1000 for one hour, read through the store once
    (which fills the cache and the member set), and looked at again after
    the hour has passed. *)
Definition stale_room : Room.t :=
  Room.mk "r1" "ABC123" "Trip" "Park" 10 20 "alice" 5 "active" 1000 1000
          (Some (1000 + 1 * 60 * 60 * 1000)) None.

Definition stale_owner : RoomMember.t :=
  RoomMember.mk "m1" "r1" "alice" "Trip" "owner" "active" 1000 None (Some 1000) 1.

Definition stale_state : State :=
  snd (getRoomDetails "r1" (Some "alice")
         (mkState (mkDB [stale_room] [stale_owner]) empty_redis)).

(** ** More of [utils/roomCode.ts] *)

Definition chars : string := "ABCDEFGHIJKLMNOPQRSTUVWXYZ0123456789".

(** [String.prototype.charAt]: the empty string out of range. *)
Definition charAt (s : string) (i : nat) : string :=
  match String.get i s with
  | Some c => String c EmptyString
  | None => EmptyString
  end.

(** The [for] loop of [generateRandomCode]; [draw k] is the value of
    [Math.floor(Math.random() * chars.length)] in iteration [k]. *)
Fixpoint generateRandomCode_loop (n : nat) (draw : nat -> nat) (k : nat) (acc : string)
    : string :=
  match n with
  | O => acc
  | S n' => generateRandomCode_loop n' draw (S k) (acc ++ charAt chars (draw k))
  end.

Definition generateRandomCode (draw : nat -> nat) : string :=
  generateRandomCode_loop 6 draw 0 "".

Definition is_upper_or_digit (c : ascii) : bool :=
  let n := N_of_ascii c in
  ((65 <=? n) && (n <=? 90) || (48 <=? n) && (n <=? 57))%N.

(** [/^[A-Z0-9]{6}$/.test(code)] *)
Definition isValidRoomCode (code : string) : bool :=
  (String.length code =? 6)%nat && forallb is_upper_or_digit (list_ascii_of_string code).

(** A candidate the loop of [generateRoomCode] passes over. *)
Definition code_taken (code : string) (st : State) : bool :=
  match room_findByCode code (db st) with
  | Some _ => true
  | None => truthy (room_code_keys (redis st) !! code)
  end.

(** The position of a character of the alphabet in [chars]. *)
Definition index_of_char (c : ascii) : nat :=
  let n := N.to_nat (N_of_ascii c) in
  if (65 <=? n)%nat then (n - 65)%nat else (n - 48 + 26)%nat.



(** ** Vocabulary for [createRoom] *)

(** The room row [createRoom] inserts. *)
Definition new_room (data : CreateRoomData) (code roomId : string) (now : Z) : Room.t :=
  Room.mk roomId code (cr_name data) (destinationName data) (destinationLat data)
          (destinationLng data) (createdBy data) (maxMembers data) "active" now now
          (Some (now + expiresIn data * 60 * 60 * 1000)) None.

(** The creator's membership row. *)
Definition owner_row (data : CreateRoomData) (roomId memberId : string) (now : Z)
    : RoomMember.t :=
  RoomMember.mk memberId roomId (createdBy data) (cr_name data) "owner" "active" now None
                (Some now) 1.

(** ** Vocabulary for [joinRoom] *)

(** The row [joinRoom] inserts for a user who has none in the room. *)
Definition member_row (roomId : string) (data : JoinRoomData) (memberId : string) (now : Z)
    (d : DB) : RoomMember.t :=
  RoomMember.mk memberId roomId (userId data) (or_else (nickname data) "Member")
                "member" "active" now None (Some now)
                (Z.of_nat (length (active_members roomId d)) + 1).



(** ** Vocabulary for the owner's departure *)

(** The active members of a room other than [userId], before anything is
    written. *)
Definition other_active_members (roomId userId : string) (d : DB) : list RoomMember.t :=
  List.filter (fun x => is_active_in roomId x && negb (RoomMember.user_id x =? userId)%string)
              (room_members d).

(** alice has created the room and bob has joined. *)
Definition after_join : State :=
  run [create_trip 5 24; OpJoin (join_as "bob") "token-1" "m2" 2000] initial.



(** ** [getUserRooms] and [cleanupExpiredRooms] *)

(** [where: { members: { some: { user_id, status: 'active' } }, status: 'active' }] *)
Definition is_user_room (userId : string) (d : DB) (r : Room.t) : bool :=
  existsb (fun m => is_member_of (Room.id r) userId m
                    && (RoomMember.status m =? "active")%string)
          (room_members d)
  && (Room.status r =? "active")%string.

(** Insertion for [orderBy: { updated_at: 'desc' }]; rooms updated at the
    same instant keep their table order. *)
Fixpoint insert_by_updated_at (r : Room.t) (l : list Room.t) : list Room.t :=
  match l with
  | [] => [r]
  | r' :: l' =>
      if Room.updated_at r' <=? Room.updated_at r
      then r :: l
      else r' :: insert_by_updated_at r l'
  end.

Definition order_by_updated_at_desc (l : list Room.t) : list Room.t :=
  List.fold_right insert_by_updated_at [] l.

(** A room of the list with its included active members
    ([select: { id, role, user_id }]). *)
Record UserRoom : Type := mkUserRoom {
  listed_room : Room.t;
  listed_members : list (string * string * string)
}.

Definition getUserRooms (userId : string) (d : DB) : list UserRoom :=
  List.map
    (fun r =>
       mkUserRoom r
         (List.map (fun m => (RoomMember.id m, RoomMember.role m, RoomMember.user_id m))
                   (active_members (Room.id r) d)))
    (order_by_updated_at_desc (List.filter (is_user_room userId d) (rooms d))).

(** [where: { expires_at: { lt: new Date() }, status: 'active' }] *)
Definition is_overdue (now : Z) (r : Room.t) : bool :=
  expired now r && (Room.status r =? "active")%string.

(** [data: { status: 'expired', completed_at: new Date() }] *)
Definition mark_expired (now : Z) (r : Room.t) : Room.t :=
  Room.mk (Room.id r) (Room.room_code r) (Room.name r) (Room.destination_name r)
          (Room.destination_lat r) (Room.destination_lng r) (Room.created_by r)
          (Room.max_members r) "expired" (Room.created_at r) now (Room.expires_at r)
          (Some now).

(** The body of the [for] loop of [cleanupExpiredRooms]: the room's
    snapshot, member set, code mapping, locations and chat log. *)
Definition purge_room (rd : Redis) (r : Room.t) : Redis :=
  set_chats (delete (Room.id r))
    (set_locations (filter (fun kv => fst (fst kv) <> Room.id r))
       (set_room_codes (delete (Room.room_code r))
          (set_member_sets (delete (Room.id r))
             (set_room_keys (delete (Room.id r)) rd)))).

Definition cleanupExpiredRooms (now : Z) (st : State) : State :=
  let expiredRooms := List.filter (is_overdue now) (rooms (db st)) in
  if 0 <? Z.of_nat (length expiredRooms)
  then
    let ids := List.map Room.id expiredRooms in
    mkState
      (mkDB (update_where (fun r => existsb (String.eqb (Room.id r)) ids)
                          (mark_expired now) (rooms (db st)))
            (room_members (db st)))
      (List.fold_left purge_room expiredRooms (redis st))
  else st.



(** ** The presence handlers of [config/socket.ts] *)

(** [data: { last_seen: new Date() }] *)
Definition touch (now : Z) (m : RoomMember.t) : RoomMember.t :=
  RoomMember.mk (RoomMember.id m) (RoomMember.room_id m) (RoomMember.user_id m)
                (RoomMember.nickname m) (RoomMember.role m) (RoomMember.status m)
                (RoomMember.joined_at m) (RoomMember.left_at m) (Some now)
                (RoomMember.join_order m).

Section Presence.

(** The numbers a client sends (coordinates, accuracy, speed and so on) are
    carried through untouched; their type is left open. *)
Variable number : Type.

(** The payload of a ['location-update'] event. *)
Record LocationUpdate : Type := mkLocationUpdate {
  lu_roomId : string;
  latitude : number;
  longitude : number;
  accuracy : option number;
  speed : option number;
  bearing : option number;
  heading : option number;
  altitude : option number;
  batteryLevel : option number;
  deviceModel : option string
}.

Record LocationData : Type := mkLocationData {
  loc_userId : string;
  loc_userName : string;
  loc_latitude : number;
  loc_longitude : number;
  loc_accuracy : option number;
  loc_speed : option number;
  loc_bearing : option number;
  loc_heading : option number;
  loc_altitude : option number;
  loc_batteryLevel : option number;
  loc_deviceModel : option string;
  loc_timestamp : Z;
  isLive : bool
}.

(** [JSON.stringify] on a location. *)
Variable stringify : LocationData -> string.

Inductive Payload : Type :=
| with_message (text : string)                   (* { message } *)
| with_room (roomId roomName : string)           (* { roomId, roomName } *)
| with_user (userId userName : string)           (* { userId, userName } *)
| with_locations (locations : list string)       (* { locations }, parsed documents *)
| with_location (data : LocationData)
| with_confirmation (timestamp : Z) (lat lng : number).

(** What a presence handler sends out. *)
Inductive Signal : Type :=
| socket_join (roomId : string)                          (* socket.join(`room:${roomId}`) *)
| socket_leave (roomId : string)                         (* socket.leave(`room:${roomId}`) *)
| emit (event : string) (p : Payload)                    (* socket.emit *)
| emit_to_room (roomId event : string) (p : Payload)     (* socket.to(`room:${roomId}`).emit *)
| publish_on (channel kind : string) (p : Payload).      (* redisClient.publish, { type, data } *)

(** The current locations of the other members of the set, in the order
    [SMEMBERS] lists them. *)
Definition other_locations (roomId userId : string) (rd : Redis) : list string :=
  omap (fun memberId : string =>
          if (memberId =? userId)%string then None
          else match location_keys rd !! (roomId, memberId) with
               | Some doc => if (doc =? "")%string then None else Some doc
               | None => None
               end)
       (elements (default (∅ : gset string) (member_sets rd !! roomId))).

(** The ['join-room'] handler. *)
Definition on_join_room (socket : AuthenticatedSocket) (roomId : string) (now : Z)
    (st : State) : list Signal * State :=
  match active_membership roomId (socket_userId socket) (db st) with
  | None => ([emit "error" (with_message "Not authorized to join this room")], st)
  | Some roomMember =>
      match room_findUnique (RoomMember.room_id roomMember) (db st) with
      | None => ([emit "error" (with_message "Failed to join room")], st)
      | Some r =>
          if negb (Room.status r =? "active")%string
          then ([emit "error" (with_message "Not authorized to join this room")], st)
          else
            match roomMember_update (has_member_id (RoomMember.id roomMember)) (touch now)
                                    (db st) with
            | (Err _, _) =>
                ([socket_join roomId; emit "error" (with_message "Failed to join room")], st)
            | (Ok _, d) =>
                let rd := sAdd roomId [socket_userId socket] (redis st) in
                let currentLocations := other_locations roomId (socket_userId socket) rd in
                (([socket_join roomId;
                   emit "joined-room" (with_room roomId (Room.name r));
                   emit_to_room roomId "user-joined"
                     (with_user (socket_userId socket) (socket_userName socket))]
                  ++ (if (0 <? Z.of_nat (length currentLocations))
                      then [emit "room-locations" (with_locations currentLocations)]
                      else []))%list,
                 mkState d rd)
            end
      end
  end.

(** The ['location-update'] handler. *)
Definition on_location_update (socket : AuthenticatedSocket) (data : LocationUpdate)
    (now : Z) (st : State) : list Signal * State :=
  let roomId := lu_roomId data in
  match active_membership roomId (socket_userId socket) (db st) with
  | None =>
      ([emit "error" (with_message "Not authorized to update location in this room")], st)
  | Some roomMember =>
      let locationData :=
        mkLocationData (socket_userId socket) (socket_userName socket)
                       (latitude data) (longitude data) (accuracy data) (speed data)
                       (bearing data) (heading data) (altitude data) (batteryLevel data)
                       (deviceModel data) now true in
      let rd := set_locations (insert (roomId, socket_userId socket) (stringify locationData))
                              (redis st) in
      match roomMember_update (has_member_id (RoomMember.id roomMember)) (touch now)
                              (db st) with
      | (Err _, _) =>
          ([emit "error" (with_message "Failed to update location")], mkState (db st) rd)
      | (Ok _, d) =>
          ([publish_on ("room:" ++ roomId ++ ":locations") "location-updated"
                       (with_location locationData);
            emit_to_room roomId "location-updated" (with_location locationData);
            emit "location-confirmed"
                 (with_confirmation now (latitude data) (longitude data))],
           mkState d rd)
      end
  end.


End Presence.

Arguments with_message {number} text.
Arguments with_room {number} roomId roomName.
Arguments with_user {number} userId userName.
Arguments with_locations {number} locations.
Arguments socket_join {number} roomId.
Arguments socket_leave {number} roomId.

(** A stand-in for [JSON.stringify] in the scenarios. *)
Definition sample_stringify (l : LocationData Z) : string :=
  "{userId:" ++ loc_userId Z l ++ "}".

Definition bob_socket : AuthenticatedSocket := mkSocket "bob" "Bob".

(** alice has joined the channel of her room and shared a location. *)
Definition alice_shares : State :=
  snd (on_location_update Z sample_stringify alice_socket
         (mkLocationUpdate Z "r1" 48 2 None None None None None None None) 5000
         (snd (on_join_room Z alice_socket "r1" 4000 after_join))).



(** ** The [catch] blocks of the room routes *)

(** [String.prototype.includes] *)
Fixpoint includes (s sub : string) : bool :=
  String.prefix sub s
  || match s with
     | EmptyString => false
     | String _ s' => includes s' sub
     end.

(** [res.status(statusCode).json({ error: message, code: errorCode })] *)
Record ErrorResponse : Type := mkErrorResponse {
  statusCode : Z;
  error : string;
  code : string
}.

(** The [catch] block of [POST /join], on the message of the error caught. *)
Definition join_route_catch (msg : string) : ErrorResponse :=
  if includes msg "not found" then mkErrorResponse 404 msg "ROOM_NOT_FOUND"
  else if includes msg "full" then mkErrorResponse 409 msg "ROOM_FULL"
  else if includes msg "expired" then mkErrorResponse 410 msg "ROOM_EXPIRED"
  else if includes msg "already a member" then mkErrorResponse 409 msg "ALREADY_MEMBER"
  else if includes msg "currently being modified" then mkErrorResponse 429 msg "ROOM_BUSY"
  else mkErrorResponse 500 msg "JOIN_ROOM_FAILED".

(** The [catch] block of [POST /:roomId/leave]. *)
Definition leave_route_catch (msg : string) : ErrorResponse :=
  if includes msg "not a member" then mkErrorResponse 403 msg "NOT_MEMBER"
  else if includes msg "not an active member" then mkErrorResponse 409 msg "ALREADY_LEFT"
  else mkErrorResponse 500 msg "LEAVE_ROOM_FAILED".

(** The [catch] block of [GET /:roomId]. *)
Definition details_route_catch (msg : string) : ErrorResponse :=
  if includes msg "not found" then mkErrorResponse 404 msg "ROOM_NOT_FOUND"
  else if includes msg "Access denied" then mkErrorResponse 403 msg "ACCESS_DENIED"
  else mkErrorResponse 500 msg "GET_ROOM_FAILED".

(** ** The ['disconnect'] handler *)

(** The document under [socket:<userId>]. *)
Record SocketInfo : Type := mkSocketInfo {
  socketId : string;
  info_userName : string;
  connectedAt : Z
}.

(** The service state together with the [socket:<userId>] keys. *)
Record Server : Type := mkServer {
  core : State;
  socket_keys : gmap string SocketInfo
}.

(** [roomMember.findMany({ where: { user_id, status: 'active' }, select: { room_id } })] *)
Definition active_room_ids (userId : string) (d : DB) : list string :=
  List.map RoomMember.room_id
    (List.filter (fun m => (RoomMember.user_id m =? userId)%string
                           && (RoomMember.status m =? "active")%string)
                 (room_members d)).

(** One pass of the loop of the handler: [sRem], then [del]. *)
Definition drop_presence (userId : string) (st : State) (roomId : string) : State :=
  on_redis (fun rd => set_locations (delete (roomId, userId)) (sRem roomId userId rd)) st.

Definition on_disconnect (number : Type) (socket : AuthenticatedSocket) (sv : Server)
    : list (Signal number) * Server :=
  let userRooms := active_room_ids (socket_userId socket) (db (core sv)) in
  (List.flat_map
     (fun roomId =>
        [publish_on number ("room:" ++ roomId ++ ":locations") "user-offline"
                    (with_user (socket_userId socket) (socket_userName socket));
         emit_to_room number roomId "user-offline"
                      (with_user (socket_userId socket) (socket_userName socket))])
     userRooms,
   mkServer (List.fold_left (drop_presence (socket_userId socket)) userRooms (core sv))
            (delete (socket_userId socket) (socket_keys sv))).

(** ** [joinRoom] between its awaits *)

(** Where a call of [joinRoom] stands. Each step below ends at an [await]
    of the function, where other requests and the clock act on the store
    and on Redis before the call goes on. *)
Inductive JoinPhase : Type :=
| Start                                      (* nothing read yet *)
| Resolved (roomId : string)                 (* room id known, [SET NX] not yet sent *)
| Locked (roomId : string)                   (* in [try], before the transaction *)
| Committed (roomId : string) (res : JoinResult)
                                             (* in [try], before the cache update *)
| Releasing (roomId : string) (res : result JoinResult)
                                             (* [try] left, [finally] pending *)
| Done (res : result JoinResult).            (* returned or thrown *)

Definition join_step (data : JoinRoomData) (lockValue memberId : string) (now : Z)
    (ph : JoinPhase) (st : State) : JoinPhase * State :=
  match ph with
  | Start =>
      match resolve_code (roomCode data) st with
      | Err e => (Done (Err e), st)
      | Ok roomId => (Resolved roomId, st)
      end
  | Resolved roomId =>
      match set_nx roomId lockValue (redis st) with
      | None => (Done (Err RoomBusy), st)
      | Some locked => (Locked roomId, mkState (db st) locked)
      end
  | Locked roomId =>
      match transaction (joinRoom_tx roomId (userId data) (nickname data) memberId now)
                        (db st) with
      | (Ok res, d) => (Committed roomId res, with_db d st)
      | (Err e, _) => (Releasing roomId (Err e), st)
      end
  | Committed roomId res =>
      (Releasing roomId (Ok res), updateRoomMemberCount roomId 1 st)
  | Releasing roomId res =>
      (Done res, on_redis (release_script roomId lockValue) st)
  | Done res => (Done res, st)
  end.

(** [n] steps of one call with nothing happening in between. *)
Fixpoint join_steps (data : JoinRoomData) (lockValue memberId : string) (now : Z)
    (n : nat) (c : JoinPhase * State) : JoinPhase * State :=
  match n with
  | O => c
  | S n' =>
      join_steps data lockValue memberId now n'
                 (join_step data lockValue memberId now (fst c) (snd c))
  end.

(** * Properties *)

(** ** The lock *)

Lemma set_nx_Some key value r locked :
  set_nx key value r = Some locked ->
  lock_keys r !! key = None /\ locked = set_locks (insert key value) r.
Proof.
  unfold set_nx. destruct (lock_keys r !! key); [discriminate|].
  intros [= <-]. split; reflexivity.
Qed.

Lemma release_script_own key token r :
  lock_keys r !! key = Some token ->
  release_script key token r = set_locks (delete key) r.
Proof.
  intros H. unfold release_script. rewrite H.
  now rewrite String.eqb_refl.
Qed.

Lemma release_script_other key token r :
  lock_keys r !! key <> Some token ->
  release_script key token r = r.
Proof.
  intros H. unfold release_script.
  destruct (lock_keys r !! key) as [v|] eqn:E; [|reflexivity].
  destruct (String.eqb_spec v token) as [->|]; [|reflexivity].
  now destruct H.
Qed.

Lemma release_after_set_nx key token r locked :
  set_nx key token r = Some locked ->
  release_script key token locked = r.
Proof.
  intros H. apply set_nx_Some in H as [Hfree ->].
  rewrite release_script_own by (simpl; apply lookup_insert_eq).
  destruct r as [codes locks views sets locs chats]. unfold set_locks. simpl in *.
  f_equal. now apply delete_insert_id.
Qed.

(** What the body of the [try] block leaves of the lock: nothing in it
    writes a lock key. *)
Lemma updateRoomMemberCount_lock_keys roomId delta st :
  lock_keys (redis (updateRoomMemberCount roomId delta st)) = lock_keys (redis st).
Proof.
  unfold updateRoomMemberCount. now destruct (room_keys (redis st) !! roomId).
Qed.

Lemma joinRoom_locked_lock_keys roomId data memberId now st :
  lock_keys (redis (snd (joinRoom_locked roomId data memberId now st)))
  = lock_keys (redis st).
Proof.
  unfold joinRoom_locked.
  destruct (transaction _ _) as [[res|e] d]; simpl; [|reflexivity].
  now rewrite updateRoomMemberCount_lock_keys.
Qed.

(** ** [joinRoom] step by step *)

Lemma join_steps_joinRoom data lockValue memberId now st :
  join_steps data lockValue memberId now 5 (Start, st)
  = (Done (fst (joinRoom data lockValue memberId now st)),
     snd (joinRoom data lockValue memberId now st)).
Proof.
  unfold joinRoom. cbn [join_steps join_step fst snd].
  destruct (resolve_code (roomCode data) st) as [roomId|e]; cbn [join_step fst snd];
    [|reflexivity].
  destruct (set_nx roomId lockValue (redis st)) as [locked|]; cbn [join_step fst snd];
    [|reflexivity].
  unfold joinRoom_locked. cbn [db].
  destruct (transaction _ _) as [[res|e] d]; reflexivity.
Qed.

Lemma join_step_Resolved_free data lockValue memberId now roomId st :
  lock_keys (redis st) !! roomId = None ->
  join_step data lockValue memberId now (Resolved roomId) st
  = (Locked roomId, on_redis (set_locks (insert roomId lockValue)) st).
Proof.
  intros H. cbn [join_step]. unfold set_nx. now rewrite H.
Qed.

Lemma join_step_Resolved_held data lockValue memberId now roomId st v :
  lock_keys (redis st) !! roomId = Some v ->
  join_step data lockValue memberId now (Resolved roomId) st = (Done (Err RoomBusy), st).
Proof.
  intros H. cbn [join_step]. unfold set_nx. now rewrite H.
Qed.

Lemma join_step_Locked data lockValue memberId now roomId st :
  (exists res st',
      join_step data lockValue memberId now (Locked roomId) st = (Committed roomId res, st')
      /\ redis st' = redis st)
  \/ (exists e,
         join_step data lockValue memberId now (Locked roomId) st
         = (Releasing roomId (Err e), st)).
Proof.
  cbn [join_step].
  destruct (transaction _ _) as [[res|e] d].
  - left. exists res, (with_db d st). split; reflexivity.
  - right. now exists e.
Qed.

Lemma release_script_lookup key token r :
  lock_keys (release_script key token r) !! key
  = match lock_keys r !! key with
    | Some v => if (v =? token)%string then None else Some v
    | None => None
    end.
Proof.
  unfold release_script.
  destruct (lock_keys r !! key) as [v|] eqn:E; [|exact E].
  destruct (v =? token)%string; [|exact E].
  simpl. apply lookup_delete_eq.
Qed.

Lemma release_script_lookup_ne key token r k :
  k <> key ->
  lock_keys (release_script key token r) !! k = lock_keys r !! k.
Proof.
  intros Hne. unfold release_script.
  destruct (lock_keys r !! key) as [v|]; [|reflexivity].
  destruct (v =? token)%string; [|reflexivity].
  simpl. now apply lookup_delete_ne.
Qed.

Lemma release_script_rest key token r :
  room_code_keys (release_script key token r) = room_code_keys r
  /\ room_keys (release_script key token r) = room_keys r
  /\ member_sets (release_script key token r) = member_sets r
  /\ location_keys (release_script key token r) = location_keys r
  /\ chat_lists (release_script key token r) = chat_lists r.
Proof.
  unfold release_script.
  destruct (lock_keys r !! key) as [v|]; [|repeat split].
  destruct (v =? token)%string; repeat split.
Qed.

(** No step of a call changes a lock key held under a token other than
    the call's own. *)
Lemma join_step_foreign_lock data lockValue memberId now ph st key v :
  lock_keys (redis st) !! key = Some v ->
  v <> lockValue ->
  lock_keys (redis (snd (join_step data lockValue memberId now ph st))) !! key = Some v.
Proof.
  intros Hheld Hne.
  destruct ph as [|roomId|roomId|roomId res|roomId res|res]; cbn [join_step].
  - now destruct (resolve_code (roomCode data) st).
  - unfold set_nx.
    destruct (lock_keys (redis st) !! roomId) as [w|] eqn:E; [exact Hheld|].
    cbn [snd redis set_locks lock_keys].
    rewrite lookup_insert_ne; [exact Hheld|].
    intros ->. rewrite E in Hheld. discriminate.
  - now destruct (transaction _ _) as [[res|e] d].
  - cbn [snd]. now rewrite updateRoomMemberCount_lock_keys.
  - cbn [snd on_redis redis].
    destruct (String.eqb_spec key roomId) as [->|Hk].
    + rewrite release_script_lookup, Hheld.
      destruct (String.eqb_spec v lockValue) as [E|]; [now destruct Hne|reflexivity].
    + now rewrite release_script_lookup_ne.
  - exact Hheld.
Qed.

(** From inside the [try] block a call is through its [finally] after
    three steps, whichever way the transaction went. *)
Lemma join_steps_from_Locked data lockValue memberId now roomId st :
  exists res,
    fst (join_steps data lockValue memberId now 3 (Locked roomId, st)) = Done res
    /\ lock_keys (redis (snd (join_steps data lockValue memberId now 3 (Locked roomId, st))))
         !! roomId
       = match lock_keys (redis st) !! roomId with
         | Some v => if (v =? lockValue)%string then None else Some v
         | None => None
         end.
Proof.
  cbn [join_steps fst snd].
  destruct (join_step_Locked data lockValue memberId now roomId st)
    as [(res & st' & -> & Hrd)|(e & ->)]; cbn [join_step fst snd].
  - exists (Ok res). split; [reflexivity|].
    cbn [on_redis redis]. rewrite release_script_lookup.
    now rewrite updateRoomMemberCount_lock_keys, Hrd.
  - exists (Err e). split; [reflexivity|].
    cbn [on_redis redis]. now rewrite release_script_lookup.
Qed.

(** C3. [joinRoom] is a run of five steps, each ending at an [await]
    where other requests and the clock may act. Asking for the lock writes
    the caller's token under the room's lock key when the key is absent and
    refuses with RoomBusy, changing nothing, when it is present. Inside the
    [try] block no step touches a lock key, and every way out of the block,
    committed or thrown, leads to the release; the release returns the
    outcome of the block unchanged, deletes the lock key when its value is
    the caller's token and otherwise changes nothing, whether the key holds
    another token or is absent. So no step of a call ever changes a lock key
    held under a different token: when A's lock runs out and B acquires it,
    A's late release leaves B's token in place and B's own release removes
    it. Without interference the five steps are [joinRoom] itself and the
    lock key is absent afterwards. *)
Theorem joinRoom_releases_lock :
  (forall data lockValue memberId now st roomId locked,
      resolve_code (roomCode data) st = Ok roomId ->
      set_nx roomId lockValue (redis st) = Some locked ->
      let body := joinRoom_locked roomId data memberId now (mkState (db st) locked) in
      joinRoom data lockValue memberId now st
      = (fst body, on_redis (release_script roomId lockValue) (snd body))
      /\ lock_keys (redis (snd (joinRoom data lockValue memberId now st))) !! roomId = None)
  /\ (forall key token r,
         lock_keys r !! key = Some token ->
         release_script key token r = set_locks (delete key) r)
  /\ (forall key token r,
         lock_keys r !! key <> Some token ->
         release_script key token r = r)
  /\ (forall key tokenA tokenB r heldA heldB,
         tokenA <> tokenB ->
         set_nx key tokenA r = Some heldA ->
         set_nx key tokenB (lock_expires key heldA) = Some heldB ->
         release_script key tokenA heldB = heldB
         /\ lock_keys heldB !! key = Some tokenB)
  /\ (forall data lockValue memberId now st,
         join_steps data lockValue memberId now 5 (Start, st)
         = (Done (fst (joinRoom data lockValue memberId now st)),
            snd (joinRoom data lockValue memberId now st)))
  /\ (forall data lockValue memberId now roomId st,
         lock_keys (redis st) !! roomId = None ->
         exists st1,
           join_step data lockValue memberId now (Resolved roomId) st = (Locked roomId, st1)
           /\ lock_keys (redis st1) !! roomId = Some lockValue
           /\ (forall k, k <> roomId -> lock_keys (redis st1) !! k = lock_keys (redis st) !! k)
           /\ db st1 = db st)
  /\ (forall data lockValue memberId now roomId st holder,
         lock_keys (redis st) !! roomId = Some holder ->
         join_step data lockValue memberId now (Resolved roomId) st
         = (Done (Err RoomBusy), st))
  /\ (forall data lockValue memberId now roomId st,
         (exists res st',
             join_step data lockValue memberId now (Locked roomId) st
             = (Committed roomId res, st')
             /\ lock_keys (redis st') = lock_keys (redis st))
         \/ (exists e,
                join_step data lockValue memberId now (Locked roomId) st
                = (Releasing roomId (Err e), st)))
  /\ (forall data lockValue memberId now roomId res st,
         exists st',
           join_step data lockValue memberId now (Committed roomId res) st
           = (Releasing roomId (Ok res), st')
           /\ lock_keys (redis st') = lock_keys (redis st))
  /\ (forall data lockValue memberId now roomId res st,
         exists st',
           join_step data lockValue memberId now (Releasing roomId res) st = (Done res, st')
           /\ lock_keys (redis st') !! roomId
              = match lock_keys (redis st) !! roomId with
                | Some v => if (v =? lockValue)%string then None else Some v
                | None => None
                end
           /\ (forall k, k <> roomId -> lock_keys (redis st') !! k = lock_keys (redis st) !! k)
           /\ db st' = db st
           /\ room_code_keys (redis st') = room_code_keys (redis st)
           /\ room_keys (redis st') = room_keys (redis st)
           /\ member_sets (redis st') = member_sets (redis st)
           /\ location_keys (redis st') = location_keys (redis st)
           /\ chat_lists (redis st') = chat_lists (redis st))
  /\ (forall data lockValue memberId now ph st key v,
         lock_keys (redis st) !! key = Some v ->
         v <> lockValue ->
         lock_keys (redis (snd (join_step data lockValue memberId now ph st))) !! key = Some v)
  /\ (forall dataA tokenA memberA nowA dataB tokenB memberB nowB roomId st,
         resolve_code (roomCode dataA) st = Ok roomId ->
         resolve_code (roomCode dataB) st = Ok roomId ->
         lock_keys (redis st) !! roomId = None ->
         tokenA <> tokenB ->
         let a1 := join_steps dataA tokenA memberA nowA 2 (Start, st) in
         let timed_out := on_redis (lock_expires roomId) (snd a1) in
         let b1 := join_steps dataB tokenB memberB nowB 2 (Start, timed_out) in
         let a2 := join_steps dataA tokenA memberA nowA 3 (fst a1, snd b1) in
         let b2 := join_steps dataB tokenB memberB nowB 3 (fst b1, snd a2) in
         fst a1 = Locked roomId
         /\ lock_keys (redis (snd a1)) !! roomId = Some tokenA
         /\ fst b1 = Locked roomId
         /\ lock_keys (redis (snd b1)) !! roomId = Some tokenB
         /\ (exists r, fst a2 = Done r)
         /\ lock_keys (redis (snd a2)) !! roomId = Some tokenB
         /\ (exists r, fst b2 = Done r)
         /\ lock_keys (redis (snd b2)) !! roomId = None).
Proof.
  repeat match goal with |- _ /\ _ => split end.
  - intros data lockValue memberId now st roomId locked Hres Hnx body.
    assert (Heq : joinRoom data lockValue memberId now st
                  = (fst body, on_redis (release_script roomId lockValue) (snd body))).
    { unfold joinRoom. rewrite Hres, Hnx. fold body. now destruct body. }
    split; [exact Heq|].
    rewrite Heq. simpl.
    pose proof (joinRoom_locked_lock_keys roomId data memberId now (mkState (db st) locked)) as Hk.
    fold body in Hk. simpl in Hk.
    apply set_nx_Some in Hnx as [_ ->]. simpl in Hk.
    rewrite release_script_own by (rewrite Hk; apply lookup_insert_eq).
    simpl. apply lookup_delete_eq.
  - exact release_script_own.
  - exact release_script_other.
  - intros key tokenA tokenB r heldA heldB Hne HA HB.
    apply set_nx_Some in HB as [_ ->].
    assert (Hheld : lock_keys (set_locks (insert key tokenB) (lock_expires key heldA)) !! key
                    = Some tokenB) by (simpl; apply lookup_insert_eq).
    split; [|exact Hheld].
    apply release_script_other. rewrite Hheld. intros [= E]. now apply Hne.
  - exact join_steps_joinRoom.
  - intros data lockValue memberId now roomId st Hfree.
    exists (on_redis (set_locks (insert roomId lockValue)) st).
    split; [now apply join_step_Resolved_free|].
    cbn [on_redis redis db set_locks lock_keys].
    split; [apply lookup_insert_eq|]. split; [|reflexivity].
    intros k Hk. now apply lookup_insert_ne.
  - intros data lockValue memberId now roomId st holder Hheld.
    now apply (join_step_Resolved_held _ _ _ _ _ _ holder).
  - intros data lockValue memberId now roomId st.
    destruct (join_step_Locked data lockValue memberId now roomId st)
      as [(res & st' & Hs & Hrd)|(e & Hs)].
    + left. exists res, st'. split; [exact Hs|now rewrite Hrd].
    + right. now exists e.
  - intros data lockValue memberId now roomId res st.
    exists (updateRoomMemberCount roomId 1 st). split; [reflexivity|].
    apply updateRoomMemberCount_lock_keys.
  - intros data lockValue memberId now roomId res st.
    exists (on_redis (release_script roomId lockValue) st). split; [reflexivity|].
    cbn [on_redis redis db].
    split; [apply release_script_lookup|].
    split; [intros k Hk; now apply release_script_lookup_ne|].
    split; [reflexivity|]. apply release_script_rest.
  - exact join_step_foreign_lock.
  - intros dataA tokenA memberA nowA dataB tokenB memberB nowB roomId st HA HB Hfree Hne.
    assert (Ha1 : join_steps dataA tokenA memberA nowA 2 (Start, st)
                  = (Locked roomId, on_redis (set_locks (insert roomId tokenA)) st)).
    { cbn [join_steps join_step fst snd]. rewrite HA. cbn [fst snd].
      now apply join_step_Resolved_free. }
    rewrite Ha1. cbn [fst snd]. cbv zeta.
    set (s2 := on_redis (lock_expires roomId) (on_redis (set_locks (insert roomId tokenA)) st)).
    assert (Hfree2 : lock_keys (redis s2) !! roomId = None)
      by (unfold s2; cbn; apply lookup_delete_eq).
    assert (HB2 : resolve_code (roomCode dataB) s2 = Ok roomId) by exact HB.
    assert (Hb1 : join_steps dataB tokenB memberB nowB 2 (Start, s2)
                  = (Locked roomId, on_redis (set_locks (insert roomId tokenB)) s2)).
    { cbn [join_steps join_step fst snd]. rewrite HB2. cbn [fst snd].
      now apply join_step_Resolved_free. }
    rewrite Hb1. cbn [fst snd].
    set (s3 := on_redis (set_locks (insert roomId tokenB)) s2).
    assert (Hheld3 : lock_keys (redis s3) !! roomId = Some tokenB)
      by (unfold s3; cbn [on_redis redis set_locks lock_keys]; apply lookup_insert_eq).
    destruct (join_steps_from_Locked dataA tokenA memberA nowA roomId s3) as (rA & HdA & HlA).
    rewrite Hheld3 in HlA.
    assert (HneB : (tokenB =? tokenA)%string = false)
      by (apply String.eqb_neq; intros E; now apply Hne).
    rewrite HneB in HlA.
    destruct (join_steps_from_Locked dataB tokenB memberB nowB roomId
                (snd (join_steps dataA tokenA memberA nowA 3 (Locked roomId, s3))))
      as (rB & HdB & HlB).
    rewrite HlA, String.eqb_refl in HlB.
    split; [reflexivity|].
    split; [cbn [on_redis redis set_locks lock_keys]; apply lookup_insert_eq|].
    split; [reflexivity|]. split; [exact Hheld3|].
    split; [now exists rA|]. split; [exact HlA|].
    split; [now exists rB|exact HlB].
Qed.

(** ** Room codes *)

Lemma generateRoomCode_loop_reserves attempts rand i st code st0 :
  generateRoomCode_loop attempts rand i st = (Ok code, st0) ->
  st0 = on_redis (set_room_codes (insert code "reserved")) st
  /\ room_findByCode code (db st) = None
  /\ truthy (room_code_keys (redis st) !! code) = false.
Proof.
  revert i. induction attempts as [|n IH]; intros i; simpl; [discriminate|].
  destruct (room_findByCode (rand i) (db st)) eqn:Hdb; [apply IH|].
  destruct (truthy (room_code_keys (redis st) !! rand i)) eqn:Hc; [apply IH|].
  intros [= <- <-]. auto.
Qed.

(** C7. Whenever [createRoom] fails after [generateRoomCode] has handed out
    a code, the state it leaves holds no [room_code] key for that code: the
    [catch] block has released the reservation before the error reaches the
    caller. (The reservation was present right after the allocation.) *)
Theorem createRoom_failure_releases_code data rand roomId memberId now fault st code st0 e st' :
  generateRoomCode rand st = (Ok code, st0) ->
  createRoom data rand roomId memberId now fault st = (Err e, st') ->
  room_code_keys (redis st0) !! code = Some "reserved"
  /\ room_code_keys (redis st') !! code = None.
Proof.
  intros Hgen Hcreate. split.
  - apply generateRoomCode_loop_reserves in Hgen as (-> & _ & _).
    simpl. apply lookup_insert_eq.
  - unfold createRoom in Hcreate. rewrite Hgen in Hcreate.
    destruct fault.
    + destruct (transaction _ _) as [[[r m]|e'] d].
      * discriminate.
      * injection Hcreate as _ <-. simpl. apply lookup_delete_eq.
    + injection Hcreate as _ <-. simpl. apply lookup_delete_eq.
    + destruct (transaction _ _) as [[[r m]|e'] d];
        injection Hcreate as _ <-; simpl.
      * unfold cacheRoomData. simpl. apply lookup_delete_eq.
      * apply lookup_delete_eq.
Qed.

(** ** The cached member count *)

Lemma updateRoomMemberCount_hit roomId delta st room :
  room_keys (redis st) !! roomId = Some room ->
  room_keys (redis (updateRoomMemberCount roomId delta st)) !! roomId
  = Some (mkRoomView (view_room room) (members room)
                     (Some (Z.max 0 (default 0 (memberCount room) + delta)))).
Proof.
  intros H. unfold updateRoomMemberCount. rewrite H. simpl. apply lookup_insert_eq.
Qed.

Lemma updateRoomMemberCount_miss roomId delta st :
  room_keys (redis st) !! roomId = None ->
  updateRoomMemberCount roomId delta st = st.
Proof.
  intros H. unfold updateRoomMemberCount. now rewrite H.
Qed.

Lemma transaction_Err {A} (body : Tx A) d e d' :
  transaction body d = (Err e, d') -> d' = d.
Proof.
  unfold transaction. destruct (body d) as [[a|e0] d0]; intros [= ]; congruence.
Qed.

Lemma leaveRoom_tx_left roomId userId now d m :
  roomMember_find roomId userId d = Some m ->
  RoomMember.status m = "left"%string ->
  leaveRoom_tx roomId userId now d = (Ok m, d).
Proof.
  intros Hf Hs. unfold leaveRoom_tx, bind, query, ret. rewrite Hf, Hs. reflexivity.
Qed.

Lemma leaveRoom_left roomId userId now st m :
  roomMember_find roomId userId (db st) = Some m ->
  RoomMember.status m = "left"%string ->
  leaveRoom roomId userId now st
  = (Ok m, on_redis (sRem roomId userId)
             (on_redis (set_locations (delete (roomId, userId)))
                (updateRoomMemberCount roomId (-1) st))).
Proof.
  intros Hf Hs. unfold leaveRoom, transaction.
  rewrite (leaveRoom_tx_left _ _ _ _ _ Hf Hs), Hs. simpl.
  destruct st; reflexivity.
Qed.

Lemma release_script_room_keys key token r :
  room_keys (release_script key token r) = room_keys r.
Proof.
  unfold release_script. destruct (lock_keys r !! key) as [v|]; [|reflexivity].
  now destruct (v =? token)%string.
Qed.

(** C10. The member-count update stores [max 0 (previous + delta)] in a
    cached room entry, which is never negative, and changes nothing when the
    room has no cached entry; this is the count left by a successful
    [joinRoom] (delta +1) and by [leaveRoom] (delta -1), also when the member
    had already left. *)
Theorem cached_member_count_never_negative :
  (forall roomId delta st room,
      room_keys (redis st) !! roomId = Some room ->
      exists room',
        room_keys (redis (updateRoomMemberCount roomId delta st)) !! roomId = Some room'
        /\ memberCount room' = Some (Z.max 0 (default 0 (memberCount room) + delta))
        /\ 0 <= Z.max 0 (default 0 (memberCount room) + delta))
  /\ (forall roomId delta st,
         room_keys (redis st) !! roomId = None ->
         updateRoomMemberCount roomId delta st = st)
  /\ (forall roomId userId now st m room,
         roomMember_find roomId userId (db st) = Some m ->
         RoomMember.status m = "left"%string ->
         room_keys (redis st) !! roomId = Some room ->
         exists room',
           room_keys (redis (snd (leaveRoom roomId userId now st))) !! roomId = Some room'
           /\ memberCount room' = Some (Z.max 0 (default 0 (memberCount room) + -1)))
  /\ (forall data lockValue memberId now st roomId res st' room,
         resolve_code (roomCode data) st = Ok roomId ->
         joinRoom data lockValue memberId now st = (Ok res, st') ->
         room_keys (redis st) !! roomId = Some room ->
         exists room',
           room_keys (redis st') !! roomId = Some room'
           /\ memberCount room' = Some (Z.max 0 (default 0 (memberCount room) + 1))).
Proof.
  split; [|split; [|split]].
  - intros roomId delta st room H.
    rewrite (updateRoomMemberCount_hit _ delta _ _ H).
    eexists. split; [reflexivity|]. split; [reflexivity|lia].
  - exact updateRoomMemberCount_miss.
  - intros roomId userId now st m room Hf Hs Hroom.
    rewrite (leaveRoom_left _ _ _ _ _ Hf Hs). simpl.
    rewrite (updateRoomMemberCount_hit _ (-1) _ _ Hroom).
    eexists. split; reflexivity.
  - intros data lockValue memberId now st roomId res st' room Hres Hjoin Hroom.
    unfold joinRoom in Hjoin. rewrite Hres in Hjoin.
    destruct (set_nx roomId lockValue (redis st)) as [locked|] eqn:Hnx; [|discriminate].
    apply set_nx_Some in Hnx as [_ ->].
    unfold joinRoom_locked in Hjoin. simpl in Hjoin.
    destruct (transaction _ _) as [[res'|e] d]; [|discriminate].
    injection Hjoin as _ <-.
    simpl. rewrite release_script_room_keys.
    rewrite (updateRoomMemberCount_hit roomId 1
               (with_db d (mkState (db st) (set_locks (insert roomId lockValue) (redis st))))
               room Hroom).
    eexists. split; reflexivity.
Qed.

(** ** Lists of rows *)

Lemma find_update_where {A} (q p : A -> bool) (f : A -> A) (l : list A) :
  (forall x, q (f x) = q x) ->
  List.find q (update_where p f l)
  = option_map (fun x => if p x then f x else x) (List.find q l).
Proof.
  intros Hq. induction l as [|a l IH]; simpl; [reflexivity|].
  assert (Ha : q (if p a then f a else a) = q a) by (destruct (p a); auto).
  rewrite Ha. now destruct (q a).
Qed.

Lemma map_update_where {A B} (g : A -> B) (p : A -> bool) (f : A -> A) (l : list A) :
  (forall x, g (f x) = g x) ->
  List.map g (update_where p f l) = List.map g l.
Proof.
  intros Hg. unfold update_where. rewrite List.map_map.
  apply List.map_ext. intros a. destruct (p a); auto.
Qed.

Lemma length_update_where {A} (p : A -> bool) (f : A -> A) (l : list A) :
  length (update_where p f l) = length l.
Proof. apply List.length_map. Qed.

Lemma find_In_true {A} (p : A -> bool) (l : list A) (a : A) :
  In a l -> p a = true -> exists b, List.find p l = Some b.
Proof.
  intros Hin Hp. destruct (List.find p l) as [b|] eqn:E; [eauto|].
  pose proof (List.find_none _ _ E _ Hin). congruence.
Qed.

Lemma find_by_unique_id (l : list RoomMember.t) (m : RoomMember.t) :
  NoDup (List.map RoomMember.id l) -> In m l ->
  List.find (has_member_id (RoomMember.id m)) l = Some m.
Proof.
  induction l as [|a l IH]; simpl; [tauto|].
  intros Hnd Hin. inversion Hnd as [|? ? Hnotin Hnd']; subst.
  unfold has_member_id at 1.
  destruct (String.eqb_spec (RoomMember.id a) (RoomMember.id m)) as [Heq|Hne].
  - destruct Hin as [->|Hin]; [reflexivity|].
    exfalso. apply Hnotin. rewrite Heq. apply list_elem_of_In. now apply List.in_map.
  - destruct Hin as [->|Hin]; [congruence|]. now apply IH.
Qed.

(** ** [leaveRoom] *)

Section LeaveRoom.

Variables (roomId userId : string) (now : Z).

Lemma leaveRoom_tx_missing d :
  roomMember_find roomId userId d = None ->
  leaveRoom_tx roomId userId now d = (Err NotMember, d).
Proof.
  intros H. unfold leaveRoom_tx, bind, query, throw. now rewrite H.
Qed.

(** The transaction on an active member, statement by statement. *)
Lemma leaveRoom_tx_active d m :
  roomMember_find roomId userId d = Some m ->
  RoomMember.status m = "active"%string ->
  exists m',
    List.find (still_active m) (room_members d) = Some m'
    /\ let d1 := mkDB (rooms d)
                      (update_where (still_active m) (RoomMember.leave now) (room_members d)) in
       leaveRoom_tx roomId userId now d
       = if (RoomMember.role m =? "owner")%string
         then match next_member roomId userId d1 with
              | Some next =>
                  match List.find (has_member_id (RoomMember.id next)) (room_members d1) with
                  | Some _ =>
                      (Ok (RoomMember.leave now m'),
                       mkDB (rooms d1)
                            (update_where (has_member_id (RoomMember.id next))
                                          RoomMember.promote (room_members d1)))
                  | None => (Err RecordNotFound, d1)
                  end
              | None =>
                  match List.find (is_room roomId) (rooms d1) with
                  | Some _ =>
                      (Ok (RoomMember.leave now m'),
                       mkDB (update_where (is_room roomId) (Room.close now) (rooms d1))
                            (room_members d1))
                  | None => (Err RecordNotFound, d1)
                  end
              end
         else (Ok (RoomMember.leave now m'), d1).
Proof.
  intros Hf Hs.
  assert (Hin : In m (room_members d)) by (apply (List.find_some _ _ Hf)).
  assert (Hp : still_active m m = true).
  { unfold still_active, has_member_id. now rewrite String.eqb_refl, Hs. }
  destruct (find_In_true _ _ _ Hin Hp) as [m' Hm'].
  exists m'. split; [exact Hm'|].
  unfold leaveRoom_tx, bind, query, ret, roomMember_update, room_update.
  rewrite Hf, Hs. simpl. fold (still_active m). rewrite Hm'.
  destruct (RoomMember.role m =? "owner")%string; [|reflexivity].
  simpl. destruct (next_member _ _ _) as [next|]; simpl.
  - now destruct (List.find (has_member_id (RoomMember.id next)) _).
  - now destruct (List.find (is_room roomId) (rooms d)).
Qed.

(** After a successful [leaveRoom] the member's row is a left row. *)
Lemma leaveRoom_tx_leaves_left d res d' :
  leaveRoom_tx roomId userId now d = (Ok res, d') ->
  RoomMember.status res = "left"%string
  /\ exists m, roomMember_find roomId userId d' = Some m
               /\ RoomMember.status m = "left"%string.
Proof.
  intros Htx.
  destruct (roomMember_find roomId userId d) as [m|] eqn:Hf;
    [|rewrite (leaveRoom_tx_missing _ Hf) in Htx; discriminate].
  destruct (String.eqb_spec (RoomMember.status m) "left") as [Hl|Hnl].
  { rewrite (leaveRoom_tx_left _ _ _ _ _ Hf Hl) in Htx.
    injection Htx as <- <-. eauto. }
  destruct (String.eqb_spec (RoomMember.status m) "active") as [Ha|Hna].
  2:{ unfold leaveRoom_tx, bind, query, throw in Htx. rewrite Hf in Htx.
      apply String.eqb_neq in Hnl, Hna. rewrite Hnl, Hna in Htx. discriminate. }
  destruct (leaveRoom_tx_active d m Hf Ha) as (m' & Hm' & Heq).
  cbv zeta in Heq. rewrite Heq in Htx. clear Heq.
  assert (Hstill : still_active m m = true).
  { unfold still_active, has_member_id. now rewrite String.eqb_refl, Ha. }
  assert (Hkey : forall x, is_member_of roomId userId (RoomMember.leave now x)
                           = is_member_of roomId userId x) by reflexivity.
  assert (Hkey' : forall x, is_member_of roomId userId (RoomMember.promote x)
                            = is_member_of roomId userId x) by reflexivity.
  assert (H1 : List.find (is_member_of roomId userId)
                 (update_where (still_active m) (RoomMember.leave now) (room_members d))
               = Some (RoomMember.leave now m)).
  { rewrite find_update_where by exact Hkey.
    unfold roomMember_find in Hf. rewrite Hf. simpl. now rewrite Hstill. }
  destruct (RoomMember.role m =? "owner")%string.
  - destruct (next_member _ _ _) as [next|].
    + destruct (List.find (has_member_id (RoomMember.id next)) _); [|discriminate].
      injection Htx as <- <-. split; [reflexivity|].
      unfold roomMember_find. simpl.
      rewrite find_update_where by exact Hkey'. simpl in H1. rewrite H1. simpl.
      eexists. split; [reflexivity|].
      now destruct (has_member_id _ _).
    + simpl in Htx. destruct (List.find (is_room roomId) (rooms d)); [|discriminate].
      injection Htx as <- <-. split; [reflexivity|].
      unfold roomMember_find. simpl. simpl in H1. rewrite H1. eauto.
  - injection Htx as <- <-. split; [reflexivity|].
    unfold roomMember_find. simpl. simpl in H1. rewrite H1. eauto.
Qed.

End LeaveRoom.

(** C5. [leaveRoom] on a member whose row is already left returns that row
    without error and leaves both tables as they were (no second ownership
    transfer, no change of the room's status); with no row for the pair it
    fails with NotMember and changes nothing; and after any successful
    [leaveRoom] a second call for the same pair succeeds again, returns a
    left row and leaves the tables as the first call left them. *)
Theorem leaveRoom_idempotent :
  (forall roomId userId now st m,
      roomMember_find roomId userId (db st) = Some m ->
      RoomMember.status m = "left"%string ->
      fst (leaveRoom roomId userId now st) = Ok m
      /\ db (snd (leaveRoom roomId userId now st)) = db st)
  /\ (forall roomId userId now st,
         roomMember_find roomId userId (db st) = None ->
         leaveRoom roomId userId now st = (Err NotMember, st))
  /\ (forall roomId userId now now' st res st1,
         leaveRoom roomId userId now st = (Ok res, st1) ->
         exists res',
           fst (leaveRoom roomId userId now' st1) = Ok res'
           /\ RoomMember.status res' = "left"%string
           /\ roomMember_find roomId userId (db st1) = Some res'
           /\ db (snd (leaveRoom roomId userId now' st1)) = db st1).
Proof.
  split; [|split].
  - intros roomId userId now st m Hf Hs.
    rewrite (leaveRoom_left _ _ _ _ _ Hf Hs). simpl. split; [reflexivity|].
    unfold updateRoomMemberCount. now destruct (room_keys (redis st) !! roomId).
  - intros roomId userId now st Hf. unfold leaveRoom, transaction.
    now rewrite (leaveRoom_tx_missing _ _ _ _ Hf).
  - intros roomId userId now now' st res st1 Hleave.
    assert (Hdb : exists d, leaveRoom_tx roomId userId now (db st) = (Ok res, d)
                            /\ db st1 = d).
    { unfold leaveRoom, transaction in Hleave.
      destruct (leaveRoom_tx roomId userId now (db st)) as [[r|e] d]; [|discriminate].
      exists d. destruct (RoomMember.status r =? "left")%string;
        injection Hleave as <- <-; split; try reflexivity.
      simpl. unfold updateRoomMemberCount. simpl.
      now destruct (room_keys (redis st) !! roomId). }
    destruct Hdb as (d & Htx & Hd).
    apply leaveRoom_tx_leaves_left in Htx as (_ & m & Hm & Hleft).
    rewrite <- Hd in Hm.
    exists m. rewrite (leaveRoom_left _ _ now' _ _ Hm Hleft). simpl.
    repeat split; auto.
    unfold updateRoomMemberCount. now destruct (room_keys (redis st1) !! roomId).
Qed.

(** ** [joinRoom] *)

Section JoinRoom.

Variables (data : JoinRoomData) (lockValue memberId : string) (now : Z).

Lemma room_findUnique_id rid d r :
  room_findUnique rid d = Some r -> Room.id r = rid.
Proof.
  intros H. apply List.find_some in H as [_ H]. now apply String.eqb_eq in H.
Qed.

Lemma joinRoom_tx_guarded rid d r e :
  room_findUnique rid d = Some r ->
  join_guard now r d = Some e ->
  joinRoom_tx rid (userId data) (nickname data) memberId now d = (Err e, d).
Proof.
  intros Hr Hg. unfold join_guard in Hg. rewrite (room_findUnique_id _ _ _ Hr) in Hg.
  unfold joinRoom_tx, bind, query, throw. rewrite Hr.
  destruct (negb (Room.status r =? "active")%string); [congruence|].
  destruct (expired now r); [congruence|].
  destruct (Z.of_nat (length (active_members rid d)) >=? Room.max_members r);
    congruence.
Qed.

Lemma joinRoom_tx_passed rid d r :
  room_findUnique rid d = Some r ->
  join_guard now r d = None ->
  joinRoom_tx rid (userId data) (nickname data) memberId now d
  = match roomMember_find rid (userId data) d with
    | Some existing =>
        if (RoomMember.status existing =? "active")%string then (Err AlreadyMember, d)
        else
          match List.find (has_member_id (RoomMember.id existing)) (room_members d) with
          | Some m =>
              let f := RoomMember.reactivate
                         (or_else (nickname data) (RoomMember.nickname existing)) now in
              (Ok (mkJoinResult r (f m) true),
               mkDB (rooms d)
                    (update_where (has_member_id (RoomMember.id existing)) f (room_members d)))
          | None => (Err RecordNotFound, d)
          end
    | None =>
        let created :=
          RoomMember.mk memberId rid (userId data) (or_else (nickname data) "Member")
                        "member" "active" now None (Some now)
                        (Z.of_nat (length (active_members rid d)) + 1) in
        if existsb (fun m' => has_member_id memberId m'
                              || is_member_of rid (userId data) m') (room_members d)
        then (Err UniqueViolation, d)
        else (Ok (mkJoinResult r created false),
              mkDB (rooms d) (room_members d ++ [created]))
    end.
Proof.
  intros Hr Hg. unfold join_guard in Hg. rewrite (room_findUnique_id _ _ _ Hr) in Hg.
  unfold joinRoom_tx, bind, query, throw, ret. rewrite Hr.
  destruct (negb (Room.status r =? "active")%string); [discriminate|].
  destruct (expired now r); [discriminate|].
  destruct (Z.of_nat (length (active_members rid d)) >=? Room.max_members r);
    [discriminate|].
  destruct (roomMember_find rid (userId data) d) as [existing|].
  - destruct (RoomMember.status existing =? "active")%string; [reflexivity|].
    unfold roomMember_update.
    now destruct (List.find (has_member_id (RoomMember.id existing)) (room_members d)).
  - unfold roomMember_create. simpl.
    now destruct (existsb _ (room_members d)).
Qed.

(** A [joinRoom] that fails leaves the whole state as it found it. *)
Lemma joinRoom_Err_unchanged st e st' :
  joinRoom data lockValue memberId now st = (Err e, st') -> st' = st.
Proof.
  unfold joinRoom. destruct (resolve_code (roomCode data) st) as [rid|e0];
    [|now intros [= _ <-]].
  destruct (set_nx rid lockValue (redis st)) as [locked|] eqn:Hnx;
    [|now intros [= _ <-]].
  unfold joinRoom_locked.
  destruct (transaction _ _) as [[res|e1] d] eqn:Htx; [discriminate|].
  intros [= _ <-]. unfold on_redis. simpl.
  rewrite (release_after_set_nx _ _ _ _ Hnx). now destruct st.
Qed.

Lemma joinRoom_acquired st rid locked :
  resolve_code (roomCode data) st = Ok rid ->
  set_nx rid lockValue (redis st) = Some locked ->
  joinRoom data lockValue memberId now st
  = match transaction (joinRoom_tx rid (userId data) (nickname data) memberId now) (db st) with
    | (Ok res, d) => (Ok res, updateRoomMemberCount rid 1 (mkState d (redis st)))
    | (Err e, _) => (Err e, st)
    end.
Proof.
  intros Hres Hnx. unfold joinRoom, joinRoom_locked. rewrite Hres, Hnx. simpl.
  destruct (transaction _ _) as [[res|e] d].
  - f_equal. apply set_nx_Some in Hnx as [Hfree ->].
    destruct st as [d0 [codes locks views sets locs chats]]. simpl in *.
    unfold updateRoomMemberCount, with_db, on_redis, release_script. simpl.
    destruct (views !! rid); simpl;
      rewrite lookup_insert_eq, String.eqb_refl; unfold set_locks; simpl;
      now rewrite delete_insert_id.
  - f_equal. unfold on_redis. simpl.
    rewrite (release_after_set_nx _ _ _ _ Hnx). now destruct st.
Qed.

End JoinRoom.

Lemma update_where_unique_id (f : RoomMember.t -> RoomMember.t) (l : list RoomMember.t)
    (m : RoomMember.t) :
  NoDup (List.map RoomMember.id l) -> In m l ->
  exists l1 l2,
    l = (l1 ++ m :: l2)%list
    /\ update_where (has_member_id (RoomMember.id m)) f l = (l1 ++ f m :: l2)%list.
Proof.
  induction l as [|a l IH]; simpl; [tauto|].
  intros Hnd Hin. inversion Hnd as [|? ? Hnotin Hnd']; subst.
  destruct Hin as [->|Hin].
  - exists [], l. split; [reflexivity|]. simpl.
    unfold has_member_id at 1. rewrite String.eqb_refl. f_equal.
    unfold update_where. rewrite <- (List.map_id l) at 2.
    apply List.map_ext_in. intros x Hx. unfold has_member_id.
    destruct (String.eqb_spec (RoomMember.id x) (RoomMember.id m)) as [E|]; [|reflexivity].
    exfalso. apply Hnotin. rewrite <- E. apply list_elem_of_In. now apply List.in_map.
  - destruct (IH Hnd' Hin) as (l1 & l2 & -> & Hupd).
    exists (a :: l1), l2. split; [reflexivity|]. simpl. rewrite Hupd.
    unfold has_member_id at 1.
    destruct (String.eqb_spec (RoomMember.id a) (RoomMember.id m)) as [E|]; [|reflexivity].
    exfalso. apply Hnotin. rewrite E. apply list_elem_of_In. now apply List.in_map.
Qed.

(** The rows a rejoin leaves, for a user whose row in the room has status
    left, in a store with unique member ids. *)
Lemma joinRoom_rejoin_in_place data lockValue memberId now st rid existing :
  NoDup (List.map RoomMember.id (room_members (db st))) ->
  resolve_code (roomCode data) st = Ok rid ->
  roomMember_find rid (userId data) (db st) = Some existing ->
  RoomMember.status existing = "left"%string ->
  let reactivated :=
    RoomMember.reactivate (or_else (nickname data) (RoomMember.nickname existing))
                          now existing in
  (forall res st',
      joinRoom data lockValue memberId now st = (Ok res, st') ->
      isRejoining res = true
      /\ roomMember res = reactivated
      /\ RoomMember.id (roomMember res) = RoomMember.id existing
      /\ RoomMember.join_order (roomMember res) = RoomMember.join_order existing
      /\ RoomMember.status (roomMember res) = "active"%string
      /\ RoomMember.last_seen (roomMember res) = Some now
      /\ room_members (db st')
         = update_where (has_member_id (RoomMember.id existing))
                        (fun _ => reactivated) (room_members (db st))
      /\ List.map row_key (room_members (db st')) = List.map row_key (room_members (db st))
      /\ length (room_members (db st')) = length (room_members (db st))
      /\ roomMember_find rid (userId data) (db st') = Some reactivated
      /\ rooms (db st') = rooms (db st))
  /\ (forall e st',
         joinRoom data lockValue memberId now st = (Err e, st') -> st' = st)
  /\ (forall r,
         lock_keys (redis st) !! rid = None ->
         room_findUnique rid (db st) = Some r ->
         join_guard now r (db st) = None ->
         is_ok (fst (joinRoom data lockValue memberId now st)) = true).
Proof.
  intros Hnd Hres Hfind Hleft reactivated.
  assert (Hin : In existing (room_members (db st))) by apply (List.find_some _ _ Hfind).
  assert (Hfirst : List.find (has_member_id (RoomMember.id existing)) (room_members (db st))
                   = Some existing) by now apply find_by_unique_id.
  assert (Hnot : (RoomMember.status existing =? "active")%string = false)
    by now rewrite Hleft.
  split; [|split].
  - intros res st' Hjoin.
    destruct (set_nx rid lockValue (redis st)) as [locked|] eqn:Hnx.
    2:{ unfold joinRoom in Hjoin. rewrite Hres, Hnx in Hjoin. discriminate. }
    rewrite (joinRoom_acquired data lockValue memberId now st rid locked Hres Hnx) in Hjoin.
    unfold transaction in Hjoin.
    destruct (room_findUnique rid (db st)) as [r|] eqn:Hr.
    2:{ unfold joinRoom_tx, bind, query, throw in Hjoin. rewrite Hr in Hjoin. discriminate. }
    destruct (join_guard now r (db st)) as [g|] eqn:Hg.
    { rewrite (joinRoom_tx_guarded data memberId now rid _ r g Hr Hg) in Hjoin. discriminate. }
    rewrite (joinRoom_tx_passed data memberId now rid _ r Hr Hg) in Hjoin.
    rewrite Hfind, Hnot, Hfirst in Hjoin. cbv zeta in Hjoin.
    injection Hjoin as <- <-.
    assert (Hmem : room_members (db (updateRoomMemberCount rid 1
                     (mkState
                        (mkDB (rooms (db st))
                           (update_where (has_member_id (RoomMember.id existing))
                              (RoomMember.reactivate
                                 (or_else (nickname data) (RoomMember.nickname existing)) now)
                              (room_members (db st))))
                        (redis st))))
                   = update_where (has_member_id (RoomMember.id existing))
                       (RoomMember.reactivate
                          (or_else (nickname data) (RoomMember.nickname existing)) now)
                       (room_members (db st))).
    { unfold updateRoomMemberCount. simpl. now destruct (room_keys (redis st) !! rid). }
    assert (Hsame : update_where (has_member_id (RoomMember.id existing))
                       (RoomMember.reactivate
                          (or_else (nickname data) (RoomMember.nickname existing)) now)
                       (room_members (db st))
                    = update_where (has_member_id (RoomMember.id existing))
                        (fun _ => reactivated) (room_members (db st))).
    { clear Hmem Hfirst Hfind. induction (room_members (db st)) as [|a l IH]; [reflexivity|].
      simpl in Hnd. inversion Hnd as [|? ? Hnotin Hnd']; subst. simpl.
      destruct Hin as [->|Hin].
      - unfold has_member_id at 1 3. rewrite String.eqb_refl. f_equal.
        unfold update_where. apply List.map_ext_in. intros x Hx.
        unfold has_member_id.
        destruct (String.eqb_spec (RoomMember.id x) (RoomMember.id existing)) as [E|]; [|reflexivity].
        exfalso. apply Hnotin. rewrite <- E. apply list_elem_of_In. now apply List.in_map.
      - rewrite (IH Hnd' Hin).
        unfold has_member_id at 1 3.
        destruct (String.eqb_spec (RoomMember.id a) (RoomMember.id existing)) as [E|]; [|reflexivity].
        exfalso. apply Hnotin. rewrite E. apply list_elem_of_In. now apply List.in_map. }
    simpl. rewrite Hmem.
    repeat split; try reflexivity.
    + exact Hsame.
    + apply map_update_where. reflexivity.
    + apply length_update_where.
    + unfold roomMember_find. rewrite Hmem.
      rewrite find_update_where by reflexivity.
      unfold roomMember_find in Hfind. rewrite Hfind. simpl.
      unfold has_member_id. now rewrite String.eqb_refl.
    + unfold updateRoomMemberCount. simpl. now destruct (room_keys (redis st) !! rid).
  - intros e st'. apply joinRoom_Err_unchanged.
  - intros r Hfree Hr Hg.
    assert (Hnx : set_nx rid lockValue (redis st)
                  = Some (set_locks (insert rid lockValue) (redis st)))
      by (unfold set_nx; now rewrite Hfree).
    rewrite (joinRoom_acquired data lockValue memberId now st rid _ Hres Hnx).
    unfold transaction.
    rewrite (joinRoom_tx_passed data memberId now rid _ r Hr Hg).
    now rewrite Hfind, Hnot, Hfirst.
Qed.

(** C4. For a user whose row in the room has status left, a [joinRoom] that
    succeeds reports [isRejoining = true] and returns that same row with
    status active, [last_seen] set to the time of the call and the nickname
    asked for, or the old nickname when none is asked for; the row's id,
    room, user, role, [joined_at], [left_at] and join order are what they
    were. The table of members afterwards is the old table with that row
    replaced in place, so the identities, (room, user) pairs and join orders
    of all rows are what they were and no row is added. A [joinRoom] that
    fails changes nothing. The join does succeed whenever the lock is free
    and the room passes the guards of the transaction. *)
Theorem joinRoom_rejoin_reactivates data lockValue memberId now st rid existing :
  NoDup (List.map RoomMember.id (room_members (db st))) ->
  resolve_code (roomCode data) st = Ok rid ->
  roomMember_find rid (userId data) (db st) = Some existing ->
  RoomMember.status existing = "left"%string ->
  let reactivated :=
    RoomMember.reactivate (or_else (nickname data) (RoomMember.nickname existing))
                          now existing in
  (forall res st',
      joinRoom data lockValue memberId now st = (Ok res, st') ->
      isRejoining res = true
      /\ roomMember res = reactivated
      /\ RoomMember.id (roomMember res) = RoomMember.id existing
      /\ RoomMember.join_order (roomMember res) = RoomMember.join_order existing
      /\ RoomMember.status (roomMember res) = "active"%string
      /\ RoomMember.last_seen (roomMember res) = Some now
      /\ room_members (db st')
         = update_where (has_member_id (RoomMember.id existing))
                        (fun _ => reactivated) (room_members (db st))
      /\ List.map row_key (room_members (db st')) = List.map row_key (room_members (db st))
      /\ length (room_members (db st')) = length (room_members (db st))
      /\ roomMember_find rid (userId data) (db st') = Some reactivated
      /\ rooms (db st') = rooms (db st)
      /\ (forall nick,
             nickname data = Some nick -> nick <> ""%string ->
             RoomMember.nickname (roomMember res) = nick)
      /\ (nickname data = None \/ nickname data = Some ""%string ->
          RoomMember.nickname (roomMember res) = RoomMember.nickname existing)
      /\ RoomMember.room_id (roomMember res) = RoomMember.room_id existing
      /\ RoomMember.user_id (roomMember res) = RoomMember.user_id existing
      /\ RoomMember.role (roomMember res) = RoomMember.role existing
      /\ RoomMember.joined_at (roomMember res) = RoomMember.joined_at existing
      /\ RoomMember.left_at (roomMember res) = RoomMember.left_at existing
      /\ (exists l1 l2,
             room_members (db st) = (l1 ++ existing :: l2)%list
             /\ room_members (db st') = (l1 ++ roomMember res :: l2)%list))
  /\ (forall e st',
         joinRoom data lockValue memberId now st = (Err e, st') -> st' = st)
  /\ (forall r,
         lock_keys (redis st) !! rid = None ->
         room_findUnique rid (db st) = Some r ->
         join_guard now r (db st) = None ->
         is_ok (fst (joinRoom data lockValue memberId now st)) = true).
Proof.
  intros Hnd Hres Hfind Hleft reactivated.
  destruct (joinRoom_rejoin_in_place data lockValue memberId now st rid existing
              Hnd Hres Hfind Hleft) as (Hok & Herr & Hruns).
  split; [|split; [exact Herr|exact Hruns]].
  intros res st' Hjoin.
  destruct (Hok res st' Hjoin)
    as (Hre & Hrow & Hid & Hjo & Hst & Hls & Htab & Hkeys & Hlen & Hfind' & Hrooms).
  repeat match goal with |- _ /\ _ => split end; try assumption.
  - intros nick Hn Hne. rewrite Hrow, Hn. cbn.
    destruct (String.eqb_spec nick "") as [E|_]; [now destruct Hne|reflexivity].
  - intros [Hn|Hn]; rewrite Hrow, Hn; reflexivity.
  - now rewrite Hrow.
  - now rewrite Hrow.
  - now rewrite Hrow.
  - now rewrite Hrow.
  - now rewrite Hrow.
  - assert (Hin : In existing (room_members (db st))) by apply (List.find_some _ _ Hfind).
    destruct (update_where_unique_id (fun _ => reactivated) _ existing Hnd Hin)
      as (l1 & l2 & Hsplit & Hupd).
    exists l1, l2. split; [exact Hsplit|].
    rewrite Htab, Hrow. exact Hupd.
Qed.

(** C6, as amended. Under the lock, with the room row read back from the
    store, [joinRoom] checks the room's status first, its expiry second and
    its size last: it fails with Inactive when the status is not active;
    with Expired when the status is active and the expiry is in the past;
    with RoomFull when the status is active, the expiry is not in the past
    and the number of active members is at least [max_members]. In each of
    these failures the state, and so every membership row, is unchanged. *)
Theorem joinRoom_guards data lockValue memberId now st rid locked r :
  resolve_code (roomCode data) st = Ok rid ->
  set_nx rid lockValue (redis st) = Some locked ->
  room_findUnique rid (db st) = Some r ->
  (Room.status r <> "active"%string ->
   joinRoom data lockValue memberId now st = (Err RoomNotActive, st))
  /\ (Room.status r = "active"%string ->
      expired now r = true ->
      joinRoom data lockValue memberId now st = (Err RoomExpired, st))
  /\ (Room.status r = "active"%string ->
      expired now r = false ->
      Room.max_members r <= Z.of_nat (length (active_members rid (db st))) ->
      joinRoom data lockValue memberId now st = (Err RoomFull, st)).
Proof.
  intros Hres Hnx Hr.
  pose proof (room_findUnique_id _ _ _ Hr) as Hid.
  assert (Hfail : forall e, join_guard now r (db st) = Some e ->
                            joinRoom data lockValue memberId now st = (Err e, st)).
  { intros e Hg. rewrite (joinRoom_acquired data lockValue memberId now st rid _ Hres Hnx).
    unfold transaction.
    now rewrite (joinRoom_tx_guarded data memberId now rid _ r e Hr Hg). }
  split; [|split].
  - intros Hs. apply Hfail. unfold join_guard.
    apply String.eqb_neq in Hs. now rewrite Hs.
  - intros Hs He. apply Hfail. unfold join_guard. now rewrite Hs, He.
  - intros Hs He Hfull. apply Hfail. unfold join_guard. rewrite Hs, He, Hid. simpl.
    destruct (Z.geb_spec (Z.of_nat (length (active_members rid (db st)))) (Room.max_members r));
      [reflexivity|lia].
Qed.

(** ** [getRoomDetails] on a cache hit *)

(** C8. On a cache hit with a user id, [getRoomDetails] grants or denies by
    membership in the cached member set alone: the answer is the cached view
    when the user is in the set and AccessDenied otherwise, whatever the
    durable store holds, so the room's expiry and status are not looked at.
    There is a state whose durable room is past its expiry while its cached
    entry survives, and there the call returns the cached view. *)
Theorem getRoomDetails_cache_hit roomId uid st roomData :
  room_keys (redis st) !! roomId = Some roomData ->
  uid <> ""%string ->
  getRoomDetails roomId (Some uid) st
  = (if sIsMember roomId uid (redis st) then Ok roomData else Err AccessDenied, st)
  /\ (forall d,
         fst (getRoomDetails roomId (Some uid) (with_db d st))
         = fst (getRoomDetails roomId (Some uid) st))
  /\ (exists stale now r view,
         room_findUnique "r1" (db stale) = Some r
         /\ expired now r = true
         /\ room_keys (redis stale) !! "r1" = Some view
         /\ getRoomDetails "r1" (Some "alice"%string) stale = (Ok view, stale)).
Proof.
  intros Hhit Huid.
  assert (Ht : truthy (Some uid) = true).
  { simpl. apply String.eqb_neq in Huid. now rewrite Huid. }
  assert (Heq : forall d, getRoomDetails roomId (Some uid) (with_db d st)
                = (if sIsMember roomId uid (redis st) then Ok roomData else Err AccessDenied,
                   with_db d st)).
  { intros d. unfold getRoomDetails. simpl redis. rewrite Hhit, Ht. simpl.
    now destruct (sIsMember roomId uid (redis st)). }
  split; [|split].
  - specialize (Heq (db st)). now destruct st.
  - intros d. rewrite Heq. specialize (Heq (db st)).
    replace (with_db (db st) st) with st in Heq by now destruct st.
    now rewrite Heq.
  - exists stale_state, 4000000, stale_room,
      (mkRoomView stale_room (Some [stale_owner]) (Some 1)).
    split; [|split; [|split]]; vm_compute; reflexivity.
Qed.

(** ** The chat log *)

Lemma request_chat_history_member reader roomId st :
  is_active_member roomId (db st) reader ->
  request_chat_history reader roomId st = ([emit_chat_history (history roomId st)], st).
Proof.
  intros [m Hm]. unfold request_chat_history. now rewrite Hm.
Qed.

Lemma send_message_member socket roomId body mid now st :
  is_active_member roomId (db st) socket ->
  db (snd (send_message socket roomId body mid now st)) = db st
  /\ history roomId (snd (send_message socket roomId body mid now st))
     = (history roomId st
        ++ [mkChatMessage mid roomId (socket_userId socket) (socket_userName socket)
                          (trim body) now])%list.
Proof.
  intros [m Hm]. unfold send_message. rewrite Hm. simpl. split; [reflexivity|].
  unfold history, lRange_all. simpl. rewrite lookup_insert_eq. reflexivity.
Qed.

Lemma send_all_history roomId sends st :
  Forall (fun s => is_active_member roomId (db st) (sender s)) sends ->
  db (send_all roomId sends st) = db st
  /\ history roomId (send_all roomId sends st)
     = (history roomId st ++ List.map (message_of roomId) sends)%list.
Proof.
  revert st. induction sends as [|s sends IH]; intros st Hall; simpl.
  - now rewrite List.app_nil_r.
  - inversion Hall as [|? ? Hs Hrest]; subst.
    destruct (send_message_member (sender s) roomId (text s) (messageId s) (sent_at s) st Hs)
      as [Hdb Hhist].
    destruct (IH (snd (send_message (sender s) roomId (text s) (messageId s) (sent_at s) st)))
      as [Hdb' Hhist'].
    { rewrite Hdb. exact Hrest. }
    unfold send_all in *. rewrite Hdb', Hhist', Hhist, Hdb. split; [reflexivity|].
    now rewrite <- List.app_assoc.
Qed.

(** C9. For a reader who is an active member, the history request after a
    run of appends by active members returns what it returned before the
    run followed by the appended messages in the order they were appended,
    oldest first, although the list in Redis holds them newest first; on a
    log that started empty these are exactly the appended messages, sorted
    by time stamp when the clock did not go back; and the history requested
    right after one append ends with the appended message. *)
Theorem chat_history_chronological reader roomId sends st :
  is_active_member roomId (db st) reader ->
  Forall (fun s => is_active_member roomId (db st) (sender s)) sends ->
  let st' := send_all roomId sends st in
  fst (request_chat_history reader roomId st')
  = [emit_chat_history (history roomId st ++ List.map (message_of roomId) sends)%list]
  /\ lRange_all roomId (redis st')
     = (List.rev (List.map (message_of roomId) sends) ++ lRange_all roomId (redis st))%list
  /\ (chat_lists (redis st) !! roomId = None ->
      history roomId st' = List.map (message_of roomId) sends
      /\ (Sorted.Sorted Z.le (List.map sent_at sends) ->
          Sorted.Sorted Z.le (List.map timestamp (history roomId st'))))
  /\ (forall s,
         is_active_member roomId (db st) (sender s) ->
         let st'' := snd (send_message (sender s) roomId (text s) (messageId s) (sent_at s) st') in
         exists earlier,
           fst (request_chat_history reader roomId st'')
           = [emit_chat_history (earlier ++ [message_of roomId s])%list]
           /\ forall other,
                List.last (earlier ++ [message_of roomId s])%list other
                = message_of roomId s).
Proof.
  intros Hreader Hall st'.
  destruct (send_all_history roomId sends st Hall) as [Hdb Hhist]. fold st' in Hdb, Hhist.
  assert (Hreader' : is_active_member roomId (db st') reader) by now rewrite Hdb.
  split; [|split; [|split]].
  - rewrite (request_chat_history_member _ _ _ Hreader'). simpl. now rewrite Hhist.
  - unfold history in Hhist.
    apply (f_equal (@List.rev ChatMessage)) in Hhist.
    rewrite List.rev_involutive, List.rev_app_distr, List.rev_involutive in Hhist.
    exact Hhist.
  - intros Hnone.
    assert (Hempty : history roomId st = []).
    { unfold history, lRange_all. now rewrite Hnone. }
    rewrite Hhist, Hempty. simpl. split; [reflexivity|].
    rewrite List.map_map. simpl.
    intros Hs. erewrite List.map_ext; [exact Hs|]. reflexivity.
  - intros s Hs st''.
    assert (Hs' : is_active_member roomId (db st') (sender s)) by now rewrite Hdb.
    destruct (send_message_member (sender s) roomId (text s) (messageId s) (sent_at s) st' Hs')
      as [Hdb'' Hhist''].
    fold st'' in Hdb'', Hhist''.
    exists (history roomId st'). split.
    + rewrite request_chat_history_member by now rewrite Hdb''.
      simpl. now rewrite Hhist''.
    + intros other. apply List.last_last.
Qed.

(** ** What every reachable store satisfies *)

Lemma preserves_ret {A} P (a : A) : preserves P (ret a).
Proof. intros d H. exact H. Qed.

Lemma preserves_throw {A} P e : preserves P (@throw A e).
Proof. intros d H. exact H. Qed.

Lemma preserves_query {A} P (q : DB -> A) : preserves P (query q).
Proof. intros d H. exact H. Qed.

Lemma preserves_bind {A B} P (m : Tx A) (k : A -> Tx B) :
  preserves P m -> (forall a, preserves P (k a)) -> preserves P (bind m k).
Proof.
  intros Hm Hk d H. unfold bind. specialize (Hm d H).
  destruct (m d) as [[a|e] d']; simpl in *; [now apply Hk|exact Hm].
Qed.

Lemma preserves_transaction {A} P (body : Tx A) d :
  preserves P body -> P d -> P (snd (transaction body d)).
Proof.
  intros Hb H. unfold transaction. specialize (Hb d H).
  destruct (body d) as [[a|e] d']; simpl in *; assumption.
Qed.

Lemma existsb_false_not_in {A B} `{EqDecision B} (g : A -> B) (p : A -> bool) (l : list A) b :
  existsb p l = false ->
  (forall x, g x = b -> p x = true) ->
  b ∉ List.map g l.
Proof.
  intros Hex Hp Hin. apply list_elem_of_In, List.in_map_iff in Hin as (x & Hx & Hin).
  assert (existsb p l = true) by (apply List.existsb_exists; eauto).
  congruence.
Qed.

Lemma NoDup_snoc {A} (l : list A) (a : A) :
  NoDup l -> a ∉ l -> NoDup (l ++ [a]).
Proof.
  intros Hl Ha. apply NoDup_app. split; [exact Hl|]. split.
  - intros x Hx Hx'. apply list_elem_of_singleton in Hx'. now subst.
  - apply NoDup_singleton.
Qed.

Lemma consistent_room_create r : preserves consistent (room_create r).
Proof.
  intros d [H1 H2 H3 H4 H5]. unfold room_create.
  destruct (existsb _ (rooms d)) eqn:Hex; simpl; [now constructor|].
  constructor; simpl; try assumption; rewrite List.map_app; simpl; apply NoDup_snoc; trivial.
  - eapply existsb_false_not_in; [exact Hex|].
    intros x Hx. unfold is_room. rewrite Hx, String.eqb_refl. reflexivity.
  - eapply existsb_false_not_in; [exact Hex|].
    intros x Hx. unfold has_code. rewrite Hx, String.eqb_refl. apply orb_true_r.
Qed.

Lemma consistent_roomMember_create m :
  0 < RoomMember.join_order m -> preserves consistent (roomMember_create m).
Proof.
  intros Hpos d [H1 H2 H3 H4 H5]. unfold roomMember_create.
  destruct (existsb _ (room_members d)) eqn:Hex; simpl; [now constructor|].
  constructor; simpl; try assumption.
  - rewrite List.map_app. simpl. apply NoDup_snoc; trivial.
    eapply existsb_false_not_in; [exact Hex|].
    intros x Hx. unfold has_member_id. rewrite Hx, String.eqb_refl. reflexivity.
  - rewrite List.map_app. simpl. apply NoDup_snoc; trivial.
    eapply existsb_false_not_in; [exact Hex|].
    intros x [= Hr Hu]. unfold is_member_of. rewrite Hr, Hu, !String.eqb_refl.
    apply orb_true_r.
  - apply Forall_app. split; [assumption|]. now constructor.
Qed.

Lemma consistent_roomMember_update p f :
  (forall x, row_key (f x) = row_key x) ->
  preserves consistent (roomMember_update p f).
Proof.
  intros Hf d [H1 H2 H3 H4 H5]. unfold roomMember_update.
  destruct (List.find p (room_members d)); simpl; [|now constructor].
  assert (Hk : forall (T : Type) (g : RoomMember.t -> T),
             (forall x y, row_key x = row_key y -> g x = g y) ->
             List.map g (update_where p f (room_members d)) = List.map g (room_members d)).
  { intros T g Hg. apply map_update_where. intros x. apply Hg, Hf. }
  constructor; simpl; try assumption.
  - rewrite (Hk _ RoomMember.id); [assumption|]. unfold row_key. now intros x y [= -> _ _ _].
  - rewrite (Hk _ (fun m => (RoomMember.room_id m, RoomMember.user_id m))); [assumption|].
    unfold row_key. now intros x y [= _ -> -> _].
  - apply Forall_forall. intros x Hx.
    apply list_elem_of_In, List.in_map_iff in Hx as (y & <- & Hy).
    rewrite Forall_forall in H5. specialize (H5 y (proj2 (list_elem_of_In _ _) Hy)).
    destruct (p y); [|exact H5].
    specialize (Hf y). unfold row_key in Hf. injection Hf as _ _ _ ->. exact H5.
Qed.

Lemma consistent_room_update rid now : preserves consistent (room_update rid (Room.close now)).
Proof.
  intros d [H1 H2 H3 H4 H5]. unfold room_update.
  destruct (List.find (is_room rid) (rooms d)); simpl; [|now constructor].
  constructor; simpl; try assumption.
  - rewrite map_update_where; [assumption|reflexivity].
  - rewrite map_update_where; [assumption|reflexivity].
Qed.

Ltac tx_preserves :=
  repeat first
    [ apply preserves_ret
    | apply preserves_throw
    | apply preserves_query
    | apply preserves_bind
    | apply consistent_room_create
    | apply consistent_room_update
    | apply consistent_roomMember_update; reflexivity
    | apply consistent_roomMember_create; simpl; lia
    | match goal with
      | |- forall _, preserves _ _ => intro
      | |- preserves _ (match ?x with _ => _ end) => destruct x
      | |- preserves _ (if ?b then _ else _) => destruct b
      end ].

Lemma consistent_createRoom_tx data code roomId memberId now :
  preserves consistent (createRoom_tx data code roomId memberId now).
Proof. unfold createRoom_tx. tx_preserves. Qed.

Lemma consistent_joinRoom_tx roomId userId nickname memberId now :
  preserves consistent (joinRoom_tx roomId userId nickname memberId now).
Proof. unfold joinRoom_tx. tx_preserves. Qed.

Lemma consistent_leaveRoom_tx roomId userId now :
  preserves consistent (leaveRoom_tx roomId userId now).
Proof. unfold leaveRoom_tx. tx_preserves. Qed.

Lemma generateRoomCode_loop_db attempts rand i st :
  db (snd (generateRoomCode_loop attempts rand i st)) = db st.
Proof.
  revert i. induction attempts as [|n IH]; intros i; simpl; [reflexivity|].
  destruct (room_findByCode (rand i) (db st)); [apply IH|].
  destruct (truthy _); [apply IH|reflexivity].
Qed.

Lemma updateRoomMemberCount_db roomId delta st :
  db (updateRoomMemberCount roomId delta st) = db st.
Proof.
  unfold updateRoomMemberCount. now destruct (room_keys (redis st) !! roomId).
Qed.

Lemma cacheRoomData_db roomId roomData st :
  db (cacheRoomData roomId roomData st) = db st.
Proof.
  unfold cacheRoomData. destruct (members roomData); [|reflexivity].
  now destruct (0 <? _).
Qed.

Lemma consistent_step o st : consistent (db st) -> consistent (db (step o st)).
Proof.
  intros H. destruct o as [data rand roomId memberId now fault|data lockValue memberId now
                          |roomId userId now]; simpl.
  - unfold createRoom, generateRoomCode.
    pose proof (generateRoomCode_loop_db maxAttempts rand 0 st) as Hdb.
    destruct (generateRoomCode_loop maxAttempts rand 0 st) as [[code|e] st0]; simpl in *;
      [|now rewrite Hdb].
    rewrite <- Hdb in H.
    pose proof (preserves_transaction consistent _ (db st0)
                  (consistent_createRoom_tx data code roomId memberId now) H) as Htx.
    destruct fault; simpl; try exact H;
      destruct (transaction _ (db st0)) as [[[r m]|e] d]; simpl in *;
      try rewrite cacheRoomData_db; simpl; assumption.
  - unfold joinRoom. destruct (resolve_code _ st) as [rid|e]; [|exact H].
    destruct (set_nx rid lockValue (redis st)) as [locked|]; [|exact H].
    unfold joinRoom_locked. simpl.
    pose proof (preserves_transaction consistent _ (db st)
                  (consistent_joinRoom_tx rid (userId data) (nickname data) memberId now) H)
      as Htx.
    destruct (transaction _ (db st)) as [[res|e] d]; simpl in *; [|exact H].
    now rewrite updateRoomMemberCount_db.
  - unfold leaveRoom.
    pose proof (preserves_transaction consistent _ (db st)
                  (consistent_leaveRoom_tx roomId userId now) H) as Htx.
    destruct (transaction _ (db st)) as [[res|e] d]; simpl in *; [|exact H].
    destruct (RoomMember.status res =? "left")%string; simpl; [|exact Htx].
    now rewrite updateRoomMemberCount_db.
Qed.

Lemma consistent_run ops st : consistent (db st) -> consistent (db (run ops st)).
Proof.
  revert st. induction ops as [|o ops IH]; intros st H; [exact H|].
  simpl. apply IH. now apply consistent_step.
Qed.

(** Every store reached by [createRoom], [joinRoom] and [leaveRoom] keeps
    the unique keys of the schema, and its join orders are positive. *)
Lemma reachable_consistent st : reachable st -> consistent (db st).
Proof.
  intros [ops ->]. apply consistent_run. constructor; simpl; constructor.
Qed.

(** ** Handing over ownership *)

Lemma first_by_join_order_least l m :
  first_by_join_order l = Some m ->
  In m l /\ Forall (fun x => RoomMember.join_order m <= RoomMember.join_order x) l.
Proof.
  revert m. induction l as [|a l IH]; intros m; simpl; [discriminate|].
  destruct (first_by_join_order l) as [m'|] eqn:E.
  - destruct (IH m' eq_refl) as [Hin Hall].
    destruct (Z.leb_spec (RoomMember.join_order a) (RoomMember.join_order m'));
      intros [= <-].
    + split; [now left|]. constructor; [lia|].
      eapply Forall_impl; [exact Hall|]. simpl. intros x Hx. lia.
    + split; [now right|]. constructor; [lia|exact Hall].
  - intros [= <-]. split; [now left|].
    destruct l; [|simpl in E; destruct (first_by_join_order l); [destruct (_ <=? _)|]; discriminate].
    constructor; [lia|constructor].
Qed.

Lemma first_by_join_order_None l : first_by_join_order l = None -> l = [].
Proof.
  destruct l as [|a l]; [reflexivity|]. simpl.
  destruct (first_by_join_order l); [destruct (_ <=? _)|]; discriminate.
Qed.

(** When the active owner leaves, the transaction promotes a remaining
    active member of least join order, or, when none remains, closes the
    room and stamps [completed_at]. *)
Lemma leaveRoom_owner_hands_over roomId userId now d m res d' :
  roomMember_find roomId userId d = Some m ->
  RoomMember.status m = "active"%string ->
  RoomMember.role m = "owner"%string ->
  leaveRoom_tx roomId userId now d = (Ok res, d') ->
  match first_by_join_order (remaining_members roomId userId now m d) with
  | Some next =>
      In next (remaining_members roomId userId now m d)
      /\ Forall (fun x => RoomMember.join_order next <= RoomMember.join_order x)
                (remaining_members roomId userId now m d)
      /\ rooms d' = rooms d
      /\ room_members d'
         = update_where (has_member_id (RoomMember.id next)) RoomMember.promote
             (update_where (still_active m) (RoomMember.leave now) (room_members d))
  | None =>
      remaining_members roomId userId now m d = []
      /\ rooms d' = update_where (is_room roomId) (Room.close now) (rooms d)
      /\ room_members d'
         = update_where (still_active m) (RoomMember.leave now) (room_members d)
  end.
Proof.
  intros Hf Hs Hrole Htx.
  destruct (leaveRoom_tx_active roomId userId now d m Hf Hs) as (m' & _ & Heq).
  cbv zeta in Heq. rewrite Heq, Hrole in Htx. clear Heq. simpl in Htx.
  unfold next_member in Htx. simpl in Htx. fold (remaining_members roomId userId now m d) in Htx.
  destruct (first_by_join_order (remaining_members roomId userId now m d)) as [next|] eqn:E.
  - destruct (first_by_join_order_least _ _ E) as [Hin Hall].
    destruct (List.find (has_member_id (RoomMember.id next)) _); [|discriminate].
    injection Htx as _ <-. auto.
  - destruct (List.find (is_room roomId) (rooms d)); [|discriminate].
    injection Htx as _ <-. split; [now apply first_by_join_order_None|auto].
Qed.

Lemma close_sets_status now r :
  Room.status (Room.close now r) = "closed"%string
  /\ Room.completed_at (Room.close now r) = Some now.
Proof. split; reflexivity. Qed.

(** ** Join orders and owners along runs *)

(** C1. The run create(alice), join(bob), leave(bob), join(carol), every
    step of which succeeds, ends with three rows in the room whose join
    orders are 1, 2 and 2: carol's new row takes the active count plus one,
    which is the join order bob's left row still holds. *)
Theorem join_order_reused_after_leave :
  let st := run join_after_leave initial in
  outcomes join_after_leave initial = [true; true; true; true]
  /\ List.map (fun m => (RoomMember.user_id m, RoomMember.status m, RoomMember.join_order m))
              (members_of "r1" (db st))
     = [("alice", "active", 1); ("bob", "left", 2); ("carol", "active", 2)]%string
  /\ ~ NoDup (List.map RoomMember.join_order (members_of "r1" (db st))).
Proof.
  split; [|split].
  - vm_compute. reflexivity.
  - vm_compute. reflexivity.
  - intros Hnd. apply (bool_decide_pack _) in Hnd. vm_compute in Hnd. exact Hnd.
Qed.

(** C2. The run create(alice), join(bob), leave(alice), join(alice), every
    step of which succeeds, ends in an active room with two active owners:
    the leave hands the role to bob and keeps role owner on alice's left
    row, and the rejoin reactivates that row as it is. *)
Theorem two_active_owners_after_rejoin :
  let st := run owner_rejoins initial in
  outcomes owner_rejoins initial = [true; true; true; true]
  /\ List.map (fun m => (RoomMember.user_id m, RoomMember.role m, RoomMember.status m))
              (active_owners "r1" (db st))
     = [("alice", "owner", "active"); ("bob", "owner", "active")]%string
  /\ option_map Room.status (room_findUnique "r1" (db st)) = Some "active"%string
  /\ (1 < length (active_owners "r1" (db st)))%nat.
Proof.
  split; [|split; [|split]].
  - vm_compute. reflexivity.
  - vm_compute. reflexivity.
  - vm_compute. reflexivity.
  - vm_compute. lia.
Qed.

(** C6, as stated, fails: in a room for two with two active members whose
    expiry has passed, the number of active members is at least
    [max_members], and [joinRoom] fails with Expired, not with RoomFull. *)
Lemma joinRoom_full_room_reports_expired :
  let late := 1000 + 1 * 60 * 60 * 1000 + 1 in
  (exists r, room_findUnique "r1" (db full_room) = Some r
             /\ Room.max_members r <= Z.of_nat (length (active_members "r1" (db full_room))))
  /\ fst (joinRoom (join_as "carol") "token-2" "m3" late full_room) = Err RoomExpired
  /\ fst (joinRoom (join_as "carol") "token-2" "m3" late full_room) <> Err RoomFull.
Proof.
  split; [|split].
  - eexists. split; [vm_compute; reflexivity|]. vm_compute. discriminate.
  - vm_compute. reflexivity.
  - vm_compute. discriminate.
Qed.

(** ** The theorems at work on the scenarios *)

(** bob joins the room alice created: the lock is taken and gone again.
    When bob's lock runs out and carol acquires it, bob's release leaves
    carol's token in place. *)
Lemma joinRoom_releases_lock_witness :
  let bob1 := join_steps (join_as "bob") "token-1" "m2" 2000 2 (Start, after_create) in
  let timed_out := on_redis (lock_expires "r1") (snd bob1) in
  let carol1 := join_steps (join_as "carol") "token-2" "m3" 2001 2 (Start, timed_out) in
  let bob2 := join_steps (join_as "bob") "token-1" "m2" 2000 3 (fst bob1, snd carol1) in
  resolve_code (roomCode (join_as "bob")) after_create = Ok "r1"%string
  /\ set_nx "r1" "token-1" (redis after_create)
     = Some (set_locks (insert "r1"%string "token-1"%string) (redis after_create))
  /\ lock_keys (redis (snd (joinRoom (join_as "bob") "token-1" "m2" 2000 after_create)))
       !! "r1"%string = None
  /\ lock_keys (redis (snd bob1)) !! "r1"%string = Some "token-1"%string
  /\ lock_keys (redis (snd carol1)) !! "r1"%string = Some "token-2"%string
  /\ lock_keys (redis (snd bob2)) !! "r1"%string = Some "token-2"%string.
Proof.
  intros bob1 timed_out carol1 bob2.
  assert (H1 : resolve_code (roomCode (join_as "bob")) after_create = Ok "r1"%string)
    by (vm_compute; reflexivity).
  assert (H2 : set_nx "r1" "token-1" (redis after_create)
               = Some (set_locks (insert "r1"%string "token-1"%string) (redis after_create)))
    by (vm_compute; reflexivity).
  assert (H3 : resolve_code (roomCode (join_as "carol")) after_create = Ok "r1"%string)
    by (vm_compute; reflexivity).
  assert (H4 : lock_keys (redis after_create) !! "r1"%string = None)
    by (vm_compute; reflexivity).
  assert (H5 : "token-1"%string <> "token-2"%string) by discriminate.
  destruct joinRoom_releases_lock
    as (Hseq & _ & _ & _ & _ & _ & _ & _ & _ & _ & _ & Hlate).
  destruct (Hlate (join_as "bob") "token-1"%string "m2"%string 2000
                  (join_as "carol") "token-2"%string "m3"%string 2001
                  "r1"%string after_create H1 H3 H4 H5)
    as (_ & Ha & _ & Hb & _ & Hkept & _).
  split; [exact H1|]. split; [exact H2|].
  split; [exact (proj2 (Hseq _ _ _ _ _ _ _ H1 H2))|].
  split; [exact Ha|]. split; [exact Hb|exact Hkept].
Defined.

(** bob, who has left, joins again and gets his row and join order back. *)
Lemma joinRoom_rejoin_reactivates_witness :
  let existing := RoomMember.mk "m2" "r1" "bob" "Member" "member" "left" 2000 (Some 3000)
                                (Some 2000) 2 in
  let again := mkJoinRoomData "ABC123" "bob" (Some "Bobby"%string) in
  NoDup (List.map RoomMember.id (room_members (db bob_left)))
  /\ resolve_code (roomCode again) bob_left = Ok "r1"%string
  /\ roomMember_find "r1" "bob" (db bob_left) = Some existing
  /\ is_ok (fst (joinRoom again "token-2" "m3" 4000 bob_left)) = true
  /\ forall res st',
       joinRoom again "token-2" "m3" 4000 bob_left = (Ok res, st') ->
       isRejoining res = true
       /\ RoomMember.join_order (roomMember res) = 2
       /\ RoomMember.nickname (roomMember res) = "Bobby"%string
       /\ length (room_members (db st')) = length (room_members (db bob_left)).
Proof.
  intros existing again.
  assert (H0 : NoDup (List.map RoomMember.id (room_members (db bob_left))))
    by (apply (bool_decide_unpack _); vm_compute; exact I).
  assert (H1 : resolve_code (roomCode again) bob_left = Ok "r1"%string)
    by (vm_compute; reflexivity).
  assert (H2 : roomMember_find "r1" (userId again) (db bob_left) = Some existing)
    by (vm_compute; reflexivity).
  assert (H3 : RoomMember.status existing = "left"%string) by reflexivity.
  pose proof (joinRoom_rejoin_reactivates again "token-2" "m3" 4000 bob_left
                "r1" existing H0 H1 H2 H3) as (Hok & _ & Hruns).
  split; [exact H0|]. split; [exact H1|]. split; [exact H2|]. split.
  - apply (Hruns (Room.mk "r1" "ABC123" "Trip" "Park" 10 20 "alice" 5 "active" 1000 1000
                          (Some 86401000) None)); vm_compute; reflexivity.
  - intros res st' Hjoin.
    destruct (Hok res st' Hjoin)
      as (Hre & _ & _ & Hjo & _ & _ & _ & _ & Hlen & _ & _ & Hnick & _).
    split; [exact Hre|]. split; [exact Hjo|].
    split; [apply (Hnick "Bobby"%string); [reflexivity|discriminate]|exact Hlen].
Defined.

(** bob leaves a second time; dave was never a member. *)
Lemma leaveRoom_idempotent_witness :
  let row := RoomMember.mk "m2" "r1" "bob" "Member" "member" "left" 2000 (Some 3000)
                           (Some 2000) 2 in
  roomMember_find "r1" "bob" (db bob_left) = Some row
  /\ fst (leaveRoom "r1" "bob" 9000 bob_left) = Ok row
  /\ db (snd (leaveRoom "r1" "bob" 9000 bob_left)) = db bob_left
  /\ roomMember_find "r1" "dave" (db bob_left) = None
  /\ leaveRoom "r1" "dave" 9000 bob_left = (Err NotMember, bob_left).
Proof.
  intros row.
  assert (H1 : roomMember_find "r1" "bob" (db bob_left) = Some row)
    by (vm_compute; reflexivity).
  assert (H2 : roomMember_find "r1" "dave" (db bob_left) = None)
    by (vm_compute; reflexivity).
  destruct (proj1 leaveRoom_idempotent "r1"%string "bob"%string 9000 bob_left row H1 eq_refl)
    as [Hres Hdb].
  split; [exact H1|]. split; [exact Hres|]. split; [exact Hdb|]. split; [exact H2|].
  exact (proj1 (proj2 leaveRoom_idempotent) "r1"%string "dave"%string 9000 bob_left H2).
Defined.

(** carol at the door of the full room, before and after its expiry. *)
Lemma joinRoom_guards_witness :
  let r := Room.mk "r1" "ABC123" "Trip" "Park" 10 20 "alice" 2 "active" 1000 1000
                   (Some 3601000) None in
  resolve_code (roomCode (join_as "carol")) full_room = Ok "r1"%string
  /\ room_findUnique "r1" (db full_room) = Some r
  /\ expired 3000 r = false
  /\ Room.max_members r <= Z.of_nat (length (active_members "r1" (db full_room)))
  /\ joinRoom (join_as "carol") "token-2" "m3" 3000 full_room = (Err RoomFull, full_room)
  /\ expired 3601001 r = true
  /\ joinRoom (join_as "carol") "token-2" "m3" 3601001 full_room = (Err RoomExpired, full_room).
Proof.
  intros r.
  assert (H1 : resolve_code (roomCode (join_as "carol")) full_room = Ok "r1"%string)
    by (vm_compute; reflexivity).
  assert (H2 : set_nx "r1" "token-2" (redis full_room)
               = Some (set_locks (insert "r1"%string "token-2"%string) (redis full_room)))
    by (vm_compute; reflexivity).
  assert (H3 : room_findUnique "r1" (db full_room) = Some r) by (vm_compute; reflexivity).
  assert (H4 : Room.max_members r <= Z.of_nat (length (active_members "r1" (db full_room))))
    by (vm_compute; discriminate).
  split; [exact H1|]. split; [exact H3|]. split; [reflexivity|]. split; [exact H4|].
  split; [|split; [reflexivity|]].
  - exact (proj2 (proj2 (joinRoom_guards (join_as "carol") "token-2" "m3" 3000 full_room
                           "r1" _ r H1 H2 H3)) eq_refl eq_refl H4).
  - exact (proj1 (proj2 (joinRoom_guards (join_as "carol") "token-2" "m3" 3601001 full_room
                           "r1" _ r H1 H2 H3)) eq_refl eq_refl).
Defined.

(** A second room under the id of the first: the insert is refused and the
    code reserved for it is released. *)
Lemma createRoom_failure_releases_code_witness :
  let data := mkCreateRoomData "Again" "Lake" 1 2 4 2 "bob" in
  let reserved := on_redis (set_room_codes (insert "XYZ789"%string "reserved"%string))
                           after_create in
  generateRoomCode always_XYZ789 after_create = (Ok "XYZ789"%string, reserved)
  /\ createRoom data always_XYZ789 "r1" "m7" 2000 NoFault after_create
     = (Err UniqueViolation, after_create)
  /\ room_code_keys (redis reserved) !! "XYZ789"%string = Some "reserved"%string
  /\ room_code_keys (redis after_create) !! "XYZ789"%string = None.
Proof.
  intros data reserved.
  assert (H1 : generateRoomCode always_XYZ789 after_create = (Ok "XYZ789"%string, reserved))
    by (vm_compute; reflexivity).
  assert (H2 : createRoom data always_XYZ789 "r1" "m7" 2000 NoFault after_create
               = (Err UniqueViolation, after_create))
    by (vm_compute; reflexivity).
  split; [exact H1|]. split; [exact H2|].
  exact (createRoom_failure_releases_code data always_XYZ789 "r1" "m7" 2000 NoFault
           after_create "XYZ789" reserved UniqueViolation after_create H1 H2).
Defined.

(** The cached room after its expiry: alice is let in, mallory is not. *)
Lemma getRoomDetails_cache_hit_witness :
  let view := mkRoomView stale_room (Some [stale_owner]) (Some 1) in
  room_keys (redis stale_state) !! "r1"%string = Some view
  /\ sIsMember "r1" "alice" (redis stale_state) = true
  /\ expired 4000000 stale_room = true
  /\ getRoomDetails "r1" (Some "alice"%string) stale_state = (Ok view, stale_state)
  /\ getRoomDetails "r1" (Some "mallory"%string) stale_state = (Err AccessDenied, stale_state).
Proof.
  intros view.
  assert (H1 : room_keys (redis stale_state) !! "r1"%string = Some view)
    by (vm_compute; reflexivity).
  assert (Ha : "alice"%string <> ""%string) by discriminate.
  assert (Hm : "mallory"%string <> ""%string) by discriminate.
  split; [exact H1|]. split; [vm_compute; reflexivity|]. split; [reflexivity|]. split.
  - exact (proj1 (getRoomDetails_cache_hit "r1" "alice" stale_state view H1 Ha)).
  - exact (proj1 (getRoomDetails_cache_hit "r1" "mallory" stale_state view H1 Hm)).
Defined.

(** Two messages of alice, as stored and as returned. *)
Lemma chat_history_chronological_witness :
  is_active_member "r1" (db after_create) alice_socket
  /\ fst (request_chat_history alice_socket "r1" (send_all "r1" two_sends after_create))
     = [emit_chat_history
          [ mkChatMessage "c1" "r1" "alice" "Alice" "on my way" 5000;
            mkChatMessage "c2" "r1" "alice" "Alice" "five minutes" 6000 ]]
  /\ lRange_all "r1" (redis (send_all "r1" two_sends after_create))
     = [ mkChatMessage "c2" "r1" "alice" "Alice" "five minutes" 6000;
         mkChatMessage "c1" "r1" "alice" "Alice" "on my way" 5000 ].
Proof.
  assert (H1 : is_active_member "r1" (db after_create) alice_socket)
    by (eexists; vm_compute; reflexivity).
  assert (H2 : Forall (fun s => is_active_member "r1" (db after_create) (sender s)) two_sends)
    by (repeat constructor; exact H1).
  destruct (chat_history_chronological alice_socket "r1" two_sends after_create H1 H2)
    as (Hhist & Hraw & _).
  split; [exact H1|]. split.
  - exact Hhist.
  - exact Hraw.
Defined.

(** bob leaves again and again: the cached count goes from 1 to 0 and stays. *)
Lemma cached_member_count_never_negative_witness :
  let row := RoomMember.mk "m2" "r1" "bob" "Member" "member" "left" 2000 (Some 3000)
                           (Some 2000) 2 in
  let once := snd (leaveRoom "r1" "bob" 9000 bob_left) in
  let twice := snd (leaveRoom "r1" "bob" 9001 once) in
  option_map memberCount (room_keys (redis bob_left) !! "r1"%string) = Some (Some 1)
  /\ roomMember_find "r1" "bob" (db bob_left) = Some row
  /\ (exists room', room_keys (redis once) !! "r1"%string = Some room'
                    /\ memberCount room' = Some (Z.max 0 (1 + -1)))
  /\ option_map memberCount (room_keys (redis twice) !! "r1"%string) = Some (Some 0).
Proof.
  intros row once twice.
  assert (H1 : roomMember_find "r1" "bob" (db bob_left) = Some row)
    by (vm_compute; reflexivity).
  assert (H2 : room_keys (redis bob_left) !! "r1"%string
               = Some (mkRoomView (Room.mk "r1" "ABC123" "Trip" "Park" 10 20 "alice" 5 "active"
                                           1000 1000 (Some 86401000) None) None (Some 1)))
    by (vm_compute; reflexivity).
  split; [vm_compute; reflexivity|]. split; [exact H1|]. split.
  - exact (proj1 (proj2 (proj2 cached_member_count_never_negative))
             "r1"%string "bob"%string 9000 bob_left row _ H1 eq_refl H2).
  - vm_compute. reflexivity.
Defined.

(** * Further properties of the code *)

(** ** Generating and validating room codes *)

Lemma charAt_chars i :
  (i < 36)%nat ->
  exists c, charAt chars i = String c EmptyString /\ is_upper_or_digit c = true.
Proof.
  intros Hi.
  do 36 (destruct i as [|i]; [eexists; split; reflexivity|]).
  lia.
Qed.

(** X1. Whatever the six random draws within the alphabet, the code that
    [generateRandomCode] builds passes [isValidRoomCode]. *)
Theorem generateRandomCode_valid draw :
  (forall k, (k < 6)%nat -> (draw k < 36)%nat) ->
  isValidRoomCode (generateRandomCode draw) = true.
Proof.
  intros Hdraw.
  destruct (charAt_chars (draw 0%nat)) as (c0 & E0 & V0); [apply Hdraw; lia|].
  destruct (charAt_chars (draw 1%nat)) as (c1 & E1 & V1); [apply Hdraw; lia|].
  destruct (charAt_chars (draw 2%nat)) as (c2 & E2 & V2); [apply Hdraw; lia|].
  destruct (charAt_chars (draw 3%nat)) as (c3 & E3 & V3); [apply Hdraw; lia|].
  destruct (charAt_chars (draw 4%nat)) as (c4 & E4 & V4); [apply Hdraw; lia|].
  destruct (charAt_chars (draw 5%nat)) as (c5 & E5 & V5); [apply Hdraw; lia|].
  unfold generateRandomCode. simpl. rewrite E0, E1, E2, E3, E4, E5. simpl.
  unfold isValidRoomCode. simpl. now rewrite V0, V1, V2, V3, V4, V5.
Qed.

Lemma generateRandomCode_valid_witness :
  isValidRoomCode (generateRandomCode (fun k => (5 * k + 3)%nat)) = true
  /\ generateRandomCode (fun k => (5 * k + 3)%nat) = "DINSX2"%string.
Proof.
  split.
  - apply generateRandomCode_valid. intros k Hk.
    do 6 (destruct k as [|k]; [simpl; lia|]). lia.
  - reflexivity.
Defined.

Lemma index_of_char_spec c :
  is_upper_or_digit c = true ->
  (index_of_char c < 36)%nat /\ charAt chars (index_of_char c) = String c EmptyString.
Proof.
  destruct c as [[] [] [] [] [] [] [] []]; try discriminate; intros _;
    (split; [apply Nat.ltb_lt|]; vm_compute; reflexivity).
Qed.

(** X2. Every code that [isValidRoomCode] accepts is a code
    [generateRandomCode] can produce, with draws within the alphabet. *)
Theorem valid_code_can_be_generated code :
  isValidRoomCode code = true ->
  exists draw,
    (forall k, (k < 6)%nat -> (draw k < 36)%nat)
    /\ generateRandomCode draw = code.
Proof.
  unfold isValidRoomCode. intros H. apply andb_true_iff in H as [Hlen Hall].
  apply Nat.eqb_eq in Hlen.
  destruct code as [|c0 [|c1 [|c2 [|c3 [|c4 [|c5 [|c6 rest]]]]]]]; try discriminate.
  simpl in Hall.
  repeat match goal with
         | H : _ && _ = true |- _ => apply andb_true_iff in H as [? H]
         end.
  exists (fun k => index_of_char (List.nth k [c0; c1; c2; c3; c4; c5] c0)).
  split.
  - intros k Hk.
    do 6 (destruct k as [|k]; [simpl; now apply index_of_char_spec|]). lia.
  - unfold generateRandomCode. simpl.
    rewrite !(fun c H => proj2 (index_of_char_spec c H)) by assumption.
    reflexivity.
Qed.

Lemma valid_code_can_be_generated_witness :
  isValidRoomCode "ABC123" = true
  /\ exists draw, (forall k, (k < 6)%nat -> (draw k < 36)%nat)
                  /\ generateRandomCode draw = "ABC123"%string.
Proof.
  split; [reflexivity|].
  exact (valid_code_can_be_generated "ABC123" eq_refl).
Defined.

(** ** Allocating a room code *)

Lemma generateRoomCode_loop_step n rand i st :
  generateRoomCode_loop (S n) rand i st
  = if code_taken (rand i) st then generateRoomCode_loop n rand (S i) st
    else (Ok (rand i), on_redis (set_room_codes (insert (rand i) "reserved"%string)) st).
Proof.
  simpl. unfold code_taken. destruct (room_findByCode (rand i) (db st)); [reflexivity|].
  now destruct (truthy _).
Qed.

Lemma generateRoomCode_loop_Ok n rand i st code st' :
  generateRoomCode_loop n rand i st = (Ok code, st') ->
  exists k, (k < n)%nat /\ code = rand (i + k)%nat
            /\ (forall j, (j < k)%nat -> code_taken (rand (i + j)%nat) st = true)
            /\ code_taken code st = false
            /\ st' = on_redis (set_room_codes (insert code "reserved"%string)) st.
Proof.
  revert i. induction n as [|n IH]; intros i; [discriminate|].
  rewrite generateRoomCode_loop_step.
  destruct (code_taken (rand i) st) eqn:Ht.
  - intros H. destruct (IH _ H) as (k & Hk & -> & Hbefore & Hfree & ->).
    exists (S k). split; [lia|]. split; [f_equal; lia|].
    split; [|split; [assumption|reflexivity]].
    intros j Hj. destruct j as [|j]; [now rewrite Nat.add_0_r|].
    replace (i + S j)%nat with (S i + j)%nat by lia. apply Hbefore. lia.
  - intros [= <- <-]. exists 0%nat. rewrite Nat.add_0_r.
    split; [lia|]. split; [reflexivity|]. split; [|split; [assumption|reflexivity]].
    intros j Hj. lia.
Qed.

Lemma generateRoomCode_loop_Err n rand i st e st' :
  generateRoomCode_loop n rand i st = (Err e, st') ->
  e = CodeExhausted /\ st' = st
  /\ forall j, (j < n)%nat -> code_taken (rand (i + j)%nat) st = true.
Proof.
  revert i. induction n as [|n IH]; intros i.
  - intros [= <- <-]. repeat split. intros j Hj. lia.
  - rewrite generateRoomCode_loop_step.
    destruct (code_taken (rand i) st) eqn:Ht; [|discriminate].
    intros H. destruct (IH _ H) as (-> & -> & Hall). repeat split.
    intros j Hj. destruct j as [|j]; [now rewrite Nat.add_0_r|].
    replace (i + S j)%nat with (S i + j)%nat by lia. apply Hall. lia.
Qed.

Lemma generateRoomCode_loop_all_taken n rand i st :
  (forall j, (j < n)%nat -> code_taken (rand (i + j)%nat) st = true) ->
  generateRoomCode_loop n rand i st = (Err CodeExhausted, st).
Proof.
  revert i. induction n as [|n IH]; intros i Hall; [reflexivity|].
  rewrite generateRoomCode_loop_step.
  rewrite <- (Nat.add_0_r i) at 1. rewrite (Hall 0%nat) by lia.
  apply IH. intros j Hj. replace (S i + j)%nat with (i + S j)%nat by lia.
  apply Hall. lia.
Qed.

Lemma generateRoomCode_loop_first_free n rand i st k :
  (k < n)%nat ->
  (forall j, (j < k)%nat -> code_taken (rand (i + j)%nat) st = true) ->
  code_taken (rand (i + k)%nat) st = false ->
  generateRoomCode_loop n rand i st
  = (Ok (rand (i + k)%nat),
     on_redis (set_room_codes (insert (rand (i + k)%nat) "reserved"%string)) st).
Proof.
  revert i k. induction n as [|n IH]; intros i k Hk Hbefore Hfree; [lia|].
  rewrite generateRoomCode_loop_step.
  destruct k as [|k].
  - rewrite Nat.add_0_r in Hfree |- *. now rewrite Hfree.
  - rewrite <- (Nat.add_0_r i) at 1. rewrite (Hbefore 0%nat) by lia.
    replace (i + S k)%nat with (S i + k)%nat in * by lia.
    apply IH; [lia| |exact Hfree].
    intros j Hj. replace (S i + j)%nat with (i + S j)%nat by lia. apply Hbefore. lia.
Qed.

(** X3. [generateRoomCode] hands out the first of its ten candidates that is
    neither the code of a stored room nor a live [room_code] key, and
    reserves it; the durable store and every other key are as before.
    Conversely a code it hands out is such a first free candidate. *)
Theorem generateRoomCode_first_free rand st :
  (forall k,
      (k < 10)%nat ->
      (forall j, (j < k)%nat -> code_taken (rand j) st = true) ->
      code_taken (rand k) st = false ->
      generateRoomCode rand st
      = (Ok (rand k), on_redis (set_room_codes (insert (rand k) "reserved"%string)) st))
  /\ (forall code st',
         generateRoomCode rand st = (Ok code, st') ->
         (exists k, (k < 10)%nat /\ code = rand k
                    /\ (forall j, (j < k)%nat -> code_taken (rand j) st = true))
         /\ room_findByCode code (db st) = None
         /\ truthy (room_code_keys (redis st) !! code) = false
         /\ db st' = db st
         /\ room_code_keys (redis st') = <[code := "reserved"%string]> (room_code_keys (redis st))
         /\ room_code_keys (redis st') !! code = Some "reserved"%string
         /\ lock_keys (redis st') = lock_keys (redis st)
         /\ room_keys (redis st') = room_keys (redis st)
         /\ member_sets (redis st') = member_sets (redis st)
         /\ location_keys (redis st') = location_keys (redis st)
         /\ chat_lists (redis st') = chat_lists (redis st)).
Proof.
  split.
  - intros k Hk Hbefore Hfree.
    exact (generateRoomCode_loop_first_free maxAttempts rand 0 st k Hk Hbefore Hfree).
  - intros code st' H.
    destruct (generateRoomCode_loop_Ok _ _ _ _ _ _ H) as (k & Hk & Hcode & Hbefore & Hfree & ->).
    simpl in Hcode, Hbefore.
    split; [exists k; auto|].
    unfold code_taken in Hfree.
    destruct (room_findByCode code (db st)); [discriminate|].
    simpl. rewrite lookup_insert_eq. repeat split; auto.
Qed.

Lemma generateRoomCode_first_free_witness :
  let rand := fun i : nat => match i with
                             | 0%nat => "ABC123"
                             | 1%nat => "XYZ789"
                             | _ => "QQQ000"
                             end%string in
  let held := on_redis (set_room_codes (insert "XYZ789"%string "reserved"%string)) after_create in
  code_taken (rand 0%nat) held = true
  /\ code_taken (rand 1%nat) held = true
  /\ code_taken (rand 2%nat) held = false
  /\ generateRoomCode rand held
     = (Ok "QQQ000"%string,
        on_redis (set_room_codes (insert "QQQ000"%string "reserved"%string)) held).
Proof.
  intros rand held.
  assert (H0 : code_taken (rand 0%nat) held = true) by (vm_compute; reflexivity).
  assert (H1 : code_taken (rand 1%nat) held = true) by (vm_compute; reflexivity).
  assert (H2 : code_taken (rand 2%nat) held = false) by (vm_compute; reflexivity).
  split; [exact H0|]. split; [exact H1|]. split; [exact H2|].
  apply (proj1 (generateRoomCode_first_free rand held) 2%nat); [lia| |exact H2].
  intros j Hj. destruct j as [|[|j]]; [exact H0|exact H1|lia].
Defined.

(** X4. [generateRoomCode] fails exactly when all ten candidates are taken;
    the failure is the exhaustion error and nothing is reserved or changed. *)
Theorem generateRoomCode_exhausted rand st :
  ((forall j, (j < 10)%nat -> code_taken (rand j) st = true) ->
   generateRoomCode rand st = (Err CodeExhausted, st))
  /\ (forall e st',
         generateRoomCode rand st = (Err e, st') ->
         e = CodeExhausted /\ st' = st
         /\ forall j, (j < 10)%nat -> code_taken (rand j) st = true).
Proof.
  split.
  - intros Hall. now apply generateRoomCode_loop_all_taken.
  - intros e st' H. exact (generateRoomCode_loop_Err _ _ _ _ _ _ H).
Qed.

Lemma generateRoomCode_exhausted_witness :
  (forall j, (j < 10)%nat -> code_taken (always_ABC123 j) after_create = true)
  /\ generateRoomCode always_ABC123 after_create = (Err CodeExhausted, after_create).
Proof.
  assert (H : forall j, (j < 10)%nat -> code_taken (always_ABC123 j) after_create = true)
    by (intros j _; vm_compute; reflexivity).
  split; [exact H|].
  exact (proj1 (generateRoomCode_exhausted always_ABC123 after_create) H).
Defined.

(** X5. Releasing a code right after [generateRoomCode] reserved it gives
    back the state from before the allocation, when the [room_code] key was
    absent then. *)
Theorem generateRoomCode_release_round_trip rand st code st' :
  generateRoomCode rand st = (Ok code, st') ->
  room_code_keys (redis st) !! code = None ->
  releaseRoomCode code st' = st.
Proof.
  intros H Hnone.
  destruct (generateRoomCode_loop_Ok _ _ _ _ _ _ H) as (_ & _ & _ & _ & _ & ->).
  destruct st as [d [codes locks views sets locs chats]]. simpl in *.
  unfold releaseRoomCode, on_redis, set_room_codes. simpl.
  now rewrite delete_insert_id.
Qed.

Lemma generateRoomCode_release_round_trip_witness :
  generateRoomCode always_XYZ789 after_create
  = (Ok "XYZ789"%string,
     on_redis (set_room_codes (insert "XYZ789"%string "reserved"%string)) after_create)
  /\ room_code_keys (redis after_create) !! "XYZ789"%string = None
  /\ releaseRoomCode "XYZ789"
       (on_redis (set_room_codes (insert "XYZ789"%string "reserved"%string)) after_create)
     = after_create.
Proof.
  assert (H1 : generateRoomCode always_XYZ789 after_create
               = (Ok "XYZ789"%string,
                  on_redis (set_room_codes (insert "XYZ789"%string "reserved"%string))
                           after_create))
    by (vm_compute; reflexivity).
  assert (H2 : room_code_keys (redis after_create) !! "XYZ789"%string = None)
    by (vm_compute; reflexivity).
  split; [exact H1|]. split; [exact H2|].
  exact (generateRoomCode_release_round_trip _ _ _ _ H1 H2).
Defined.

(** ** [createRoom] when it succeeds *)

Lemma existsb_orb_false {A} (p q : A -> bool) (l : list A) :
  existsb (fun x => p x || q x) l = false <->
  List.find p l = None /\ List.find q l = None.
Proof.
  induction l as [|a l IH]; simpl; [tauto|].
  destruct (p a); simpl.
  - split; [discriminate|]. intros [H _]. discriminate.
  - destruct (q a); simpl.
    + split; [discriminate|]. intros [_ H]. discriminate.
    + exact IH.
Qed.

Lemma find_app_None {A} (p : A -> bool) (l l' : list A) :
  List.find p l = None -> List.find p (l ++ l')%list = List.find p l'.
Proof.
  induction l as [|a l IH]; simpl; [reflexivity|].
  destruct (p a); [discriminate|exact IH].
Qed.

Lemma find_app_Some {A} (p : A -> bool) (l l' : list A) a :
  List.find p l = Some a -> List.find p (l ++ l')%list = Some a.
Proof.
  induction l as [|b l IH]; simpl; [discriminate|].
  destruct (p b); [trivial|exact IH].
Qed.

(** The transaction of [createRoom], statement by statement. *)
Lemma createRoom_tx_result data code roomId memberId now d :
  room_findByCode code d = None ->
  transaction (createRoom_tx data code roomId memberId now) d
  = match room_findUnique roomId d with
    | Some _ => (Err UniqueViolation, d)
    | None =>
        if existsb (fun m => has_member_id memberId m
                             || is_member_of roomId (createdBy data) m) (room_members d)
        then (Err UniqueViolation, d)
        else (Ok (new_room data code roomId now, owner_row data roomId memberId now),
              mkDB (rooms d ++ [new_room data code roomId now])
                   (room_members d ++ [owner_row data roomId memberId now]))
    end.
Proof.
  intros Hcode. unfold transaction, createRoom_tx, bind, ret, room_create, roomMember_create.
  fold (new_room data code roomId now). simpl.
  destruct (existsb _ (rooms d)) eqn:Hex.
  - destruct (room_findUnique roomId d) eqn:Hid; [reflexivity|].
    exfalso. assert (Hf : existsb (fun r' => is_room roomId r' || has_code code r') (rooms d) = false)
      by now apply existsb_orb_false.
    congruence.
  - apply existsb_orb_false in Hex as [Hid _].
    unfold room_findUnique. rewrite Hid. simpl.
    fold (owner_row data roomId memberId now).
    now destruct (existsb _ (room_members d)).
Qed.

Lemma createRoom_Ok_inv data rand roomId memberId now fault st r st' :
  createRoom data rand roomId memberId now fault st = (Ok r, st') ->
  exists code,
    generateRoomCode rand st
    = (Ok code, on_redis (set_room_codes (insert code "reserved"%string)) st)
    /\ room_findByCode code (db st) = None
    /\ room_findUnique roomId (db st) = None
    /\ r = new_room data code roomId now
    /\ st' = mkState
               (mkDB (rooms (db st) ++ [r])
                     (room_members (db st) ++ [owner_row data roomId memberId now]))
               (set_room_codes (insert code roomId)
                  (set_room_keys (insert roomId (mkRoomView r None (Some 1))) (redis st))).
Proof.
  unfold createRoom. intros H.
  destruct (generateRoomCode rand st) as [[code|e] st0] eqn:Hgen; [|discriminate].
  pose proof (generateRoomCode_loop_Ok _ _ _ _ _ _ Hgen) as (_ & _ & _ & _ & Hfree & ->).
  unfold code_taken in Hfree.
  destruct (room_findByCode code (db st)) eqn:Hcode; [discriminate|].
  exists code. split; [reflexivity|]. split; [exact Hcode|].
  destruct fault; try discriminate.
  - cbn [db on_redis] in H. rewrite (createRoom_tx_result _ _ _ _ _ _ Hcode) in H.
    destruct (room_findUnique roomId (db st)); [discriminate|].
    destruct (existsb _ (room_members (db st))); [discriminate|].
    injection H as <- <-. split; [reflexivity|]. split; [reflexivity|].
    destruct st as [d [codes locks views sets locs chats]].
    unfold cacheRoomData, on_redis, with_db, set_room_codes, set_room_keys. simpl.
    now rewrite insert_insert_eq.
  - cbn [db on_redis] in H. rewrite (createRoom_tx_result _ _ _ _ _ _ Hcode) in H.
    destruct (room_findUnique roomId (db st)); [discriminate|].
    destruct (existsb _ (room_members (db st))); discriminate.
Qed.

(** X6. A [createRoom] that succeeds returns a room with the given id, the
    allocated code, status active, the requested size and an expiry
    [expiresIn] hours after the call; it appends that room and one
    membership row for the creator (role owner, status active, join order 1)
    to the store, caches the room with [memberCount] 1, maps the code to the
    room id and leaves the locks, member sets, locations and chat logs
    alone. The code then resolves to the new room. *)
Theorem createRoom_success data rand roomId memberId now fault st r st' :
  createRoom data rand roomId memberId now fault st = (Ok r, st') ->
  exists code owner,
    (exists k, (k < 10)%nat /\ code = rand k)
    /\ room_findByCode code (db st) = None
    /\ r = new_room data code roomId now
    /\ Room.id r = roomId
    /\ Room.room_code r = code
    /\ Room.name r = cr_name data
    /\ Room.created_by r = createdBy data
    /\ Room.max_members r = maxMembers data
    /\ Room.status r = "active"%string
    /\ Room.expires_at r = Some (now + expiresIn data * 60 * 60 * 1000)
    /\ Room.completed_at r = None
    /\ rooms (db st') = (rooms (db st) ++ [r])%list
    /\ room_members (db st') = (room_members (db st) ++ [owner])%list
    /\ owner = owner_row data roomId memberId now
    /\ RoomMember.id owner = memberId
    /\ RoomMember.room_id owner = roomId
    /\ RoomMember.user_id owner = createdBy data
    /\ RoomMember.nickname owner = cr_name data
    /\ RoomMember.role owner = "owner"%string
    /\ RoomMember.status owner = "active"%string
    /\ RoomMember.join_order owner = 1
    /\ RoomMember.last_seen owner = Some now
    /\ RoomMember.left_at owner = None
    /\ room_code_keys (redis st') = <[code := roomId]> (room_code_keys (redis st))
    /\ room_keys (redis st')
       = <[roomId := mkRoomView r None (Some 1)]> (room_keys (redis st))
    /\ lock_keys (redis st') = lock_keys (redis st)
    /\ member_sets (redis st') = member_sets (redis st)
    /\ location_keys (redis st') = location_keys (redis st)
    /\ chat_lists (redis st') = chat_lists (redis st)
    /\ resolve_code code st' = Ok roomId.
Proof.
  intros H.
  destruct (createRoom_Ok_inv _ _ _ _ _ _ _ _ _ H) as (code & Hgen & Hcode & _ & Hr & ->).
  exists code, (owner_row data roomId memberId now).
  split.
  { destruct (generateRoomCode_loop_Ok _ _ _ _ _ _ Hgen) as (k & Hk & Hc & _).
    exists k. split; [exact Hk|exact Hc]. }
  split; [exact Hcode|]. split; [exact Hr|].
  rewrite Hr. cbn.
  repeat match goal with |- _ /\ _ => split end; try reflexivity.
  unfold resolve_code. cbn. rewrite lookup_insert_eq. cbn.
  destruct (String.eqb_spec roomId "") as [->|Hne]; cbn; [|reflexivity].
  unfold room_findByCode. cbn. rewrite (find_app_None _ _ _ Hcode). cbn.
  unfold has_code. cbn. now rewrite String.eqb_refl.
Qed.

(** bob creates a second room. *)
Lemma createRoom_success_witness :
  let data := mkCreateRoomData "Hike" "Lake" 1 2 4 2 "bob" in
  let out := createRoom data always_XYZ789 "r2" "m7" 5000 NoFault after_create in
  fst out = Ok (new_room data "XYZ789" "r2" 5000)
  /\ resolve_code "XYZ789" (snd out) = Ok "r2"%string
  /\ List.map RoomMember.role (room_members (db (snd out))) = ["owner"; "owner"]%string.
Proof.
  intros data out.
  assert (E : createRoom data always_XYZ789 "r2" "m7" 5000 NoFault after_create
              = (Ok (new_room data "XYZ789" "r2" 5000), snd out))
    by (vm_compute; reflexivity).
  destruct (createRoom_success _ _ _ _ _ _ _ _ _ E)
    as (code & owner & _ & _ & Hr & _ & _ & _ & _ & _ & _ & _ & _ & _ & Hrows & _ & _ & _ & _
        & _ & Hrole & _ & _ & _ & _ & _ & _ & _ & _ & _ & _ & Hres).
  injection Hr as <-.
  split; [reflexivity|]. split; [exact Hres|].
  rewrite Hrows, List.map_app. cbn [List.map]. rewrite Hrole. reflexivity.
Defined.

(** X7. Right after a successful [createRoom], [getRoomDetails] answers from
    the cache: without a user id it returns the cached room with
    [memberCount] 1, and with any user id, the creator's included, it fails
    with AccessDenied when no member set exists yet for the room, because
    [createRoom] caches the room without its members. *)
Theorem getRoomDetails_after_createRoom data rand roomId memberId now fault st r st' :
  createRoom data rand roomId memberId now fault st = (Ok r, st') ->
  member_sets (redis st) !! roomId = None ->
  getRoomDetails roomId None st' = (Ok (mkRoomView r None (Some 1)), st')
  /\ (createdBy data <> ""%string ->
      getRoomDetails roomId (Some (createdBy data)) st' = (Err AccessDenied, st'))
  /\ (forall uid, uid <> ""%string ->
                  getRoomDetails roomId (Some uid) st' = (Err AccessDenied, st')).
Proof.
  intros H Hset.
  destruct (createRoom_Ok_inv _ _ _ _ _ _ _ _ _ H) as (code & _ & _ & _ & _ & ->).
  assert (Hdenied : forall uid, uid <> ""%string ->
            getRoomDetails roomId (Some uid)
              (mkState
                 (mkDB (rooms (db st) ++ [r])
                       (room_members (db st) ++ [owner_row data roomId memberId now]))
                 (set_room_codes (insert code roomId)
                    (set_room_keys (insert roomId (mkRoomView r None (Some 1))) (redis st))))
            = (Err AccessDenied,
               mkState
                 (mkDB (rooms (db st) ++ [r])
                       (room_members (db st) ++ [owner_row data roomId memberId now]))
                 (set_room_codes (insert code roomId)
                    (set_room_keys (insert roomId (mkRoomView r None (Some 1))) (redis st))))).
  { intros uid Huid. unfold getRoomDetails. simpl. rewrite lookup_insert_eq.
    apply String.eqb_neq in Huid. rewrite Huid. simpl.
    unfold sIsMember. simpl. rewrite Hset. simpl.
    rewrite bool_decide_eq_false_2 by set_solver. reflexivity. }
  split; [|split].
  - unfold getRoomDetails. simpl. now rewrite lookup_insert_eq.
  - apply Hdenied.
  - exact Hdenied.
Qed.

Lemma getRoomDetails_after_createRoom_witness :
  fst (createRoom (mkCreateRoomData "Trip" "Park" 10 20 5 24 "alice") always_ABC123
                  "r1" "m1" 1000 NoFault initial)
  = Ok (new_room (mkCreateRoomData "Trip" "Park" 10 20 5 24 "alice") "ABC123" "r1" 1000)
  /\ getRoomDetails "r1" (Some "alice"%string) after_create = (Err AccessDenied, after_create).
Proof.
  split; [vm_compute; reflexivity|].
  refine (proj1 (proj2 (getRoomDetails_after_createRoom
            (mkCreateRoomData "Trip" "Park" 10 20 5 24 "alice") always_ABC123
            "r1" "m1" 1000 NoFault initial
            (new_room (mkCreateRoomData "Trip" "Park" 10 20 5 24 "alice") "ABC123" "r1" 1000)
            after_create _ _)) _).
  - vm_compute. reflexivity.
  - vm_compute. reflexivity.
  - discriminate.
Defined.

(** ** [joinRoom] when it lets a member in *)


Lemma find_None_existsb {A} (p : A -> bool) (l : list A) :
  List.find p l = None -> existsb p l = false.
Proof.
  induction l as [|a l IH]; simpl; [reflexivity|].
  destruct (p a); [discriminate|exact IH].
Qed.

(** What a successful [joinRoom] went through. *)
Lemma joinRoom_Ok_inv data lockValue memberId now st res st' :
  joinRoom data lockValue memberId now st = (Ok res, st') ->
  exists rid r,
    resolve_code (roomCode data) st = Ok rid
    /\ lock_keys (redis st) !! rid = None
    /\ room_findUnique rid (db st) = Some r
    /\ join_guard now r (db st) = None
    /\ room res = r
    /\ rooms (db st') = rooms (db st)
    /\ redis st' = redis (updateRoomMemberCount rid 1 st)
    /\ ((exists existing m,
            roomMember_find rid (userId data) (db st) = Some existing
            /\ (RoomMember.status existing =? "active")%string = false
            /\ List.find (has_member_id (RoomMember.id existing)) (room_members (db st)) = Some m
            /\ isRejoining res = true
            /\ roomMember res
               = RoomMember.reactivate
                   (or_else (nickname data) (RoomMember.nickname existing)) now m
            /\ room_members (db st')
               = update_where (has_member_id (RoomMember.id existing))
                   (RoomMember.reactivate
                      (or_else (nickname data) (RoomMember.nickname existing)) now)
                   (room_members (db st)))
        \/ (roomMember_find rid (userId data) (db st) = None
            /\ List.find (has_member_id memberId) (room_members (db st)) = None
            /\ isRejoining res = false
            /\ roomMember res = member_row rid data memberId now (db st)
            /\ room_members (db st')
               = (room_members (db st) ++ [member_row rid data memberId now (db st)])%list)).
Proof.
  intros Hjoin.
  destruct (resolve_code (roomCode data) st) as [rid|e] eqn:Hres;
    [|unfold joinRoom in Hjoin; rewrite Hres in Hjoin; discriminate].
  destruct (set_nx rid lockValue (redis st)) as [locked|] eqn:Hnx;
    [|unfold joinRoom in Hjoin; rewrite Hres, Hnx in Hjoin; discriminate].
  rewrite (joinRoom_acquired data lockValue memberId now st rid locked Hres Hnx) in Hjoin.
  apply set_nx_Some in Hnx as [Hfree _].
  unfold transaction in Hjoin.
  destruct (room_findUnique rid (db st)) as [r|] eqn:Hr.
  2:{ unfold joinRoom_tx, bind, query, throw in Hjoin. rewrite Hr in Hjoin. discriminate. }
  destruct (join_guard now r (db st)) as [g|] eqn:Hg.
  { rewrite (joinRoom_tx_guarded data memberId now rid _ r g Hr Hg) in Hjoin. discriminate. }
  rewrite (joinRoom_tx_passed data memberId now rid _ r Hr Hg) in Hjoin.
  exists rid, r. do 4 (split; [assumption || reflexivity|]).
  assert (Hredis : forall d, redis (updateRoomMemberCount rid 1 (mkState d (redis st)))
                             = redis (updateRoomMemberCount rid 1 st)).
  { intros d. unfold updateRoomMemberCount. simpl.
    now destruct (room_keys (redis st) !! rid). }
  destruct (roomMember_find rid (userId data) (db st)) as [existing|] eqn:Hfind.
  - destruct (RoomMember.status existing =? "active")%string eqn:Hact; [discriminate|].
    destruct (List.find (has_member_id (RoomMember.id existing)) (room_members (db st)))
      as [m|] eqn:Hm; [|discriminate].
    cbv zeta in Hjoin. injection Hjoin as <- <-.
    rewrite updateRoomMemberCount_db, Hredis. simpl.
    do 3 (split; [reflexivity|]). left. exists existing, m. repeat split; auto.
  - cbv zeta in Hjoin.
    destruct (existsb _ (room_members (db st))) eqn:Hex; [discriminate|].
    apply existsb_orb_false in Hex as [Hmid _].
    injection Hjoin as <- <-.
    rewrite updateRoomMemberCount_db, Hredis. simpl.
    do 3 (split; [reflexivity|]). right. repeat split; auto.
Qed.

Lemma active_members_app rid d m :
  active_members rid (mkDB (rooms d) (room_members d ++ [m]))
  = (active_members rid d ++ (if is_active_in rid m then [m] else []))%list.
Proof.
  unfold active_members. simpl. rewrite List.filter_app. simpl.
  now destruct (is_active_in rid m).
Qed.

(** X8. When [joinRoom] succeeds for a user who had no row in the room, it
    reports [isRejoining = false] and returns a new row with the given id,
    for that room and user, with role member, status active, the nickname
    asked for (Member when none is given), [last_seen] the time of the call
    and join order equal to the number of active members plus one. The row
    is appended to the table; no other row and no room changes. In the cache
    the room's [memberCount], when the room is cached, becomes the old count
    plus one; no other cached room changes, and the locks, code mappings,
    member sets, locations and chat logs are as before. *)
Theorem joinRoom_new_member data lockValue memberId now st res st' :
  joinRoom data lockValue memberId now st = (Ok res, st') ->
  roomMember_find (Room.id (room res)) (userId data) (db st) = None ->
  let rid := Room.id (room res) in
  let created := roomMember res in
  isRejoining res = false
  /\ room_findUnique rid (db st) = Some (room res)
  /\ created = member_row rid data memberId now (db st)
  /\ RoomMember.id created = memberId
  /\ RoomMember.room_id created = rid
  /\ RoomMember.user_id created = userId data
  /\ RoomMember.role created = "member"%string
  /\ RoomMember.status created = "active"%string
  /\ RoomMember.join_order created = Z.of_nat (length (active_members rid (db st))) + 1
  /\ RoomMember.last_seen created = Some now
  /\ RoomMember.left_at created = None
  /\ (forall nick,
         nickname data = Some nick -> nick <> ""%string ->
         RoomMember.nickname created = nick)
  /\ (nickname data = None \/ nickname data = Some ""%string ->
      RoomMember.nickname created = "Member"%string)
  /\ room_members (db st') = (room_members (db st) ++ [created])%list
  /\ rooms (db st') = rooms (db st)
  /\ active_members rid (db st') = (active_members rid (db st) ++ [created])%list
  /\ room_keys (redis st') !! rid
     = match room_keys (redis st) !! rid with
       | Some v =>
           Some (mkRoomView (view_room v) (members v)
                            (Some (Z.max 0 (default 0 (memberCount v) + 1))))
       | None => None
       end
  /\ (forall k, k <> rid -> room_keys (redis st') !! k = room_keys (redis st) !! k)
  /\ lock_keys (redis st') = lock_keys (redis st)
  /\ room_code_keys (redis st') = room_code_keys (redis st)
  /\ member_sets (redis st') = member_sets (redis st)
  /\ location_keys (redis st') = location_keys (redis st)
  /\ chat_lists (redis st') = chat_lists (redis st).
Proof.
  intros Hjoin Hnone rid created.
  destruct (joinRoom_Ok_inv _ _ _ _ _ _ _ Hjoin)
    as (rid' & r & Hres & Hfree & Hr & Hg & Hroom & Hrooms & Hredis & Hcase).
  assert (Hrid : rid' = rid).
  { unfold rid. rewrite Hroom. symmetry. exact (room_findUnique_id _ _ _ Hr). }
  subst rid'.
  destruct Hcase as [(existing & m & Hfind & _)|(_ & Hmid & Hnew & Hrow & Htab)].
  { fold rid in Hnone. rewrite Hfind in Hnone. discriminate. }
  fold created in Hrow.
  split; [exact Hnew|]. split; [now rewrite Hr, Hroom|]. split; [exact Hrow|].
  rewrite Hrow. cbn [member_row RoomMember.id RoomMember.room_id RoomMember.user_id
                     RoomMember.role RoomMember.status RoomMember.join_order
                     RoomMember.last_seen RoomMember.left_at RoomMember.nickname].
  do 8 (split; [reflexivity|]).
  split.
  { intros nick Hn Hne. rewrite Hn. cbn.
    destruct (String.eqb_spec nick "") as [E|_]; [now destruct Hne|reflexivity]. }
  split; [intros [Hn|Hn]; rewrite Hn; reflexivity|].
  split; [exact Htab|]. split; [exact Hrooms|].
  split.
  { assert (Hdb : db st' = mkDB (rooms (db st))
                             (room_members (db st)
                              ++ [member_row rid data memberId now (db st)]))
      by (destruct (db st'); cbn in *; now subst).
    rewrite Hdb, active_members_app.
    unfold is_active_in, member_row. cbn. now rewrite String.eqb_refl. }
  rewrite Hredis. unfold updateRoomMemberCount.
  destruct (room_keys (redis st) !! rid) as [v|] eqn:Hv; cbn.
  - split; [apply lookup_insert_eq|].
    split; [intros k Hk; now apply lookup_insert_ne|]. repeat split.
  - split; [exact Hv|]. repeat split.
Qed.

(** bob joins the room alice created. *)
Lemma joinRoom_new_member_witness :
  let r := Room.mk "r1" "ABC123" "Trip" "Park" 10 20 "alice" 5 "active" 1000 1000
                   (Some 86401000) None in
  let out := joinRoom (join_as "bob") "token-1" "m2" 2000 after_create in
  fst out = Ok (mkJoinResult r (member_row "r1" (join_as "bob") "m2" 2000 (db after_create))
                             false)
  /\ roomMember_find "r1" "bob" (db after_create) = None
  /\ List.map RoomMember.join_order (room_members (db (snd out))) = [1; 2]
  /\ option_map memberCount (room_keys (redis (snd out)) !! "r1"%string) = Some (Some 2).
Proof.
  intros r out.
  assert (E : joinRoom (join_as "bob") "token-1" "m2" 2000 after_create
              = (Ok (mkJoinResult r (member_row "r1" (join_as "bob") "m2" 2000
                                                (db after_create)) false),
                 snd out))
    by (vm_compute; reflexivity).
  assert (H : roomMember_find "r1" "bob" (db after_create) = None)
    by (vm_compute; reflexivity).
  destruct (joinRoom_new_member _ _ _ _ _ _ _ E H)
    as (_ & _ & _ & _ & _ & _ & _ & _ & _ & _ & _ & _ & _ & Htab & _ & _ & Hcount & _).
  split; [reflexivity|]. split; [exact H|]. split.
  - rewrite Htab, List.map_app. vm_compute. reflexivity.
  - unfold r in Hcount. cbn [room Room.id] in Hcount. rewrite Hcount. vm_compute. reflexivity.
Defined.

Lemma length_active_after_reactivate rid nick now (l : list RoomMember.t) (m : RoomMember.t) :
  NoDup (List.map RoomMember.id l) -> In m l ->
  RoomMember.room_id m = rid ->
  (RoomMember.status m =? "active")%string = false ->
  length (List.filter (is_active_in rid)
            (update_where (has_member_id (RoomMember.id m))
                          (RoomMember.reactivate nick now) l))
  = S (length (List.filter (is_active_in rid) l)).
Proof.
  intros Hnd Hin Hrid Hst.
  destruct (update_where_unique_id (RoomMember.reactivate nick now) l m Hnd Hin)
    as (l1 & l2 & -> & ->).
  rewrite !List.filter_app, !List.length_app. simpl.
  assert (H1 : is_active_in rid (RoomMember.reactivate nick now m) = true).
  { unfold is_active_in. simpl. now rewrite Hrid, String.eqb_refl. }
  assert (H2 : is_active_in rid m = false).
  { unfold is_active_in. rewrite Hst. apply andb_false_r. }
  rewrite H1, H2. simpl. lia.
Qed.

(** X9. In a store with unique member ids, every successful [joinRoom],
    whether it inserts a row or reactivates one, raises the number of active
    members of the room by exactly one and never beyond the room's
    [max_members]; the room it returns is the stored room it joined. *)
Theorem joinRoom_respects_capacity data lockValue memberId now st res st' :
  NoDup (List.map RoomMember.id (room_members (db st))) ->
  joinRoom data lockValue memberId now st = (Ok res, st') ->
  room_findUnique (Room.id (room res)) (db st) = Some (room res)
  /\ length (active_members (Room.id (room res)) (db st'))
     = S (length (active_members (Room.id (room res)) (db st)))
  /\ Z.of_nat (length (active_members (Room.id (room res)) (db st')))
     <= Room.max_members (room res)
  /\ RoomMember.status (roomMember res) = "active"%string
  /\ RoomMember.room_id (roomMember res) = Room.id (room res)
  /\ RoomMember.user_id (roomMember res) = userId data.
Proof.
  intros Hnd Hjoin.
  destruct (joinRoom_Ok_inv _ _ _ _ _ _ _ Hjoin)
    as (rid & r & _ & _ & Hr & Hg & -> & Hrooms & _ & Hcase).
  pose proof (room_findUnique_id _ _ _ Hr) as Hid. rewrite Hid.
  assert (Hroom : forall n : nat, n = S (length (active_members rid (db st))) ->
                            Z.of_nat n <= Room.max_members r).
  { intros n ->. unfold join_guard in Hg. rewrite Hid in Hg.
    destruct (negb _); [discriminate|]. destruct (expired now r); [discriminate|].
    destruct (Z.geb_spec (Z.of_nat (length (active_members rid (db st))))
                         (Room.max_members r)); [discriminate|]. lia. }
  destruct Hcase as [(existing & m & Hfind & Hst & Hm & _ & Hres & Hmem)
                    |(Hfind & _ & _ & Hres & Hmem)].
  - assert (Hin : In existing (room_members (db st))) by apply (List.find_some _ _ Hfind).
    rewrite (find_by_unique_id _ _ Hnd Hin) in Hm. injection Hm as <-.
    assert (Hkey : RoomMember.room_id existing = rid /\ RoomMember.user_id existing = userId data).
    { apply List.find_some in Hfind as [_ Hk]. unfold is_member_of in Hk.
      apply andb_true_iff in Hk as [H1 H2]. now apply String.eqb_eq in H1, H2. }
    destruct Hkey as [Hk1 Hk2].
    assert (Hlen : length (active_members rid (db st'))
                   = S (length (active_members rid (db st)))).
    { unfold active_members. rewrite Hmem.
      now apply length_active_after_reactivate. }
    split; [exact Hr|]. split; [exact Hlen|]. split; [now apply Hroom|].
    rewrite Hres. simpl. auto.
  - assert (Hlen : length (active_members rid (db st'))
                   = S (length (active_members rid (db st)))).
    { unfold active_members. rewrite Hmem, List.filter_app, List.length_app. simpl.
      unfold is_active_in at 2. simpl. rewrite String.eqb_refl. simpl. lia. }
    split; [exact Hr|]. split; [exact Hlen|]. split; [now apply Hroom|].
    rewrite Hres. simpl. auto.
Qed.

Lemma joinRoom_respects_capacity_witness :
  NoDup (List.map RoomMember.id (room_members (db bob_left)))
  /\ is_ok (fst (joinRoom (join_as "bob") "token-2" "m3" 4000 bob_left)) = true
  /\ length (active_members "r1" (db bob_left)) = 1%nat
  /\ length (active_members "r1"
               (db (snd (joinRoom (join_as "bob") "token-2" "m3" 4000 bob_left)))) = 2%nat.
Proof.
  assert (H0 : NoDup (List.map RoomMember.id (room_members (db bob_left))))
    by (apply (bool_decide_unpack _); vm_compute; exact I).
  split; [exact H0|]. split; [vm_compute; reflexivity|]. split; [vm_compute; reflexivity|].
  destruct (joinRoom (join_as "bob") "token-2" "m3" 4000 bob_left) as [[res|e] st'] eqn:E;
    [|vm_compute in E; discriminate].
  destruct (joinRoom_respects_capacity _ _ _ _ _ _ _ H0 E) as (Hroom & Hlen & _).
  assert (Hid : Room.id (room res) = "r1"%string).
  { vm_compute in E. injection E as <- _. reflexivity. }
  rewrite Hid in Hlen. simpl. rewrite Hlen. vm_compute. reflexivity.
Defined.

(** ** [joinRoom] when it refuses *)

(** X10. A [joinRoom] that fails changes nothing, the lock included. It
    fails as busy when the room's lock is held; as not found or inactive
    when the code has no live mapping and the store has no room of that code
    or only one that is not active; as not found when the mapped id has no
    room; and as already a member when the room passes its guards and the
    user's row is active. *)
Theorem joinRoom_refusals data lockValue memberId now st :
  (forall e st', joinRoom data lockValue memberId now st = (Err e, st') -> st' = st)
  /\ (forall rid holder,
         resolve_code (roomCode data) st = Ok rid ->
         lock_keys (redis st) !! rid = Some holder ->
         joinRoom data lockValue memberId now st = (Err RoomBusy, st))
  /\ (truthy (room_code_keys (redis st) !! roomCode data) = false ->
      (room_findByCode (roomCode data) (db st) = None
       \/ exists r, room_findByCode (roomCode data) (db st) = Some r
                    /\ Room.status r <> "active"%string) ->
      joinRoom data lockValue memberId now st = (Err RoomNotFoundOrInactive, st))
  /\ (forall rid,
         resolve_code (roomCode data) st = Ok rid ->
         lock_keys (redis st) !! rid = None ->
         room_findUnique rid (db st) = None ->
         joinRoom data lockValue memberId now st = (Err RoomNotFound, st))
  /\ (forall rid r m,
         resolve_code (roomCode data) st = Ok rid ->
         lock_keys (redis st) !! rid = None ->
         room_findUnique rid (db st) = Some r ->
         join_guard now r (db st) = None ->
         roomMember_find rid (userId data) (db st) = Some m ->
         RoomMember.status m = "active"%string ->
         joinRoom data lockValue memberId now st = (Err AlreadyMember, st)).
Proof.
  assert (Hnx : forall rid, lock_keys (redis st) !! rid = None ->
                  set_nx rid lockValue (redis st)
                  = Some (set_locks (insert rid lockValue) (redis st))).
  { intros rid Hfree. unfold set_nx. now rewrite Hfree. }
  split; [|split; [|split; [|split]]].
  - intros e st'. apply joinRoom_Err_unchanged.
  - intros rid holder Hres Hheld. unfold joinRoom, set_nx. now rewrite Hres, Hheld.
  - intros Hcache Hstore. unfold joinRoom, resolve_code. rewrite Hcache.
    destruct Hstore as [->|(r & -> & Hr)]; [reflexivity|].
    apply String.eqb_neq in Hr. now rewrite Hr.
  - intros rid Hres Hfree Hr.
    rewrite (joinRoom_acquired data lockValue memberId now st rid _ Hres (Hnx rid Hfree)).
    unfold transaction, joinRoom_tx, bind, query, throw. now rewrite Hr.
  - intros rid r m Hres Hfree Hr Hg Hfind Hst.
    rewrite (joinRoom_acquired data lockValue memberId now st rid _ Hres (Hnx rid Hfree)).
    unfold transaction.
    rewrite (joinRoom_tx_passed data memberId now rid _ r Hr Hg), Hfind, Hst. reflexivity.
Qed.

Lemma joinRoom_refusals_witness :
  let held := on_redis (set_locks (insert "r1"%string "token-0"%string)) after_create in
  joinRoom (join_as "bob") "token-1" "m2" 2000 held = (Err RoomBusy, held)
  /\ joinRoom (mkJoinRoomData "NOROOM" "bob" None) "token-1" "m2" 2000 after_create
     = (Err RoomNotFoundOrInactive, after_create)
  /\ joinRoom (join_as "alice") "token-1" "m2" 2000 after_create
     = (Err AlreadyMember, after_create).
Proof.
  intros held.
  split; [|split].
  - apply (proj1 (proj2 (joinRoom_refusals (join_as "bob") "token-1" "m2" 2000 held))
             "r1"%string "token-0"%string); vm_compute; reflexivity.
  - apply (proj1 (proj2 (proj2 (joinRoom_refusals (mkJoinRoomData "NOROOM" "bob" None)
                                   "token-1" "m2" 2000 after_create)))).
    + vm_compute. reflexivity.
    + left. vm_compute. reflexivity.
  - apply (proj2 (proj2 (proj2 (proj2 (joinRoom_refusals (join_as "alice") "token-1" "m2"
                                          2000 after_create))))
             "r1"%string
             (Room.mk "r1" "ABC123" "Trip" "Park" 10 20 "alice" 5 "active" 1000 1000
                      (Some 86401000) None)
             (RoomMember.mk "m1" "r1" "alice" "Trip" "owner" "active" 1000 None (Some 1000) 1));
      vm_compute; reflexivity.
Defined.

(** ** [leaveRoom] when an active member leaves *)

Lemma update_where_only (p : RoomMember.t -> bool) (f : RoomMember.t -> RoomMember.t)
    (l : list RoomMember.t) (m : RoomMember.t) :
  NoDup (List.map RoomMember.id l) -> In m l ->
  p m = true ->
  (forall x, p x = true -> RoomMember.id x = RoomMember.id m) ->
  exists l1 l2,
    l = (l1 ++ m :: l2)%list /\ update_where p f l = (l1 ++ f m :: l2)%list.
Proof.
  intros Hnd Hin Hpm Hp.
  induction l as [|a l IH]; simpl; [destruct Hin|].
  simpl in Hnd. inversion Hnd as [|? ? Hnotin Hnd']; subst.
  assert (Hfresh : forall x, In x l -> RoomMember.id x <> RoomMember.id a).
  { intros x Hx E. apply Hnotin. rewrite <- E. apply list_elem_of_In. now apply List.in_map. }
  destruct (p a) eqn:Hpa.
  - assert (a = m).
    { destruct Hin as [E|Hin]; [exact E|].
      exfalso. apply (Hfresh m Hin). symmetry. now apply Hp. }
    subst a. exists [], l. split; [reflexivity|]. simpl. f_equal.
    unfold update_where. rewrite <- (List.map_id l) at 2.
    apply List.map_ext_in. intros x Hx. destruct (p x) eqn:Hpx; [|reflexivity].
    exfalso. apply (Hfresh x Hx). now apply Hp.
  - destruct Hin as [->|Hin]; [congruence|].
    destruct (IH Hnd' Hin) as (l1 & l2 & -> & Hupd).
    exists (a :: l1), l2. split; [reflexivity|]. simpl. now rewrite Hupd.
Qed.

Lemma find_still_active (l : list RoomMember.t) (m m' : RoomMember.t) :
  NoDup (List.map RoomMember.id l) -> In m l ->
  List.find (still_active m) l = Some m' -> m' = m.
Proof.
  intros Hnd Hin Hf. apply List.find_some in Hf as [Hin' Hp].
  unfold still_active, has_member_id in Hp. apply andb_true_iff in Hp as [Hid _].
  apply String.eqb_eq in Hid.
  pose proof (find_by_unique_id l m Hnd Hin) as H1.
  pose proof (find_by_unique_id l m' Hnd Hin') as H2.
  rewrite Hid in H2. congruence.
Qed.

(** X11. In a store with unique member ids, when an active member who is
    not the owner leaves, [leaveRoom] returns that member's row with status
    left and [left_at] set to the time of the call, rewrites that row alone,
    touches no room, and the room has one active member fewer. *)
Theorem leaveRoom_member_leaves roomId userId now st m :
  NoDup (List.map RoomMember.id (room_members (db st))) ->
  roomMember_find roomId userId (db st) = Some m ->
  RoomMember.status m = "active"%string ->
  RoomMember.role m <> "owner"%string ->
  exists l1 l2,
    room_members (db st) = (l1 ++ m :: l2)%list
    /\ fst (leaveRoom roomId userId now st) = Ok (RoomMember.leave now m)
    /\ room_members (db (snd (leaveRoom roomId userId now st)))
       = (l1 ++ RoomMember.leave now m :: l2)%list
    /\ rooms (db (snd (leaveRoom roomId userId now st))) = rooms (db st)
    /\ RoomMember.status (RoomMember.leave now m) = "left"%string
    /\ RoomMember.left_at (RoomMember.leave now m) = Some now
    /\ S (length (active_members roomId (db (snd (leaveRoom roomId userId now st)))))
       = length (active_members roomId (db st)).
Proof.
  intros Hnd Hf Hs Hrole.
  assert (Hin : In m (room_members (db st))) by apply (List.find_some _ _ Hf).
  assert (Hkey : RoomMember.room_id m = roomId).
  { apply List.find_some in Hf as [_ Hk]. unfold is_member_of in Hk.
    apply andb_true_iff in Hk as [H1 _]. now apply String.eqb_eq in H1. }
  destruct (leaveRoom_tx_active roomId userId now (db st) m Hf Hs) as (m' & Hm' & Heq).
  rewrite (find_still_active _ _ _ Hnd Hin Hm') in Heq. clear Hm' m'.
  cbv zeta in Heq. apply String.eqb_neq in Hrole. rewrite Hrole in Heq.
  assert (Hp : still_active m m = true).
  { unfold still_active, has_member_id. now rewrite String.eqb_refl, Hs. }
  destruct (update_where_only (still_active m) (RoomMember.leave now) _ m Hnd Hin Hp)
    as (l1 & l2 & Hl & Hupd).
  { intros x Hx. unfold still_active, has_member_id in Hx.
    apply andb_true_iff in Hx as [Hx _]. now apply String.eqb_eq in Hx. }
  exists l1, l2. split; [exact Hl|].
  assert (Hleave : exists rd,
             leaveRoom roomId userId now st
             = (Ok (RoomMember.leave now m),
                mkState (mkDB (rooms (db st)) (l1 ++ RoomMember.leave now m :: l2)) rd)).
  { unfold leaveRoom, transaction. rewrite Heq. cbn [RoomMember.leave RoomMember.status].
    rewrite String.eqb_refl, Hupd. unfold on_redis, with_db.
    rewrite updateRoomMemberCount_db. cbn [db]. eauto. }
  destruct Hleave as (rd & ->). cbn [fst snd db rooms room_members].
  do 5 (split; [reflexivity|]).
  unfold active_members. cbn [room_members].
  assert (H1 : is_active_in roomId (RoomMember.leave now m) = false).
  { unfold is_active_in. simpl. apply andb_false_r. }
  assert (H2 : is_active_in roomId m = true).
  { unfold is_active_in. now rewrite Hkey, Hs, String.eqb_refl. }
  rewrite Hl, !List.filter_app, !List.length_app.
  cbn [List.filter]. rewrite H1, H2. simpl. lia.
Qed.

Lemma leaveRoom_member_leaves_witness :
  let after_join := run [create_trip 5 24; OpJoin (join_as "bob") "token-1" "m2" 2000] initial in
  let bob := RoomMember.mk "m2" "r1" "bob" "Member" "member" "active" 2000 None (Some 2000) 2 in
  NoDup (List.map RoomMember.id (room_members (db after_join)))
  /\ roomMember_find "r1" "bob" (db after_join) = Some bob
  /\ fst (leaveRoom "r1" "bob" 3000 after_join) = Ok (RoomMember.leave 3000 bob)
  /\ length (active_members "r1" (db after_join)) = 2%nat
  /\ length (active_members "r1" (db (snd (leaveRoom "r1" "bob" 3000 after_join)))) = 1%nat.
Proof.
  intros after_join bob.
  assert (H0 : NoDup (List.map RoomMember.id (room_members (db after_join))))
    by (apply (bool_decide_unpack _); vm_compute; exact I).
  assert (H1 : roomMember_find "r1" "bob" (db after_join) = Some bob)
    by (vm_compute; reflexivity).
  assert (H2 : RoomMember.role bob <> "owner"%string) by discriminate.
  destruct (leaveRoom_member_leaves "r1" "bob" 3000 after_join bob H0 H1 eq_refl H2)
    as (l1 & l2 & _ & Hres & _ & _ & _ & _ & Hlen).
  assert (H3 : length (active_members "r1" (db after_join)) = 2%nat)
    by (vm_compute; reflexivity).
  split; [exact H0|]. split; [exact H1|]. split; [exact Hres|]. split; [exact H3|].
  apply eq_add_S. rewrite Hlen. exact H3.
Defined.

Lemma leaveRoom_Err_unchanged roomId userId now st e st' :
  leaveRoom roomId userId now st = (Err e, st') -> st' = st.
Proof.
  unfold leaveRoom. destruct (transaction _ _) as [[res|e0] d]; [|now intros [= _ <-]].
  destruct (RoomMember.status res =? "left")%string; discriminate.
Qed.

(** X12. A [leaveRoom] that fails changes nothing. It fails as not a member
    when the pair has no row, as not an active member when the row's status
    is neither active nor left, and otherwise only when the departing owner
    is the last active member and the room row cannot be found to close. *)
Theorem leaveRoom_refusals roomId userId now st :
  (forall e st',
      leaveRoom roomId userId now st = (Err e, st') ->
      st' = st
      /\ ((e = NotMember /\ roomMember_find roomId userId (db st) = None)
          \/ (e = NotActiveMember
              /\ exists m, roomMember_find roomId userId (db st) = Some m
                           /\ RoomMember.status m <> "active"%string
                           /\ RoomMember.status m <> "left"%string)
          \/ (e = RecordNotFound
              /\ room_findUnique roomId (db st) = None
              /\ exists m, roomMember_find roomId userId (db st) = Some m
                           /\ RoomMember.role m = "owner"%string)))
  /\ (forall m,
         roomMember_find roomId userId (db st) = Some m ->
         RoomMember.status m <> "active"%string ->
         RoomMember.status m <> "left"%string ->
         leaveRoom roomId userId now st = (Err NotActiveMember, st)).
Proof.
  assert (Hna : forall m,
             roomMember_find roomId userId (db st) = Some m ->
             RoomMember.status m <> "active"%string ->
             RoomMember.status m <> "left"%string ->
             leaveRoom_tx roomId userId now (db st) = (Err NotActiveMember, db st)).
  { intros m Hf Ha Hl. unfold leaveRoom_tx, bind, query, throw. rewrite Hf.
    apply String.eqb_neq in Ha, Hl. now rewrite Ha, Hl. }
  split.
  - intros e st' H. split; [exact (leaveRoom_Err_unchanged _ _ _ _ _ _ H)|].
    unfold leaveRoom, transaction in H.
    destruct (roomMember_find roomId userId (db st)) as [m|] eqn:Hf.
    2:{ rewrite (leaveRoom_tx_missing _ _ _ _ Hf) in H. left. split; [congruence|reflexivity]. }
    destruct (String.eqb_spec (RoomMember.status m) "left") as [Hl|Hl].
    { rewrite (leaveRoom_tx_left _ _ _ _ _ Hf Hl), Hl in H. discriminate. }
    destruct (String.eqb_spec (RoomMember.status m) "active") as [Ha|Ha].
    2:{ rewrite (Hna m eq_refl Ha Hl) in H. right. left. split; [congruence|eauto]. }
    destruct (leaveRoom_tx_active roomId userId now (db st) m Hf Ha) as (m' & _ & Heq).
    cbv zeta in Heq. rewrite Heq in H. clear Heq. simpl in H.
    destruct (String.eqb_spec (RoomMember.role m) "owner") as [Ho|Ho].
    2:{ destruct (RoomMember.status (RoomMember.leave now m') =? "left")%string; discriminate. }
    right. right.
    destruct (next_member roomId userId _) as [next|] eqn:Hnext.
    + exfalso. unfold next_member in Hnext.
      apply first_by_join_order_least in Hnext as [Hin _].
      apply List.filter_In in Hin as [Hin _]. simpl in Hin.
      destruct (find_In_true (has_member_id (RoomMember.id next)) _ _ Hin) as [b Hb].
      { unfold has_member_id. apply String.eqb_refl. }
      simpl in H. rewrite Hb in H. simpl in H. discriminate.
    + unfold room_findUnique.
      destruct (List.find (is_room roomId) (rooms (db st))); simpl in H; [discriminate|].
      split; [congruence|]. split; [reflexivity|eauto].
  - intros m Hf Ha Hl. unfold leaveRoom, transaction. now rewrite (Hna m Hf Ha Hl).
Qed.

Lemma leaveRoom_refusals_witness :
  let banned := RoomMember.mk "m5" "r1" "eve" "Eve" "member" "banned" 1500 None None 2 in
  let st := mkState (mkDB (rooms (db after_create)) (room_members (db after_create) ++ [banned]))
                    (redis after_create) in
  roomMember_find "r1" "eve" (db st) = Some banned
  /\ leaveRoom "r1" "eve" 3000 st = (Err NotActiveMember, st).
Proof.
  intros banned st.
  assert (H1 : roomMember_find "r1" "eve" (db st) = Some banned) by (vm_compute; reflexivity).
  split; [exact H1|].
  apply (proj2 (leaveRoom_refusals "r1" "eve" 3000 st) banned H1); discriminate.
Defined.

Lemma sIsMember_sRem key member r :
  sIsMember key member (sRem key member r) = false
  /\ forall other, other <> member ->
                   sIsMember key other (sRem key member r) = sIsMember key other r.
Proof.
  unfold sIsMember, sRem. simpl.
  destruct (member_sets r !! key) as [s|] eqn:E.
  - destruct (decide (s ∖ {[member]} = ∅)) as [Hempty|Hne].
    + rewrite lookup_delete_eq. simpl. split.
      * apply bool_decide_eq_false_2. set_solver.
      * intros other Hother. apply bool_decide_ext. set_solver.
    + rewrite lookup_insert_eq. simpl. split.
      * apply bool_decide_eq_false_2. rewrite elem_of_difference, elem_of_singleton. tauto.
      * intros other Hother. apply bool_decide_ext.
        rewrite elem_of_difference, elem_of_singleton. tauto.
  - rewrite E. simpl. split; [apply bool_decide_eq_false_2; set_solver|reflexivity].
Qed.

(** X13. After a successful [leaveRoom] the user's location key for the
    room is gone and the user is out of the room's cached member set, while
    the locations and set memberships of everyone else, the code mappings,
    the locks and the chat logs are as before. *)
Theorem leaveRoom_clears_presence roomId userId now st res st' :
  leaveRoom roomId userId now st = (Ok res, st') ->
  RoomMember.status res = "left"%string
  /\ location_keys (redis st') !! (roomId, userId) = None
  /\ sIsMember roomId userId (redis st') = false
  /\ (forall k, k <> (roomId, userId) ->
                location_keys (redis st') !! k = location_keys (redis st) !! k)
  /\ (forall other, other <> userId ->
                    sIsMember roomId other (redis st') = sIsMember roomId other (redis st))
  /\ (forall room other, room <> roomId ->
                         sIsMember room other (redis st') = sIsMember room other (redis st))
  /\ room_code_keys (redis st') = room_code_keys (redis st)
  /\ lock_keys (redis st') = lock_keys (redis st)
  /\ chat_lists (redis st') = chat_lists (redis st).
Proof.
  unfold leaveRoom. intros H.
  destruct (transaction (leaveRoom_tx roomId userId now) (db st)) as [[r|e] d] eqn:Htx;
    [|discriminate].
  assert (Hleft : RoomMember.status r = "left"%string).
  { unfold transaction in Htx.
    destruct (leaveRoom_tx roomId userId now (db st)) as [[r0|e0] d0] eqn:E; [|discriminate].
    injection Htx as <- <-. exact (proj1 (leaveRoom_tx_leaves_left _ _ _ _ _ _ E)). }
  rewrite Hleft in H. simpl in H. injection H as <- <-.
  split; [exact Hleft|].
  assert (Hr : forall s, redis (updateRoomMemberCount roomId (-1) (with_db d s))
                         = set_room_keys
                             (match room_keys (redis s) !! roomId with
                              | Some room =>
                                  insert roomId
                                    (mkRoomView (view_room room) (members room)
                                       (Some (Z.max 0 (default 0 (memberCount room) + -1))))
                              | None => fun x => x
                              end) (redis s)).
  { intros s. unfold updateRoomMemberCount. simpl.
    destruct (room_keys (redis s) !! roomId); simpl; [reflexivity|].
    now destruct (redis s). }
  simpl. rewrite Hr.
  split; [simpl; apply lookup_delete_eq|].
  split; [apply sIsMember_sRem|].
  split; [intros k Hk; simpl; now apply lookup_delete_ne|].
  split; [intros other Ho; now rewrite (proj2 (sIsMember_sRem _ _ _) other Ho)|].
  split; [|repeat split].
  intros room other Hroom. unfold sIsMember, sRem. simpl.
  destruct (member_sets (redis st) !! roomId) as [s|]; [|reflexivity].
  destruct (decide (s ∖ {[userId]} = ∅)).
  - now rewrite lookup_delete_ne.
  - now rewrite lookup_insert_ne.
Qed.

Lemma leaveRoom_clears_presence_witness :
  let live := on_redis (fun r => set_locations (insert ("r1", "bob")%string "{}"%string)
                                   (sAdd "r1" ["alice"; "bob"]%string r))
                       (run [create_trip 5 24; OpJoin (join_as "bob") "token-1" "m2" 2000]
                            initial) in
  sIsMember "r1" "bob" (redis live) = true
  /\ is_ok (fst (leaveRoom "r1" "bob" 3000 live)) = true
  /\ sIsMember "r1" "bob" (redis (snd (leaveRoom "r1" "bob" 3000 live))) = false
  /\ sIsMember "r1" "alice" (redis (snd (leaveRoom "r1" "bob" 3000 live))) = true
  /\ location_keys (redis (snd (leaveRoom "r1" "bob" 3000 live))) !! ("r1", "bob")%string = None.
Proof.
  intros live.
  destruct (leaveRoom "r1" "bob" 3000 live) as [[res|e] st'] eqn:E;
    [|vm_compute in E; discriminate].
  destruct (leaveRoom_clears_presence _ _ _ _ _ _ E) as (_ & Hloc & Hset & _ & Hother & _).
  split; [vm_compute; reflexivity|]. split; [reflexivity|]. split; [exact Hset|].
  split; [|exact Hloc].
  simpl. rewrite (Hother "alice"%string) by discriminate. vm_compute. reflexivity.
Defined.

(** ** [leaveRoom] when the owner leaves *)

Lemma NoDup_map_inj {A B} (g : A -> B) (l : list A) (x y : A) :
  NoDup (List.map g l) -> In x l -> In y l -> g x = g y -> x = y.
Proof.
  induction l as [|a l IH]; simpl; [tauto|].
  intros Hnd Hx Hy Hg. inversion Hnd as [|? ? Hnotin Hnd']; subst.
  destruct Hx as [->|Hx], Hy as [->|Hy]; auto.
  - exfalso. apply Hnotin. rewrite Hg. apply list_elem_of_In. now apply List.in_map.
  - exfalso. apply Hnotin. rewrite <- Hg. apply list_elem_of_In. now apply List.in_map.
Qed.

(** The rows and rooms [leaveRoom] writes when the active owner leaves a
    consistent store. *)
Lemma leaveRoom_owner_leaves_rows roomId userId now st m :
  consistent (db st) ->
  roomMember_find roomId userId (db st) = Some m ->
  RoomMember.status m = "active"%string ->
  RoomMember.role m = "owner"%string ->
  match first_by_join_order (other_active_members roomId userId (db st)) with
  | Some next =>
      In next (other_active_members roomId userId (db st))
      /\ Forall (fun x => RoomMember.join_order next <= RoomMember.join_order x)
                (other_active_members roomId userId (db st))
      /\ fst (leaveRoom roomId userId now st) = Ok (RoomMember.leave now m)
      /\ rooms (db (snd (leaveRoom roomId userId now st))) = rooms (db st)
      /\ room_members (db (snd (leaveRoom roomId userId now st)))
         = update_where (has_member_id (RoomMember.id next)) RoomMember.promote
             (update_where (has_member_id (RoomMember.id m)) (RoomMember.leave now)
                (room_members (db st)))
      /\ roomMember_find roomId (RoomMember.user_id next)
           (db (snd (leaveRoom roomId userId now st)))
         = Some (RoomMember.promote next)
  | None =>
      forall r,
        room_findUnique roomId (db st) = Some r ->
        fst (leaveRoom roomId userId now st) = Ok (RoomMember.leave now m)
        /\ rooms (db (snd (leaveRoom roomId userId now st)))
           = update_where (is_room roomId) (Room.close now) (rooms (db st))
        /\ room_findUnique roomId (db (snd (leaveRoom roomId userId now st)))
           = Some (Room.close now r)
        /\ Room.status (Room.close now r) = "closed"%string
        /\ Room.completed_at (Room.close now r) = Some now
        /\ room_members (db (snd (leaveRoom roomId userId now st)))
           = update_where (has_member_id (RoomMember.id m)) (RoomMember.leave now)
                          (room_members (db st))
        /\ active_members roomId (db (snd (leaveRoom roomId userId now st))) = []
  end.
Proof.
  intros [Hnd Hpairs _ _ _] Hf Hs Hrole.
  assert (Hin : In m (room_members (db st))) by apply (List.find_some _ _ Hf).
  assert (Hkey : RoomMember.room_id m = roomId /\ RoomMember.user_id m = userId).
  { apply List.find_some in Hf as [_ Hk]. unfold is_member_of in Hk.
    apply andb_true_iff in Hk as [H1 H2]. now apply String.eqb_eq in H1, H2. }
  destruct Hkey as [Hk1 Hk2].
  assert (Hp : still_active m m = true).
  { unfold still_active, has_member_id. now rewrite String.eqb_refl, Hs. }
  destruct (update_where_only (still_active m) (RoomMember.leave now) _ m Hnd Hin Hp)
    as (l1 & l2 & Hl & Hupd).
  { intros x Hx. unfold still_active, has_member_id in Hx.
    apply andb_true_iff in Hx as [Hx _]. now apply String.eqb_eq in Hx. }
  assert (Hsame : update_where (still_active m) (RoomMember.leave now) (room_members (db st))
                  = update_where (has_member_id (RoomMember.id m)) (RoomMember.leave now)
                      (room_members (db st))).
  { unfold update_where. apply List.map_ext_in. intros x Hx.
    unfold still_active, has_member_id.
    destruct (String.eqb_spec (RoomMember.id x) (RoomMember.id m)) as [E|_]; [|reflexivity].
    rewrite (NoDup_map_inj _ _ _ _ Hnd Hx Hin E), Hs. reflexivity. }
  assert (Hrem : remaining_members roomId userId now m (db st)
                 = other_active_members roomId userId (db st)).
  { unfold remaining_members, other_active_members. rewrite Hupd, Hl, !List.filter_app.
    cbn [List.filter]. simpl RoomMember.user_id. rewrite Hk2, String.eqb_refl.
    now rewrite !andb_false_r. }
  destruct (leaveRoom_tx_active roomId userId now (db st) m Hf Hs) as (m' & Hm' & Heq).
  rewrite (find_still_active _ _ _ Hnd Hin Hm') in Heq. clear Hm' m'.
  cbv zeta in Heq. rewrite Hrole in Heq. simpl in Heq.
  unfold next_member in Heq. cbn [room_members] in Heq.
  fold (remaining_members roomId userId now m (db st)) in Heq. rewrite Hrem in Heq.
  destruct (first_by_join_order (other_active_members roomId userId (db st)))
    as [next|] eqn:Hnext.
  - destruct (first_by_join_order_least _ _ Hnext) as [Hnin Hleast].
    assert (Hnin' : In next (update_where (still_active m) (RoomMember.leave now)
                               (room_members (db st)))).
    { rewrite <- Hrem in Hnin. unfold remaining_members in Hnin.
      now apply List.filter_In in Hnin as [Hnin _]. }
    destruct (find_In_true (has_member_id (RoomMember.id next)) _ _ Hnin') as [b Hb].
    { unfold has_member_id. apply String.eqb_refl. }
    rewrite Hb in Heq.
    assert (Hleave : exists rd,
               leaveRoom roomId userId now st
               = (Ok (RoomMember.leave now m),
                  mkState
                    (mkDB (rooms (db st))
                       (update_where (has_member_id (RoomMember.id next)) RoomMember.promote
                          (update_where (has_member_id (RoomMember.id m)) (RoomMember.leave now)
                             (room_members (db st))))) rd)).
    { unfold leaveRoom, transaction. rewrite Heq. cbn [RoomMember.leave RoomMember.status].
      rewrite String.eqb_refl, Hsame. unfold on_redis, with_db.
      rewrite updateRoomMemberCount_db. cbn [db]. eauto. }
    destruct Hleave as (rd & ->). cbn [fst snd db rooms room_members].
    do 5 (split; [assumption || reflexivity|]).
    (* the promoted row is the one found for its user *)
    assert (Hnorig : In next (room_members (db st))
                     /\ RoomMember.room_id next = roomId
                     /\ RoomMember.user_id next <> userId).
    { unfold other_active_members in Hnin. apply List.filter_In in Hnin as [H1 H2].
      apply andb_true_iff in H2 as [H2 H3]. unfold is_active_in in H2.
      apply andb_true_iff in H2 as [H2 _]. apply String.eqb_eq in H2.
      apply negb_true_iff, String.eqb_neq in H3. auto. }
    destruct Hnorig as (Hno & Hnr & Hnu).
    assert (Hfind : roomMember_find roomId (RoomMember.user_id next) (db st) = Some next).
    { destruct (find_In_true (is_member_of roomId (RoomMember.user_id next)) _ _ Hno) as [c Hc].
      { unfold is_member_of. now rewrite Hnr, !String.eqb_refl. }
      unfold roomMember_find. rewrite Hc. f_equal.
      apply List.find_some in Hc as [Hcin Hck]. unfold is_member_of in Hck.
      apply andb_true_iff in Hck as [Hc1 Hc2]. apply String.eqb_eq in Hc1, Hc2.
      apply (NoDup_map_inj _ _ _ _ Hpairs Hcin Hno). simpl. congruence. }
    unfold roomMember_find in *. cbn [room_members].
    rewrite !find_update_where by reflexivity. rewrite Hfind. simpl.
    assert (Hne : has_member_id (RoomMember.id m) next = false).
    { unfold has_member_id.
      destruct (String.eqb_spec (RoomMember.id next) (RoomMember.id m)) as [E|_];
        [|reflexivity].
      exfalso. apply Hnu. rewrite <- Hk2. f_equal.
      apply (NoDup_map_inj _ _ _ _ Hnd Hno Hin E). }
    assert (Heq' : has_member_id (RoomMember.id next) next = true)
      by (unfold has_member_id; apply String.eqb_refl).
    now rewrite Hne, Heq'.
  - intros r Hr. unfold room_findUnique in Hr. rewrite Hr in Heq.
    assert (Hleave : exists rd,
               leaveRoom roomId userId now st
               = (Ok (RoomMember.leave now m),
                  mkState
                    (mkDB (update_where (is_room roomId) (Room.close now) (rooms (db st)))
                          (l1 ++ RoomMember.leave now m :: l2)) rd)).
    { unfold leaveRoom, transaction. rewrite Heq. cbn [RoomMember.leave RoomMember.status].
      rewrite String.eqb_refl, Hupd. unfold on_redis, with_db.
      rewrite updateRoomMemberCount_db. cbn [db]. eauto. }
    destruct Hleave as (rd & ->). cbn [fst snd db rooms room_members].
    split; [reflexivity|]. split; [reflexivity|]. split.
    { unfold room_findUnique. cbn [rooms]. rewrite find_update_where by reflexivity.
      rewrite Hr. simpl. apply List.find_some in Hr as [_ Hr]. now rewrite Hr. }
    do 2 (split; [reflexivity|]).
    split; [now rewrite <- Hsame, Hupd|].
    (* nobody active is left *)
    apply first_by_join_order_None in Hnext.
    unfold active_members. cbn [room_members].
    assert (Hnone : forall x, In x (room_members (db st)) -> x <> m ->
                              is_active_in roomId x = false).
    { intros x Hx Hxm. destruct (is_active_in roomId x) eqn:Ha; [|reflexivity].
      exfalso. destruct (String.eqb_spec (RoomMember.user_id x) userId) as [E|E].
      - apply Hxm. apply (NoDup_map_inj _ _ _ _ Hpairs Hx Hin). simpl.
        unfold is_active_in in Ha. apply andb_true_iff in Ha as [Ha _].
        apply String.eqb_eq in Ha. congruence.
      - assert (Hxo : In x (other_active_members roomId userId (db st))).
        { unfold other_active_members. apply List.filter_In. split; [exact Hx|].
          rewrite Ha. simpl. apply negb_true_iff. now apply String.eqb_neq. }
        rewrite Hnext in Hxo. destruct Hxo. }
    assert (Hnd2 : NoDup (l1 ++ m :: l2)) by (rewrite <- Hl; eapply NoDup_fmap_1; exact Hnd).
    rewrite List.filter_app. cbn [List.filter].
    assert (H1 : is_active_in roomId (RoomMember.leave now m) = false).
    { unfold is_active_in. simpl. apply andb_false_r. }
    rewrite H1.
    assert (Hall : forall l', (forall x, In x l' -> In x (room_members (db st)) /\ x <> m) ->
                              List.filter (is_active_in roomId) l' = []).
    { intros l' Hl'0. induction l' as [|a l' IH]; [reflexivity|]. simpl.
      destruct (Hl'0 a (or_introl eq_refl)) as [Ha1 Ha2]. rewrite (Hnone a Ha1 Ha2).
      apply IH. intros x Hx. apply Hl'0. now right. }
    rewrite (Hall l1), (Hall l2); [reflexivity| |].
    + intros x Hx. split; [rewrite Hl; apply List.in_or_app; right; now right|].
      intros ->. apply NoDup_app in Hnd2 as (_ & _ & Hnd3).
      apply NoDup_cons in Hnd3 as [Hnot _]. apply Hnot. now apply list_elem_of_In.
    + intros x Hx. split; [rewrite Hl; apply List.in_or_app; now left|].
      intros ->. apply NoDup_app in Hnd2 as (_ & Hdisj & _).
      apply (Hdisj m); [now apply list_elem_of_In|]. apply list_elem_of_here.
Qed.

(** X14. In a consistent store, when the active owner leaves and other
    active members remain, [leaveRoom] returns the owner's row with status
    left and [left_at] the time of the call, its other columns (the role
    owner included) unchanged, and the row found for one remaining active
    member of least join order now has role owner, its other columns
    unchanged; every other row and every room is as before. When no other
    active member remains and the room row exists, the owner's row is
    marked in the same way and the room is closed with [completed_at] the
    time of the call; the room then has no active member. *)
Theorem leaveRoom_owner_leaves roomId userId now st m :
  consistent (db st) ->
  roomMember_find roomId userId (db st) = Some m ->
  RoomMember.status m = "active"%string ->
  RoomMember.role m = "owner"%string ->
  let st' := snd (leaveRoom roomId userId now st) in
  let gone_as (gone : RoomMember.t) : Prop :=
    fst (leaveRoom roomId userId now st) = Ok gone
    /\ roomMember_find roomId userId (db st') = Some gone
    /\ RoomMember.status gone = "left"%string
    /\ RoomMember.left_at gone = Some now
    /\ RoomMember.role gone = "owner"%string
    /\ RoomMember.id gone = RoomMember.id m
    /\ RoomMember.room_id gone = roomId
    /\ RoomMember.user_id gone = userId
    /\ RoomMember.nickname gone = RoomMember.nickname m
    /\ RoomMember.joined_at gone = RoomMember.joined_at m
    /\ RoomMember.last_seen gone = RoomMember.last_seen m
    /\ RoomMember.join_order gone = RoomMember.join_order m in
  match first_by_join_order (other_active_members roomId userId (db st)) with
  | Some next =>
      In next (other_active_members roomId userId (db st))
      /\ Forall (fun x => RoomMember.join_order next <= RoomMember.join_order x)
                (other_active_members roomId userId (db st))
      /\ fst (leaveRoom roomId userId now st) = Ok (RoomMember.leave now m)
      /\ rooms (db st') = rooms (db st)
      /\ room_members (db st')
         = update_where (has_member_id (RoomMember.id next)) RoomMember.promote
             (update_where (has_member_id (RoomMember.id m)) (RoomMember.leave now)
                (room_members (db st)))
      /\ roomMember_find roomId (RoomMember.user_id next) (db st')
         = Some (RoomMember.promote next)
      /\ (exists gone, gone_as gone)
      /\ (exists promoted,
             roomMember_find roomId (RoomMember.user_id next) (db st') = Some promoted
             /\ RoomMember.role promoted = "owner"%string
             /\ RoomMember.status promoted = "active"%string
             /\ RoomMember.id promoted = RoomMember.id next
             /\ RoomMember.room_id promoted = roomId
             /\ RoomMember.user_id promoted = RoomMember.user_id next
             /\ RoomMember.user_id promoted <> userId
             /\ RoomMember.nickname promoted = RoomMember.nickname next
             /\ RoomMember.joined_at promoted = RoomMember.joined_at next
             /\ RoomMember.left_at promoted = RoomMember.left_at next
             /\ RoomMember.last_seen promoted = RoomMember.last_seen next
             /\ RoomMember.join_order promoted = RoomMember.join_order next)
      /\ (forall x, In x (room_members (db st)) ->
                    RoomMember.id x <> RoomMember.id m ->
                    RoomMember.id x <> RoomMember.id next ->
                    In x (room_members (db st')))
      /\ length (room_members (db st')) = length (room_members (db st))
  | None =>
      forall r,
        room_findUnique roomId (db st) = Some r ->
        fst (leaveRoom roomId userId now st) = Ok (RoomMember.leave now m)
        /\ rooms (db st') = update_where (is_room roomId) (Room.close now) (rooms (db st))
        /\ room_findUnique roomId (db st') = Some (Room.close now r)
        /\ Room.status (Room.close now r) = "closed"%string
        /\ Room.completed_at (Room.close now r) = Some now
        /\ active_members roomId (db st') = []
        /\ (exists gone, gone_as gone)
        /\ (exists closed,
               room_findUnique roomId (db st') = Some closed
               /\ Room.status closed = "closed"%string
               /\ Room.completed_at closed = Some now
               /\ Room.updated_at closed = now
               /\ Room.id closed = roomId
               /\ Room.room_code closed = Room.room_code r
               /\ Room.name closed = Room.name r
               /\ Room.created_by closed = Room.created_by r
               /\ Room.max_members closed = Room.max_members r
               /\ Room.expires_at closed = Room.expires_at r)
        /\ (forall x, In x (room_members (db st)) ->
                      RoomMember.id x <> RoomMember.id m ->
                      In x (room_members (db st')))
        /\ length (room_members (db st')) = length (room_members (db st))
  end.
Proof.
  intros Hc Hf Hs Hrole st' gone_as.
  pose proof (leaveRoom_owner_leaves_rows roomId userId now st m Hc Hf Hs Hrole) as H.
  destruct Hc as [Hnd Hpairs _ _ _].
  assert (Hin : In m (room_members (db st))) by apply (List.find_some _ _ Hf).
  assert (Hkey : RoomMember.room_id m = roomId /\ RoomMember.user_id m = userId).
  { apply List.find_some in Hf as [_ Hk]. unfold is_member_of in Hk.
    apply andb_true_iff in Hk as [H1 H2]. now apply String.eqb_eq in H1, H2. }
  destruct Hkey as [Hk1 Hk2].
  assert (Hself : has_member_id (RoomMember.id m) m = true)
    by (unfold has_member_id; apply String.eqb_refl).
  assert (Hkept : forall (p : RoomMember.t -> bool) f x l,
             In x l -> p x = false -> In x (update_where p f l)).
  { intros p f x l Hx Hp. unfold update_where. apply List.in_map_iff.
    exists x. rewrite Hp. now split. }
  fold st' in H.
  destruct (first_by_join_order (other_active_members roomId userId (db st)))
    as [next|] eqn:Hnext.
  - destruct H as (Hnin & Hleast & Hres & Hrooms & Htab & Hfind).
    assert (Hnorig : In next (room_members (db st))
                     /\ RoomMember.room_id next = roomId
                     /\ RoomMember.status next = "active"%string
                     /\ RoomMember.user_id next <> userId).
    { unfold other_active_members in Hnin. apply List.filter_In in Hnin as [H1 H2].
      apply andb_true_iff in H2 as [H2 H3]. unfold is_active_in in H2.
      apply andb_true_iff in H2 as [H2 H4]. apply String.eqb_eq in H2, H4.
      apply negb_true_iff, String.eqb_neq in H3. auto. }
    destruct Hnorig as (Hno & Hnr & Hna & Hnu).
    assert (Hne : has_member_id (RoomMember.id next) (RoomMember.leave now m) = false).
    { unfold has_member_id. cbn [RoomMember.leave RoomMember.id].
      destruct (String.eqb_spec (RoomMember.id m) (RoomMember.id next)) as [E|_];
        [|reflexivity].
      exfalso. apply Hnu. rewrite <- Hk2. f_equal. symmetry.
      apply (NoDup_map_inj _ _ _ _ Hnd Hin Hno E). }
    do 6 (split; [assumption|]).
    split.
    { exists (RoomMember.leave now m). unfold gone_as.
      split; [exact Hres|]. split.
      - unfold roomMember_find. rewrite Htab. unfold roomMember_find in Hf.
        rewrite !find_update_where by reflexivity. rewrite Hf. cbn [option_map].
        now rewrite Hself, Hne.
      - cbn [RoomMember.leave RoomMember.status RoomMember.left_at RoomMember.role
             RoomMember.id RoomMember.room_id RoomMember.user_id RoomMember.nickname
             RoomMember.joined_at RoomMember.last_seen RoomMember.join_order].
        repeat split; assumption || reflexivity. }
    split.
    { exists (RoomMember.promote next). split; [exact Hfind|].
      cbn [RoomMember.promote RoomMember.status RoomMember.left_at RoomMember.role
           RoomMember.id RoomMember.room_id RoomMember.user_id RoomMember.nickname
           RoomMember.joined_at RoomMember.last_seen RoomMember.join_order].
      repeat split; assumption || reflexivity. }
    split.
    { intros x Hx Hxm Hxn. rewrite Htab.
      apply Hkept; [apply Hkept; [exact Hx|]|];
        unfold has_member_id; now apply String.eqb_neq. }
    rewrite Htab. now rewrite !length_update_where.
  - intros r Hr.
    destruct (H r Hr) as (Hres & Hrooms & Hfind & Hst & Hcomp & Htab & Hnone).
    do 5 (split; [assumption|]). split; [exact Hnone|].
    split.
    { exists (RoomMember.leave now m). unfold gone_as.
      split; [exact Hres|]. split.
      - unfold roomMember_find. rewrite Htab. unfold roomMember_find in Hf.
        rewrite find_update_where by reflexivity. rewrite Hf. cbn [option_map].
        now rewrite Hself.
      - cbn [RoomMember.leave RoomMember.status RoomMember.left_at RoomMember.role
             RoomMember.id RoomMember.room_id RoomMember.user_id RoomMember.nickname
             RoomMember.joined_at RoomMember.last_seen RoomMember.join_order].
        repeat split; assumption || reflexivity. }
    split.
    { exists (Room.close now r). split; [exact Hfind|].
      cbn [Room.close Room.status Room.completed_at Room.updated_at Room.id Room.room_code
           Room.name Room.created_by Room.max_members Room.expires_at].
      repeat split; try reflexivity. exact (room_findUnique_id _ _ _ Hr). }
    split.
    { intros x Hx Hxm. rewrite Htab. apply Hkept; [exact Hx|].
      unfold has_member_id. now apply String.eqb_neq. }
    rewrite Htab. now rewrite length_update_where.
Qed.

Lemma initial_consistent : consistent (db initial).
Proof. constructor; simpl; constructor. Qed.

Lemma leaveRoom_owner_leaves_witness :
  let alice := RoomMember.mk "m1" "r1" "alice" "Trip" "owner" "active" 1000 None (Some 1000) 1 in
  let bob := RoomMember.mk "m2" "r1" "bob" "Member" "member" "active" 2000 None (Some 2000) 2 in
  let after := db (snd (leaveRoom "r1" "alice" 3000 after_join)) in
  consistent (db after_join)
  /\ roomMember_find "r1" "alice" (db after_join) = Some alice
  /\ first_by_join_order (other_active_members "r1" "alice" (db after_join)) = Some bob
  /\ (exists gone,
         fst (leaveRoom "r1" "alice" 3000 after_join) = Ok gone
         /\ roomMember_find "r1" "alice" after = Some gone
         /\ RoomMember.status gone = "left"%string
         /\ RoomMember.left_at gone = Some 3000)
  /\ (exists promoted,
         roomMember_find "r1" "bob" after = Some promoted
         /\ RoomMember.role promoted = "owner"%string
         /\ RoomMember.join_order promoted = 2).
Proof.
  intros alice bob after.
  assert (H0 : consistent (db after_join)) by (apply consistent_run, initial_consistent).
  assert (H1 : roomMember_find "r1" "alice" (db after_join) = Some alice)
    by (vm_compute; reflexivity).
  assert (H2 : first_by_join_order (other_active_members "r1" "alice" (db after_join)) = Some bob)
    by (vm_compute; reflexivity).
  pose proof (leaveRoom_owner_leaves "r1" "alice" 3000 after_join alice H0 H1 eq_refl eq_refl)
    as H.
  cbv zeta in H. rewrite H2 in H.
  destruct H as (_ & _ & _ & _ & _ & _ & (gone & Hg1 & Hg2 & Hg3 & Hg4 & _)
                 & (promoted & Hp1 & Hp2 & _ & _ & _ & _ & _ & _ & _ & _ & _ & Hp3) & _).
  split; [exact H0|]. split; [exact H1|]. split; [exact H2|]. split.
  - exists gone. repeat split; assumption.
  - exists promoted. repeat split; assumption.
Defined.

(** X15. Every store reached from the empty one by [createRoom], [joinRoom]
    and [leaveRoom] calls, failed ones and injected faults included, has
    unique room ids, room codes, member ids and (room, user) pairs, and only
    positive join orders. *)
Theorem reachable_store_consistent st :
  reachable st ->
  NoDup (List.map Room.id (rooms (db st)))
  /\ NoDup (List.map Room.room_code (rooms (db st)))
  /\ NoDup (List.map RoomMember.id (room_members (db st)))
  /\ NoDup (List.map (fun m => (RoomMember.room_id m, RoomMember.user_id m))
                     (room_members (db st)))
  /\ Forall (fun m => 0 < RoomMember.join_order m) (room_members (db st)).
Proof.
  intros [ops ->].
  destruct (consistent_run ops initial initial_consistent) as [H1 H2 H3 H4 H5]. auto.
Qed.

Lemma reachable_store_consistent_witness :
  reachable (run owner_rejoins initial)
  /\ NoDup (List.map RoomMember.id (room_members (db (run owner_rejoins initial))))
  /\ Forall (fun m => 0 < RoomMember.join_order m)
            (room_members (db (run owner_rejoins initial))).
Proof.
  assert (H : reachable (run owner_rejoins initial)) by (exists owner_rejoins; reflexivity).
  destruct (reachable_store_consistent _ H) as (_ & _ & H3 & _ & H5).
  split; [exact H|]. split; [exact H3|exact H5].
Defined.

(** ** [getRoomDetails] on a cache miss *)

Lemma insert_by_join_order_perm m l :
  Permutation (insert_by_join_order m l) (m :: l).
Proof.
  induction l as [|a l IH]; simpl; [reflexivity|].
  destruct (RoomMember.join_order m <? RoomMember.join_order a); [reflexivity|].
  rewrite IH. apply perm_swap.
Qed.

Lemma order_by_join_order_perm l : Permutation (order_by_join_order l) l.
Proof.
  induction l as [|a l IH]; simpl; [reflexivity|].
  unfold order_by_join_order in *. simpl.
  rewrite insert_by_join_order_perm. now constructor.
Qed.

Lemma insert_by_join_order_sorted m l :
  Sorted.Sorted Z.le (List.map RoomMember.join_order l) ->
  Sorted.Sorted Z.le (List.map RoomMember.join_order (insert_by_join_order m l)).
Proof.
  induction l as [|a l IH]; simpl; intros Hs.
  - repeat constructor.
  - destruct (Z.ltb_spec (RoomMember.join_order m) (RoomMember.join_order a)).
    + simpl. constructor; [exact Hs|]. constructor. lia.
    + simpl. inversion Hs as [|? ? Hs' Hhd]; subst.
      constructor; [now apply IH|].
      destruct l as [|b l]; simpl.
      * constructor. lia.
      * destruct (RoomMember.join_order m <? RoomMember.join_order b); simpl;
          constructor; [lia|].
        now inversion Hhd.
Qed.

Lemma order_by_join_order_sorted l :
  Sorted.Sorted Z.le (List.map RoomMember.join_order (order_by_join_order l)).
Proof.
  induction l as [|a l IH]; simpl; [constructor|].
  now apply insert_by_join_order_sorted.
Qed.

Lemma cached_count_members r ms :
  cached_count (mkRoomView r (Some ms) None) = Z.of_nat (length ms).
Proof.
  unfold cached_count. simpl. destruct ms; [reflexivity|].
  now destruct (Z.of_nat (length (t :: ms)) =? 0) eqn:E; [apply Z.eqb_eq in E|].
Qed.

Lemma sIsMember_sAdd key ids r uid :
  sIsMember key uid (sAdd key ids r)
  = (bool_decide (uid ∈ ids) || sIsMember key uid r).
Proof.
  unfold sIsMember, sAdd. simpl. rewrite lookup_insert_eq. simpl.
  destruct (bool_decide (uid ∈ ids)) eqn:E1;
    destruct (bool_decide (uid ∈ default (∅ : gset string) (member_sets r !! key))) eqn:E2;
    simpl.
  - apply bool_decide_eq_true in E1. apply bool_decide_eq_true.
    apply elem_of_union. left. now apply elem_of_list_to_set.
  - apply bool_decide_eq_true in E1. apply bool_decide_eq_true.
    apply elem_of_union. left. now apply elem_of_list_to_set.
  - apply bool_decide_eq_true in E2. apply bool_decide_eq_true.
    apply elem_of_union. now right.
  - apply bool_decide_eq_false in E1, E2. apply bool_decide_eq_false.
    rewrite elem_of_union, elem_of_list_to_set. tauto.
Qed.

Lemma existsb_user_id ms uid :
  existsb (fun m => (RoomMember.user_id m =? uid)%string) ms
  = bool_decide (uid ∈ List.map RoomMember.user_id ms).
Proof.
  induction ms as [|a ms IH]; cbn [existsb List.map].
  - symmetry. apply bool_decide_eq_false_2, not_elem_of_nil.
  - rewrite IH. destruct (String.eqb_spec (RoomMember.user_id a) uid) as [->|Hne];
      cbn [orb].
    + symmetry. apply bool_decide_eq_true_2, list_elem_of_here.
    + apply bool_decide_ext. rewrite elem_of_cons. split; [tauto|].
      intros [E|E]; [congruence|exact E].
Qed.

(** The state [getRoomDetails] leaves after reading a room through. *)
Lemma getRoomDetails_miss roomId userId st r :
  room_keys (redis st) !! roomId = None ->
  room_findUnique roomId (db st) = Some r ->
  let ms := order_by_join_order (active_members roomId (db st)) in
  getRoomDetails roomId userId st
  = if truthy userId
       && negb (bool_decide (default ""%string userId ∈ List.map RoomMember.user_id ms))
    then (Err AccessDenied, st)
    else (Ok (mkRoomView r (Some ms) None),
          cacheRoomData roomId (mkRoomView r (Some ms) None) st).
Proof.
  intros Hmiss Hr ms. unfold getRoomDetails. rewrite Hmiss, Hr. fold ms.
  now rewrite existsb_user_id.
Qed.

(** X16. On a cache miss [getRoomDetails] fails with not found when the
    store has no such room and with AccessDenied when a user id is given
    that is not among the room's active members, and in both cases caches
    nothing. Otherwise it returns the room with exactly its active members,
    in ascending join order, and caches that view with [memberCount] equal to
    their number. *)
Theorem getRoomDetails_read_through roomId userId st :
  room_keys (redis st) !! roomId = None ->
  (room_findUnique roomId (db st) = None ->
   getRoomDetails roomId userId st = (Err RoomNotFound, st))
  /\ (forall r,
         room_findUnique roomId (db st) = Some r ->
         let ms := order_by_join_order (active_members roomId (db st)) in
         Permutation ms (active_members roomId (db st))
         /\ Sorted.Sorted Z.le (List.map RoomMember.join_order ms)
         /\ (forall uid,
                userId = Some uid -> uid <> ""%string ->
                ~ In uid (List.map RoomMember.user_id (active_members roomId (db st))) ->
                getRoomDetails roomId userId st = (Err AccessDenied, st))
         /\ (truthy userId = false
             \/ In (default ""%string userId)
                   (List.map RoomMember.user_id (active_members roomId (db st))) ->
             fst (getRoomDetails roomId userId st) = Ok (mkRoomView r (Some ms) None)
             /\ db (snd (getRoomDetails roomId userId st)) = db st
             /\ room_keys (redis (snd (getRoomDetails roomId userId st))) !! roomId
                = Some (mkRoomView r (Some ms) (Some (Z.of_nat (length ms)))))).
Proof.
  intros Hmiss. split.
  - intros Hr. unfold getRoomDetails. now rewrite Hmiss, Hr.
  - intros r Hr ms.
    assert (Hperm : Permutation ms (active_members roomId (db st)))
      by apply order_by_join_order_perm.
    assert (Hin : forall uid, uid ∈ List.map RoomMember.user_id ms
                              <-> In uid (List.map RoomMember.user_id (active_members roomId (db st)))).
    { intros uid. rewrite list_elem_of_In. split; apply Permutation_in;
        [|symmetry]; now apply Permutation_map. }
    split; [exact Hperm|]. split; [apply order_by_join_order_sorted|]. split.
    + intros uid -> Huid Hnot.
      rewrite (getRoomDetails_miss roomId (Some uid) st r Hmiss Hr). fold ms.
      simpl. apply String.eqb_neq in Huid. rewrite Huid. simpl.
      rewrite bool_decide_eq_false_2; [reflexivity|]. now rewrite Hin.
    + intros Hauth.
      rewrite (getRoomDetails_miss roomId userId st r Hmiss Hr). fold ms.
      assert (Hpass : truthy userId
                      && negb (bool_decide (default ""%string userId
                                              ∈ List.map RoomMember.user_id ms)) = false).
      { destruct Hauth as [->|Hauth]; [reflexivity|].
        rewrite bool_decide_eq_true_2 by now rewrite Hin. apply andb_false_r. }
      rewrite Hpass. simpl. split; [reflexivity|].
      rewrite cacheRoomData_db. split; [reflexivity|].
      unfold cacheRoomData. simpl members. rewrite cached_count_members.
      destruct (0 <? _); simpl; apply lookup_insert_eq.
Qed.

Lemma getRoomDetails_read_through_witness :
  let cold := mkState (db after_join) empty_redis in
  room_keys (redis cold) !! "r1"%string = None
  /\ getRoomDetails "nowhere" None cold = (Err RoomNotFound, cold)
  /\ getRoomDetails "r1" (Some "mallory"%string) cold = (Err AccessDenied, cold)
  /\ option_map memberCount
       (room_keys (redis (snd (getRoomDetails "r1" (Some "bob"%string) cold))) !! "r1"%string)
     = Some (Some 2).
Proof.
  intros cold.
  assert (H0 : room_keys (redis cold) !! "r1"%string = None) by reflexivity.
  assert (H0' : room_keys (redis cold) !! "nowhere"%string = None) by reflexivity.
  split; [exact H0|]. split; [|split].
  - apply (proj1 (getRoomDetails_read_through "nowhere" None cold H0')).
    vm_compute. reflexivity.
  - destruct (proj2 (getRoomDetails_read_through "r1" (Some "mallory"%string) cold H0)
                (Room.mk "r1" "ABC123" "Trip" "Park" 10 20 "alice" 5 "active" 1000 1000
                         (Some 86401000) None)) as (_ & _ & Hdenied & _);
      [vm_compute; reflexivity|].
    apply (Hdenied "mallory"%string eq_refl); [discriminate|].
    vm_compute. intros [E|[E|[]]]; discriminate.
  - destruct (proj2 (getRoomDetails_read_through "r1" (Some "bob"%string) cold H0)
                (Room.mk "r1" "ABC123" "Trip" "Park" 10 20 "alice" 5 "active" 1000 1000
                         (Some 86401000) None)) as (_ & _ & _ & Hok);
      [vm_compute; reflexivity|].
    destruct Hok as (_ & _ & Hcache); [right; vm_compute; auto|].
    rewrite Hcache. reflexivity.
Defined.

(** X17. After [getRoomDetails] has read a room through, the next call for
    the same room is answered from the cache without touching the state: it
    returns the same room and members with [memberCount] their number, to a
    caller without user id and to every user who was an active member at the
    time of the read. *)
Theorem getRoomDetails_miss_then_hit roomId userId st r :
  room_keys (redis st) !! roomId = None ->
  room_findUnique roomId (db st) = Some r ->
  is_ok (fst (getRoomDetails roomId userId st)) = true ->
  let ms := order_by_join_order (active_members roomId (db st)) in
  let st' := snd (getRoomDetails roomId userId st) in
  let cached := mkRoomView r (Some ms) (Some (Z.of_nat (length ms))) in
  getRoomDetails roomId None st' = (Ok cached, st')
  /\ forall m, In m (active_members roomId (db st)) ->
               RoomMember.user_id m <> ""%string ->
               getRoomDetails roomId (Some (RoomMember.user_id m)) st' = (Ok cached, st').
Proof.
  intros Hmiss Hr Hok ms st' cached.
  rewrite (getRoomDetails_miss roomId userId st r Hmiss Hr) in Hok. fold ms in Hok.
  assert (Hst : st' = cacheRoomData roomId (mkRoomView r (Some ms) None) st).
  { unfold st'. rewrite (getRoomDetails_miss roomId userId st r Hmiss Hr). fold ms.
    destruct (truthy userId && _); [discriminate|reflexivity]. }
  assert (Hcache : room_keys (redis st') !! roomId = Some cached).
  { rewrite Hst. unfold cacheRoomData. simpl members. rewrite cached_count_members.
    destruct (0 <? _); simpl; apply lookup_insert_eq. }
  split.
  - unfold getRoomDetails. now rewrite Hcache.
  - intros m Hm Huid. unfold getRoomDetails. rewrite Hcache.
    simpl. apply String.eqb_neq in Huid. rewrite Huid. simpl.
    assert (Hms : In m ms).
    { eapply Permutation_in; [symmetry; apply order_by_join_order_perm|exact Hm]. }
    assert (Hset : sIsMember roomId (RoomMember.user_id m) (redis st') = true).
    { rewrite Hst. unfold cacheRoomData. simpl members.
      destruct ms as [|a ms0]; [destruct Hms|].
      simpl. rewrite sIsMember_sAdd. apply orb_true_iff. left.
      apply bool_decide_eq_true. apply list_elem_of_In.
      change (In (RoomMember.user_id m) (List.map RoomMember.user_id (a :: ms0))).
      now apply List.in_map. }
    now rewrite Hset.
Qed.

Lemma getRoomDetails_miss_then_hit_witness :
  let cold := mkState (db after_join) empty_redis in
  let warm := snd (getRoomDetails "r1" (Some "bob"%string) cold) in
  room_keys (redis cold) !! "r1"%string = None
  /\ is_ok (fst (getRoomDetails "r1" (Some "bob"%string) cold)) = true
  /\ is_ok (fst (getRoomDetails "r1" (Some "alice"%string) warm)) = true
  /\ snd (getRoomDetails "r1" (Some "alice"%string) warm) = warm.
Proof.
  intros cold warm.
  assert (H0 : room_keys (redis cold) !! "r1"%string = None) by reflexivity.
  assert (H1 : room_findUnique "r1" (db cold)
               = Some (Room.mk "r1" "ABC123" "Trip" "Park" 10 20 "alice" 5 "active" 1000 1000
                               (Some 86401000) None)) by (vm_compute; reflexivity).
  assert (H2 : is_ok (fst (getRoomDetails "r1" (Some "bob"%string) cold)) = true)
    by (vm_compute; reflexivity).
  destruct (getRoomDetails_miss_then_hit "r1" (Some "bob"%string) cold _ H0 H1 H2)
    as [_ Hhit].
  specialize (Hhit (RoomMember.mk "m1" "r1" "alice" "Trip" "owner" "active" 1000 None
                                  (Some 1000) 1)).
  split; [exact H0|]. split; [exact H2|].
  assert (Hin : In (RoomMember.mk "m1" "r1" "alice" "Trip" "owner" "active" 1000 None
                                  (Some 1000) 1) (active_members "r1" (db cold)))
    by (vm_compute; auto).
  specialize (Hhit Hin ltac:(discriminate)). simpl RoomMember.user_id in Hhit.
  fold warm in Hhit. rewrite Hhit. split; reflexivity.
Defined.

(** ** [getUserRooms] *)

Lemma insert_by_updated_at_perm r l : Permutation (insert_by_updated_at r l) (r :: l).
Proof.
  induction l as [|a l IH]; simpl; [reflexivity|].
  destruct (Room.updated_at a <=? Room.updated_at r); [reflexivity|].
  rewrite IH. apply perm_swap.
Qed.

Lemma order_by_updated_at_desc_perm l : Permutation (order_by_updated_at_desc l) l.
Proof.
  induction l as [|a l IH]; simpl; [reflexivity|].
  unfold order_by_updated_at_desc in *. simpl.
  rewrite insert_by_updated_at_perm. now constructor.
Qed.

Lemma insert_by_updated_at_sorted r l :
  Sorted.Sorted Z.ge (List.map Room.updated_at l) ->
  Sorted.Sorted Z.ge (List.map Room.updated_at (insert_by_updated_at r l)).
Proof.
  induction l as [|a l IH]; simpl; intros Hs.
  - repeat constructor.
  - destruct (Z.leb_spec (Room.updated_at a) (Room.updated_at r)).
    + simpl. constructor; [exact Hs|]. constructor. lia.
    + simpl. inversion Hs as [|? ? Hs' Hhd]; subst.
      constructor; [now apply IH|].
      destruct l as [|b l]; simpl.
      * constructor. lia.
      * destruct (Room.updated_at b <=? Room.updated_at r); simpl;
          constructor; [lia|].
        now inversion Hhd.
Qed.

Lemma order_by_updated_at_desc_sorted l :
  Sorted.Sorted Z.ge (List.map Room.updated_at (order_by_updated_at_desc l)).
Proof.
  induction l as [|a l IH]; simpl; [constructor|].
  now apply insert_by_updated_at_sorted.
Qed.

(** X18. [getUserRooms] lists exactly the stored rooms that are active and
    in which the user has an active membership, each once per stored row,
    most recently updated first, each with the ids, roles and user ids of
    its active members. *)
Theorem getUserRooms_lists_active_memberships userId d :
  Permutation (List.map listed_room (getUserRooms userId d))
              (List.filter (is_user_room userId d) (rooms d))
  /\ Sorted.Sorted Z.ge
       (List.map (fun u => Room.updated_at (listed_room u)) (getUserRooms userId d))
  /\ (forall r,
         In r (List.map listed_room (getUserRooms userId d)) <->
         In r (rooms d)
         /\ Room.status r = "active"%string
         /\ exists m, In m (room_members d)
                      /\ RoomMember.room_id m = Room.id r
                      /\ RoomMember.user_id m = userId
                      /\ RoomMember.status m = "active"%string)
  /\ (forall u,
         In u (getUserRooms userId d) ->
         listed_members u
         = List.map (fun m => (RoomMember.id m, RoomMember.role m, RoomMember.user_id m))
                    (active_members (Room.id (listed_room u)) d)).
Proof.
  assert (Hmap : List.map listed_room (getUserRooms userId d)
                 = order_by_updated_at_desc (List.filter (is_user_room userId d) (rooms d))).
  { unfold getUserRooms. rewrite List.map_map. simpl. apply List.map_id. }
  split; [|split; [|split]].
  - rewrite Hmap. apply order_by_updated_at_desc_perm.
  - rewrite <- (List.map_map listed_room Room.updated_at), Hmap.
    apply order_by_updated_at_desc_sorted.
  - intros r. rewrite Hmap.
    assert (Hiff : In r (order_by_updated_at_desc (List.filter (is_user_room userId d) (rooms d)))
                   <-> In r (List.filter (is_user_room userId d) (rooms d))).
    { split; apply Permutation_in; [|symmetry]; apply order_by_updated_at_desc_perm. }
    rewrite Hiff, List.filter_In. unfold is_user_room.
    rewrite andb_true_iff, List.existsb_exists, String.eqb_eq.
    split.
    + intros (Hin & (m & Hm & Hp) & Hs). split; [exact Hin|]. split; [exact Hs|].
      exists m. unfold is_member_of in Hp.
      rewrite !andb_true_iff, !String.eqb_eq in Hp. tauto.
    + intros (Hin & Hs & m & Hm & H1 & H2 & H3). split; [exact Hin|]. split; [|exact Hs].
      exists m. split; [exact Hm|]. unfold is_member_of.
      rewrite !andb_true_iff, !String.eqb_eq. tauto.
  - intros u Hu. unfold getUserRooms in Hu. apply List.in_map_iff in Hu as (r & <- & _).
    reflexivity.
Qed.

Lemma getUserRooms_lists_active_memberships_witness :
  List.map (fun u => Room.id (listed_room u)) (getUserRooms "bob" (db after_join)) = ["r1"%string]
  /\ getUserRooms "bob" (db bob_left) = []
  /\ forall r, In r (List.map listed_room (getUserRooms "bob" (db bob_left))) -> False.
Proof.
  split; [vm_compute; reflexivity|]. split; [vm_compute; reflexivity|].
  intros r Hr.
  apply (proj1 (proj2 (proj2 (getUserRooms_lists_active_memberships "bob" (db bob_left))))) in Hr
    as (Hin & _ & m & Hm & _ & Hu & Hs).
  vm_compute in Hm. destruct Hm as [<-|[<-|[]]]; discriminate.
Defined.

(** ** [cleanupExpiredRooms] *)

Section Purge.

Variable l : list Room.t.

Let swept (k : string) : bool := existsb (String.eqb k) (List.map Room.id l).

Lemma purge_lock_keys rd : lock_keys (List.fold_left purge_room l rd) = lock_keys rd.
Proof. revert rd. induction l as [|a l' IH]; intros rd; simpl; [reflexivity|]. now rewrite IH. Qed.

Lemma purge_room_keys rd k :
  room_keys (List.fold_left purge_room l rd) !! k
  = if swept k then None else room_keys rd !! k.
Proof.
  unfold swept. revert rd. induction l as [|a l' IH]; intros rd; simpl; [reflexivity|].
  rewrite IH. simpl. destruct (String.eqb_spec k (Room.id a)) as [->|Hne]; simpl.
  - rewrite lookup_delete_eq. now destruct (existsb _ _).
  - rewrite lookup_delete_ne by congruence. reflexivity.
Qed.

Lemma purge_member_sets rd k :
  member_sets (List.fold_left purge_room l rd) !! k
  = if swept k then None else member_sets rd !! k.
Proof.
  unfold swept. revert rd. induction l as [|a l' IH]; intros rd; simpl; [reflexivity|].
  rewrite IH. simpl. destruct (String.eqb_spec k (Room.id a)) as [->|Hne]; simpl.
  - rewrite lookup_delete_eq. now destruct (existsb _ _).
  - rewrite lookup_delete_ne by congruence. reflexivity.
Qed.

Lemma purge_chat_lists rd k :
  chat_lists (List.fold_left purge_room l rd) !! k
  = if swept k then None else chat_lists rd !! k.
Proof.
  unfold swept. revert rd. induction l as [|a l' IH]; intros rd; simpl; [reflexivity|].
  rewrite IH. simpl. destruct (String.eqb_spec k (Room.id a)) as [->|Hne]; simpl.
  - rewrite lookup_delete_eq. now destruct (existsb _ _).
  - rewrite lookup_delete_ne by congruence. reflexivity.
Qed.

Lemma purge_location_keys rd k u :
  location_keys (List.fold_left purge_room l rd) !! (k, u)
  = if swept k then None else location_keys rd !! (k, u).
Proof.
  unfold swept. revert rd. induction l as [|a l' IH]; intros rd; simpl; [reflexivity|].
  rewrite IH. simpl. destruct (String.eqb_spec k (Room.id a)) as [->|Hne]; simpl.
  - assert (Hgone : filter (fun kv : string * string * string => fst (fst kv) <> Room.id a)
                           (location_keys rd) !! (Room.id a, u) = None).
    { apply map_lookup_filter_None. right. intros x _ Hx. now apply Hx. }
    rewrite Hgone. now destruct (existsb _ _).
  - destruct (existsb _ _); [reflexivity|].
    destruct (location_keys rd !! (k, u)) as [x|] eqn:E.
    + apply map_lookup_filter_Some. split; [exact E|]. simpl. exact Hne.
    + apply map_lookup_filter_None. now left.
Qed.

Lemma purge_room_code_keys rd c :
  room_code_keys (List.fold_left purge_room l rd) !! c
  = if existsb (String.eqb c) (List.map Room.room_code l) then None
    else room_code_keys rd !! c.
Proof.
  revert rd. induction l as [|a l' IH]; intros rd; simpl; [reflexivity|].
  rewrite IH. simpl. destruct (String.eqb_spec c (Room.room_code a)) as [->|Hne]; simpl.
  - rewrite lookup_delete_eq. now destruct (existsb _ _).
  - rewrite lookup_delete_ne by congruence. reflexivity.
Qed.

End Purge.

Lemma existsb_eqb_In (k : string) (ks : list string) :
  existsb (String.eqb k) ks = true <-> In k ks.
Proof.
  rewrite List.existsb_exists. split.
  - intros (x & Hx & E). apply String.eqb_eq in E. now subst.
  - intros H. exists k. split; [exact H|apply String.eqb_refl].
Qed.

Lemma existsb_eqb_not_In (k : string) (ks : list string) :
  ~ In k ks -> existsb (String.eqb k) ks = false.
Proof.
  intros H. destruct (existsb (String.eqb k) ks) eqn:E; [|reflexivity].
  now apply existsb_eqb_In in E.
Qed.

Lemma filter_nil_length {A} (p : A -> bool) (l : list A) :
  (0 <? Z.of_nat (length (List.filter p l))) = false ->
  forall x, In x l -> p x = false.
Proof.
  intros H x Hx. destruct (p x) eqn:Hp; [|reflexivity].
  assert (Hin : In x (List.filter p l)) by (apply List.filter_In; auto).
  destruct (List.filter p l); [destruct Hin|]. simpl in H.
  apply Z.ltb_ge in H. lia.
Qed.

Lemma update_where_none {A} (p : A -> bool) (f : A -> A) (l : list A) :
  (forall x, In x l -> p x = false) -> update_where p f l = l.
Proof.
  intros H. unfold update_where. rewrite <- (List.map_id l) at 2.
  apply List.map_ext_in. intros x Hx. now rewrite (H x Hx).
Qed.

(** The rooms a sweep at time [now] marks, given unique room ids. *)
Lemma cleanupExpiredRooms_rooms now st :
  NoDup (List.map Room.id (rooms (db st))) ->
  rooms (db (cleanupExpiredRooms now st))
  = update_where (is_overdue now) (mark_expired now) (rooms (db st)).
Proof.
  intros Hnd. unfold cleanupExpiredRooms.
  destruct (0 <? _) eqn:E.
  - simpl. unfold update_where. apply List.map_ext_in. intros r Hr.
    destruct (is_overdue now r) eqn:Ho.
    + rewrite (proj2 (existsb_eqb_In _ _)); [reflexivity|].
      apply List.in_map. apply List.filter_In. auto.
    + rewrite existsb_eqb_not_In; [reflexivity|].
      intros Hin. apply List.in_map_iff in Hin as (r' & Hid & Hr').
      apply List.filter_In in Hr' as [Hr' Ho'].
      rewrite (NoDup_map_inj _ _ _ _ Hnd Hr' Hr Hid) in Ho'. congruence.
  - symmetry. apply update_where_none. now apply filter_nil_length.
Qed.

Lemma cleanupExpiredRooms_redis now st :
  redis (cleanupExpiredRooms now st)
  = List.fold_left purge_room (List.filter (is_overdue now) (rooms (db st))) (redis st).
Proof.
  unfold cleanupExpiredRooms. destruct (0 <? _) eqn:E; [reflexivity|].
  destruct (List.filter (is_overdue now) (rooms (db st))); [reflexivity|].
  simpl in E. apply Z.ltb_ge in E. lia.
Qed.

Lemma find_by_unique_key {A} (g : A -> string) (l : list A) (x : A) :
  NoDup (List.map g l) -> In x l ->
  List.find (fun y => (g y =? g x)%string) l = Some x.
Proof.
  induction l as [|a l IH]; simpl; [tauto|].
  intros Hnd Hin. inversion Hnd as [|? ? Hnotin Hnd']; subst.
  destruct (String.eqb_spec (g a) (g x)) as [Heq|Hne].
  - destruct Hin as [->|Hin]; [reflexivity|].
    exfalso. apply Hnotin. rewrite Heq. apply list_elem_of_In. now apply List.in_map.
  - destruct Hin as [->|Hin]; [congruence|]. now apply IH.
Qed.

(** The rooms and keys a sweep leaves, given unique room ids. *)
Lemma cleanupExpiredRooms_sweeps_keys now st :
  NoDup (List.map Room.id (rooms (db st))) ->
  let st' := cleanupExpiredRooms now st in
  rooms (db st') = update_where (is_overdue now) (mark_expired now) (rooms (db st))
  /\ room_members (db st') = room_members (db st)
  /\ (forall r, In r (rooms (db st')) -> is_overdue now r = false)
  /\ lock_keys (redis st') = lock_keys (redis st)
  /\ (forall r,
         In r (rooms (db st)) -> is_overdue now r = true ->
         In (mark_expired now r) (rooms (db st'))
         /\ room_keys (redis st') !! Room.id r = None
         /\ member_sets (redis st') !! Room.id r = None
         /\ room_code_keys (redis st') !! Room.room_code r = None
         /\ chat_lists (redis st') !! Room.id r = None
         /\ forall u, location_keys (redis st') !! (Room.id r, u) = None)
  /\ (forall k,
         (forall r, In r (rooms (db st)) -> is_overdue now r = true -> Room.id r <> k) ->
         room_keys (redis st') !! k = room_keys (redis st) !! k
         /\ member_sets (redis st') !! k = member_sets (redis st) !! k
         /\ chat_lists (redis st') !! k = chat_lists (redis st) !! k
         /\ forall u, location_keys (redis st') !! (k, u) = location_keys (redis st) !! (k, u))
  /\ (forall c,
         (forall r, In r (rooms (db st)) -> is_overdue now r = true -> Room.room_code r <> c) ->
         room_code_keys (redis st') !! c = room_code_keys (redis st) !! c).
Proof.
  intros Hnd st'.
  pose proof (cleanupExpiredRooms_rooms now st Hnd) as Hrooms. fold st' in Hrooms.
  pose proof (cleanupExpiredRooms_redis now st) as Hredis. fold st' in Hredis.
  split; [exact Hrooms|]. split.
  { unfold st', cleanupExpiredRooms. now destruct (0 <? _). }
  split.
  { intros r Hr. rewrite Hrooms in Hr. unfold update_where in Hr.
    apply List.in_map_iff in Hr as (r0 & <- & Hr0).
    destruct (is_overdue now r0) eqn:Ho; [|exact Ho].
    unfold is_overdue. simpl. apply andb_false_r. }
  split; [rewrite Hredis; apply purge_lock_keys|].
  split; [|split].
  - intros r Hr Ho.
    assert (Hin : In r (List.filter (is_overdue now) (rooms (db st))))
      by (apply List.filter_In; auto).
    assert (Hid : existsb (String.eqb (Room.id r))
                    (List.map Room.id (List.filter (is_overdue now) (rooms (db st)))) = true)
      by (apply existsb_eqb_In; now apply List.in_map).
    assert (Hcode : existsb (String.eqb (Room.room_code r))
                      (List.map Room.room_code (List.filter (is_overdue now) (rooms (db st))))
                    = true)
      by (apply existsb_eqb_In; now apply List.in_map).
    rewrite Hredis, Hrooms.
    rewrite purge_room_keys, purge_member_sets, purge_room_code_keys, purge_chat_lists.
    rewrite Hid, Hcode. split.
    { unfold update_where. apply List.in_map_iff. exists r. now rewrite Ho. }
    do 4 (split; [reflexivity|]).
    intros u. now rewrite purge_location_keys, Hid.
  - intros k Hk.
    assert (Hid : existsb (String.eqb k)
                    (List.map Room.id (List.filter (is_overdue now) (rooms (db st)))) = false).
    { apply existsb_eqb_not_In. intros Hin.
      apply List.in_map_iff in Hin as (r & Hr & Hin).
      apply List.filter_In in Hin as [Hin Ho]. exact (Hk r Hin Ho Hr). }
    rewrite Hredis, purge_room_keys, purge_member_sets, purge_chat_lists, Hid.
    do 3 (split; [reflexivity|]).
    intros u. now rewrite purge_location_keys, Hid.
  - intros c Hc.
    rewrite Hredis, purge_room_code_keys.
    rewrite existsb_eqb_not_In; [reflexivity|]. intros Hin.
    apply List.in_map_iff in Hin as (r & Hr & Hin).
    apply List.filter_In in Hin as [Hin Ho]. exact (Hc r Hin Ho Hr).
Qed.

(** X19. With unique room ids, a sweep at time [now] rewrites exactly the
    active rooms whose expiry lies before [now]: the row found for such a
    room afterwards has status expired, [completed_at] and [updated_at]
    equal to [now] and every other column as before. All other rooms and
    all membership rows are unchanged, and afterwards no stored room is
    active and past its expiry. For every room it expired, the cached
    snapshot, the member set, the code mapping, the chat log and all
    location keys of that room are gone; the keys of other rooms and all
    locks stay. *)
Theorem cleanupExpiredRooms_sweeps now st :
  NoDup (List.map Room.id (rooms (db st))) ->
  let st' := cleanupExpiredRooms now st in
  rooms (db st') = update_where (is_overdue now) (mark_expired now) (rooms (db st))
  /\ room_members (db st') = room_members (db st)
  /\ (forall r, In r (rooms (db st')) -> is_overdue now r = false)
  /\ lock_keys (redis st') = lock_keys (redis st)
  /\ (forall r,
         In r (rooms (db st)) -> is_overdue now r = true ->
         In (mark_expired now r) (rooms (db st'))
         /\ room_keys (redis st') !! Room.id r = None
         /\ member_sets (redis st') !! Room.id r = None
         /\ room_code_keys (redis st') !! Room.room_code r = None
         /\ chat_lists (redis st') !! Room.id r = None
         /\ forall u, location_keys (redis st') !! (Room.id r, u) = None)
  /\ (forall k,
         (forall r, In r (rooms (db st)) -> is_overdue now r = true -> Room.id r <> k) ->
         room_keys (redis st') !! k = room_keys (redis st) !! k
         /\ member_sets (redis st') !! k = member_sets (redis st) !! k
         /\ chat_lists (redis st') !! k = chat_lists (redis st) !! k
         /\ forall u, location_keys (redis st') !! (k, u) = location_keys (redis st) !! (k, u))
  /\ (forall c,
         (forall r, In r (rooms (db st)) -> is_overdue now r = true -> Room.room_code r <> c) ->
         room_code_keys (redis st') !! c = room_code_keys (redis st) !! c)
  /\ (forall r,
         In r (rooms (db st)) -> is_overdue now r = true ->
         exists swept,
           room_findUnique (Room.id r) (db st') = Some swept
           /\ Room.status swept = "expired"%string
           /\ Room.completed_at swept = Some now
           /\ Room.updated_at swept = now
           /\ Room.id swept = Room.id r
           /\ Room.room_code swept = Room.room_code r
           /\ Room.name swept = Room.name r
           /\ Room.destination_name swept = Room.destination_name r
           /\ Room.destination_lat swept = Room.destination_lat r
           /\ Room.destination_lng swept = Room.destination_lng r
           /\ Room.created_by swept = Room.created_by r
           /\ Room.max_members swept = Room.max_members r
           /\ Room.created_at swept = Room.created_at r
           /\ Room.expires_at swept = Room.expires_at r)
  /\ (forall r,
         In r (rooms (db st)) -> is_overdue now r = false ->
         room_findUnique (Room.id r) (db st') = Some r)
  /\ length (rooms (db st')) = length (rooms (db st)).
Proof.
  intros Hnd st'.
  destruct (cleanupExpiredRooms_sweeps_keys now st Hnd)
    as (Hrooms & Hrows & Hnone & Hlocks & Hgone & Hkeys & Hcodes).
  fold st' in Hrooms, Hrows, Hnone, Hlocks, Hgone, Hkeys, Hcodes.
  do 7 (split; [assumption|]).
  assert (Hfind : forall r, In r (rooms (db st)) ->
             room_findUnique (Room.id r) (db st')
             = Some (if is_overdue now r then mark_expired now r else r)).
  { intros r Hr. unfold room_findUnique. rewrite Hrooms.
    rewrite find_update_where by reflexivity.
    unfold is_room. now rewrite (find_by_unique_key Room.id _ r Hnd Hr). }
  split; [|split].
  - intros r Hr Ho. exists (mark_expired now r).
    rewrite (Hfind r Hr), Ho. repeat split.
  - intros r Hr Ho. now rewrite (Hfind r Hr), Ho.
  - rewrite Hrooms. apply length_update_where.
Qed.

Lemma cleanupExpiredRooms_sweeps_witness :
  let r := Room.mk "r1" "ABC123" "Trip" "Park" 10 20 "alice" 2 "active" 1000 1000
                   (Some 3601000) None in
  let st' := cleanupExpiredRooms 4000000 full_room in
  NoDup (List.map Room.id (rooms (db full_room)))
  /\ rooms (db full_room) = [r]
  /\ is_overdue 4000000 r = true
  /\ (exists swept,
         room_findUnique "r1" (db st') = Some swept
         /\ Room.status swept = "expired"%string
         /\ Room.completed_at swept = Some 4000000)
  /\ room_keys (redis full_room) !! "r1"%string <> None
  /\ room_keys (redis st') !! "r1"%string = None
  /\ room_code_keys (redis st') !! "ABC123"%string = None.
Proof.
  intros r st'.
  assert (H0 : NoDup (List.map Room.id (rooms (db full_room))))
    by (apply (bool_decide_unpack _); vm_compute; exact I).
  assert (H1 : rooms (db full_room) = [r]) by (vm_compute; reflexivity).
  assert (H2 : is_overdue 4000000 r = true) by reflexivity.
  assert (Hin : In r (rooms (db full_room))) by (rewrite H1; now left).
  destruct (cleanupExpiredRooms_sweeps 4000000 full_room H0)
    as (_ & _ & _ & _ & Hgone & _ & _ & Hswept & _).
  destruct (Hgone r Hin H2) as (_ & Hview & _ & Hcode & _).
  destruct (Hswept r Hin H2) as (swept & Hf & Hs & Hc & _).
  split; [exact H0|]. split; [exact H1|]. split; [exact H2|]. split.
  - exists swept. split; [exact Hf|]. split; [exact Hs|exact Hc].
  - split; [vm_compute; discriminate|]. split; [exact Hview|exact Hcode].
Defined.

(** X20. A second sweep at the same instant finds nothing to do: it leaves
    the state exactly as the first sweep left it. *)
Theorem cleanupExpiredRooms_idempotent now st :
  cleanupExpiredRooms now (cleanupExpiredRooms now st) = cleanupExpiredRooms now st.
Proof.
  assert (Hnone : forall r, In r (rooms (db (cleanupExpiredRooms now st))) ->
                            is_overdue now r = false).
  { intros r Hr. unfold cleanupExpiredRooms in Hr.
    destruct (0 <? _) eqn:E.
    - simpl in Hr. unfold update_where in Hr.
      apply List.in_map_iff in Hr as (r0 & <- & Hr0).
      destruct (existsb _ _) eqn:Hex.
      + unfold is_overdue. simpl. apply andb_false_r.
      + destruct (is_overdue now r0) eqn:Ho; [|reflexivity].
        rewrite (proj2 (existsb_eqb_In _ _)) in Hex; [discriminate|].
        apply List.in_map. apply List.filter_In. auto.
    - now apply (filter_nil_length _ _ E). }
  unfold cleanupExpiredRooms at 1.
  assert (Hempty : List.filter (is_overdue now) (rooms (db (cleanupExpiredRooms now st))) = []).
  { destruct (List.filter _ _) as [|a l] eqn:E; [reflexivity|].
    assert (Ha : In a (List.filter (is_overdue now) (rooms (db (cleanupExpiredRooms now st)))))
      by (rewrite E; now left).
    apply List.filter_In in Ha as [Ha1 Ha2]. rewrite (Hnone a Ha1) in Ha2. discriminate. }
  now rewrite Hempty.
Qed.


(** X21. After a sweep, with unique room ids and codes, nobody can join a
    room the sweep expired: [joinRoom] with that room's code fails with not
    found or inactive, at any time, whoever asks, and changes nothing. *)
Theorem joinRoom_after_cleanup now st r data lockValue memberId later :
  NoDup (List.map Room.id (rooms (db st))) ->
  NoDup (List.map Room.room_code (rooms (db st))) ->
  In r (rooms (db st)) ->
  is_overdue now r = true ->
  roomCode data = Room.room_code r ->
  joinRoom data lockValue memberId later (cleanupExpiredRooms now st)
  = (Err RoomNotFoundOrInactive, cleanupExpiredRooms now st).
Proof.
  intros Hids Hcodes Hr Ho Hcode.
  assert (Hkey : room_code_keys (redis (cleanupExpiredRooms now st)) !! Room.room_code r = None).
  { rewrite cleanupExpiredRooms_redis, purge_room_code_keys.
    rewrite (proj2 (existsb_eqb_In _ _)); [reflexivity|].
    apply List.in_map. apply List.filter_In. auto. }
  assert (Hfind : room_findByCode (Room.room_code r) (db (cleanupExpiredRooms now st))
                  = Some (mark_expired now r)).
  { unfold room_findByCode. rewrite (cleanupExpiredRooms_rooms now st Hids).
    rewrite find_update_where by reflexivity.
    unfold has_code. rewrite (find_by_unique_key Room.room_code _ r Hcodes Hr).
    simpl. now rewrite Ho. }
  unfold joinRoom, resolve_code. rewrite Hcode, Hkey. simpl. now rewrite Hfind.
Qed.

Lemma joinRoom_after_cleanup_witness :
  let r := Room.mk "r1" "ABC123" "Trip" "Park" 10 20 "alice" 2 "active" 1000 1000
                   (Some 3601000) None in
  In r (rooms (db full_room))
  /\ is_overdue 4000000 r = true
  /\ joinRoom (join_as "carol") "token-9" "m9" 4000001 (cleanupExpiredRooms 4000000 full_room)
     = (Err RoomNotFoundOrInactive, cleanupExpiredRooms 4000000 full_room).
Proof.
  intros r.
  assert (H0 : NoDup (List.map Room.id (rooms (db full_room))))
    by (apply (bool_decide_unpack _); vm_compute; exact I).
  assert (H1 : NoDup (List.map Room.room_code (rooms (db full_room))))
    by (apply (bool_decide_unpack _); vm_compute; exact I).
  assert (H2 : In r (rooms (db full_room))) by (vm_compute; auto).
  split; [exact H2|]. split; [reflexivity|].
  exact (joinRoom_after_cleanup 4000000 full_room r (join_as "carol") "token-9" "m9" 4000001
           H0 H1 H2 eq_refl eq_refl).
Defined.

(** ** Presence: joining a room's channel, sharing a location, leaving *)

Section PresenceProperties.

Variable number : Type.
Variable stringify : LocationData number -> string.

Lemma active_membership_key rid uid d m :
  active_membership rid uid d = Some m ->
  In m (room_members d)
  /\ RoomMember.room_id m = rid /\ RoomMember.user_id m = uid
  /\ RoomMember.status m = "active"%string.
Proof.
  intros H. apply List.find_some in H as [Hin Hp].
  unfold is_member_of in Hp. rewrite !andb_true_iff, !String.eqb_eq in Hp. tauto.
Qed.

Lemma touch_update d m now :
  active_membership (RoomMember.room_id m) (RoomMember.user_id m) d = Some m ->
  roomMember_update (has_member_id (RoomMember.id m)) (touch now) d
  = (Ok (touch now (default m (List.find (has_member_id (RoomMember.id m)) (room_members d)))),
     mkDB (rooms d) (update_where (has_member_id (RoomMember.id m)) (touch now) (room_members d))).
Proof.
  intros H. apply active_membership_key in H as (Hin & _).
  unfold roomMember_update.
  destruct (find_In_true (has_member_id (RoomMember.id m)) _ _ Hin) as [b Hb].
  { unfold has_member_id. apply String.eqb_refl. }
  now rewrite Hb.
Qed.

Lemma active_membership_touched rid uid d p now :
  active_membership rid uid (mkDB (rooms d) (update_where p (touch now) (room_members d)))
  = option_map (fun x => if p x then touch now x else x) (active_membership rid uid d).
Proof.
  unfold active_membership. simpl. now rewrite find_update_where.
Qed.

Lemma other_locations_spec roomId userId rd doc :
  In doc (other_locations roomId userId rd) <->
  doc <> ""%string
  /\ exists u, u <> userId
               /\ sIsMember roomId u rd = true
               /\ location_keys rd !! (roomId, u) = Some doc.
Proof.
  unfold other_locations, sIsMember.
  rewrite <- list_elem_of_In, list_elem_of_omap. split.
  - intros (u & Hu & Hf). apply elem_of_elements in Hu.
    destruct (String.eqb_spec u userId) as [|Hne]; [discriminate|].
    destruct (location_keys rd !! (roomId, u)) as [x|] eqn:E; [|discriminate].
    destruct (String.eqb_spec x "") as [|Hx]; [discriminate|].
    injection Hf as <-. split; [exact Hx|].
    exists u. split; [exact Hne|]. split; [now apply bool_decide_eq_true_2|exact E].
  - intros (Hdoc & u & Hne & Hu & E). apply bool_decide_eq_true_1 in Hu.
    exists u. split; [now apply elem_of_elements|].
    apply String.eqb_neq in Hne, Hdoc. now rewrite Hne, E, Hdoc.
Qed.

(** What the ['join-room'] handler sends and what it leaves of Redis. *)
Lemma on_join_room_snapshot_sends socket roomId now st :
  (active_membership roomId (socket_userId socket) (db st) = None ->
   on_join_room number socket roomId now st
   = ([emit number "error" (with_message "Not authorized to join this room")], st))
  /\ (forall m r,
         active_membership roomId (socket_userId socket) (db st) = Some m ->
         room_findUnique roomId (db st) = Some r ->
         Room.status r <> "active"%string ->
         on_join_room number socket roomId now st
         = ([emit number "error" (with_message "Not authorized to join this room")], st))
  /\ (forall m r,
         active_membership roomId (socket_userId socket) (db st) = Some m ->
         room_findUnique roomId (db st) = Some r ->
         Room.status r = "active"%string ->
         let rd := sAdd roomId [socket_userId socket] (redis st) in
         let locs := other_locations roomId (socket_userId socket) rd in
         on_join_room number socket roomId now st
         = (([socket_join roomId;
              emit number "joined-room" (with_room roomId (Room.name r));
              emit_to_room number roomId "user-joined"
                (with_user (socket_userId socket) (socket_userName socket))]
             ++ (if (0 <? Z.of_nat (length locs))
                 then [emit number "room-locations" (with_locations locs)]
                 else []))%list,
            mkState (mkDB (rooms (db st))
                          (update_where (has_member_id (RoomMember.id m)) (touch now)
                                        (room_members (db st))))
                    rd)
         /\ sIsMember roomId (socket_userId socket) rd = true
         /\ (forall u, u <> socket_userId socket ->
                       sIsMember roomId u rd = sIsMember roomId u (redis st))
         /\ location_keys rd = location_keys (redis st)
         /\ (forall doc,
                In doc locs <->
                doc <> ""%string
                /\ exists u, u <> socket_userId socket
                             /\ sIsMember roomId u (redis st) = true
                             /\ location_keys (redis st) !! (roomId, u) = Some doc)).
Proof.
  split; [|split].
  - intros H. unfold on_join_room. now rewrite H.
  - intros m r Hm Hr Hs. unfold on_join_room. rewrite Hm.
    destruct (active_membership_key _ _ _ _ Hm) as (_ & -> & _).
    rewrite Hr. apply String.eqb_neq in Hs. now rewrite Hs.
  - intros m r Hm Hr Hs rd locs.
    destruct (active_membership_key _ _ _ _ Hm) as (_ & Hrid & Huid & _).
    assert (Hm' : active_membership (RoomMember.room_id m) (RoomMember.user_id m) (db st)
                  = Some m) by now rewrite Hrid, Huid.
    split; [|split; [|split; [|split]]].
    + unfold on_join_room. rewrite Hm, Hrid, Hr, Hs. simpl negb. cbv iota.
      rewrite (touch_update _ _ now Hm'). reflexivity.
    + unfold rd. rewrite sIsMember_sAdd. apply orb_true_iff. left.
      apply bool_decide_eq_true_2. apply list_elem_of_here.
    + intros u Hu. unfold rd. rewrite sIsMember_sAdd.
      rewrite bool_decide_eq_false_2; [reflexivity|].
      rewrite list_elem_of_singleton. exact Hu.
    + reflexivity.
    + intros doc. unfold locs. rewrite other_locations_spec. split.
      * intros (Hdoc & u & Hu & Hin & Hloc). split; [exact Hdoc|]. exists u.
        split; [exact Hu|]. split; [|exact Hloc].
        unfold rd in Hin. rewrite sIsMember_sAdd in Hin.
        rewrite bool_decide_eq_false_2 in Hin; [exact Hin|].
        rewrite list_elem_of_singleton. exact Hu.
      * intros (Hdoc & u & Hu & Hin & Hloc). split; [exact Hdoc|]. exists u.
        split; [exact Hu|]. split; [|exact Hloc].
        unfold rd. rewrite sIsMember_sAdd, Hin. apply orb_true_r.
Qed.

(** What the ['location-update'] handler stores under the location key. *)
Lemma on_location_update_stores_key socket data now st :
  let roomId := lu_roomId number data in
  let uid := socket_userId socket in
  (active_membership roomId uid (db st) = None ->
   on_location_update number stringify socket data now st
   = ([emit number "error"
            (with_message "Not authorized to update location in this room")], st))
  /\ (forall m,
         active_membership roomId uid (db st) = Some m ->
         let st' := snd (on_location_update number stringify socket data now st) in
         exists stored,
           location_keys (redis st') !! (roomId, uid) = Some (stringify stored)
           /\ loc_userId number stored = uid
           /\ loc_userName number stored = socket_userName socket
           /\ loc_timestamp number stored = now
           /\ isLive number stored = true
           /\ loc_latitude number stored = latitude number data
           /\ loc_longitude number stored = longitude number data
           /\ (forall k, k <> (roomId, uid) ->
                         location_keys (redis st') !! k = location_keys (redis st) !! k)
           /\ member_sets (redis st') = member_sets (redis st)
           /\ rooms (db st') = rooms (db st)
           /\ room_members (db st')
              = update_where (has_member_id (RoomMember.id m)) (touch now)
                             (room_members (db st))
           /\ In (emit number "location-confirmed"
                       (with_confirmation number now (latitude number data)
                                          (longitude number data)))
                 (fst (on_location_update number stringify socket data now st))
           /\ forall data' later,
                lu_roomId number data' = roomId ->
                exists stored',
                  location_keys
                    (redis (snd (on_location_update number stringify socket data' later st')))
                    !! (roomId, uid) = Some (stringify stored')
                  /\ loc_timestamp number stored' = later
                  /\ loc_latitude number stored' = latitude number data'
                  /\ loc_longitude number stored' = longitude number data').
Proof.
  intros roomId uid. split.
  - intros H. unfold on_location_update. fold roomId uid. now rewrite H.
  - intros m Hm st'.
    destruct (active_membership_key _ _ _ _ Hm) as (_ & Hrid & Huid & _).
    assert (Hm' : active_membership (RoomMember.room_id m) (RoomMember.user_id m) (db st)
                  = Some m) by now rewrite Hrid, Huid.
    assert (Hst : st' = mkState
                          (mkDB (rooms (db st))
                                (update_where (has_member_id (RoomMember.id m)) (touch now)
                                              (room_members (db st))))
                          (set_locations
                             (insert (roomId, uid)
                                (stringify
                                   (mkLocationData number uid (socket_userName socket)
                                      (latitude number data) (longitude number data)
                                      (accuracy number data) (speed number data)
                                      (bearing number data) (heading number data)
                                      (altitude number data) (batteryLevel number data)
                                      (deviceModel number data) now true)))
                             (redis st))).
    { unfold st', on_location_update. fold roomId uid. rewrite Hm.
      now rewrite (touch_update _ _ now Hm'). }
    clearbody st'. subst st'. eexists. cbn [db redis rooms room_members].
    split; [apply lookup_insert_eq|]. do 6 (split; [reflexivity|]).
    split; [intros k Hk; now apply lookup_insert_ne|]. do 3 (split; [reflexivity|]).
    split.
    { unfold on_location_update. fold roomId uid. rewrite Hm.
      rewrite (touch_update _ _ now Hm'). simpl. auto. }
    intros data' later Hroom.
    unfold on_location_update. rewrite Hroom. fold uid. cbn [db redis].
    rewrite active_membership_touched, Hm. simpl option_map.
    assert (Hid : has_member_id (RoomMember.id m) m = true)
      by (unfold has_member_id; apply String.eqb_refl).
    rewrite Hid.
    assert (Hm2 : active_membership (RoomMember.room_id (touch now m))
                    (RoomMember.user_id (touch now m))
                    (mkDB (rooms (db st))
                          (update_where (has_member_id (RoomMember.id m)) (touch now)
                                        (room_members (db st))))
                  = Some (touch now m)).
    { rewrite active_membership_touched. cbn [touch RoomMember.room_id RoomMember.user_id].
      rewrite Hrid, Huid. fold roomId uid. rewrite Hm. simpl. now rewrite Hid. }
    rewrite (touch_update _ _ later Hm2). cbn [snd redis].
    eexists. split; [apply lookup_insert_eq|]. repeat split.
Qed.

(** What refreshing [last_seen] on the rows of [m]'s id leaves of the
    table: the row found for the member carries the new time and is
    otherwise [m]; rows of other ids are as before. *)
Lemma touched_rows roomId uid now d m :
  active_membership roomId uid d = Some m ->
  let d' := mkDB (rooms d)
                 (update_where (has_member_id (RoomMember.id m)) (touch now)
                               (room_members d)) in
  (exists seen,
      active_membership roomId uid d' = Some seen
      /\ RoomMember.last_seen seen = Some now
      /\ RoomMember.id seen = RoomMember.id m
      /\ RoomMember.room_id seen = roomId
      /\ RoomMember.user_id seen = uid
      /\ RoomMember.status seen = "active"%string
      /\ RoomMember.nickname seen = RoomMember.nickname m
      /\ RoomMember.role seen = RoomMember.role m
      /\ RoomMember.joined_at seen = RoomMember.joined_at m
      /\ RoomMember.left_at seen = RoomMember.left_at m
      /\ RoomMember.join_order seen = RoomMember.join_order m)
  /\ (forall x, In x (room_members d) ->
                RoomMember.id x <> RoomMember.id m ->
                In x (room_members d'))
  /\ length (room_members d') = length (room_members d)
  /\ rooms d' = rooms d.
Proof.
  intros Hm d'.
  destruct (active_membership_key _ _ _ _ Hm) as (_ & Hrid & Huid & Hact).
  split; [|split; [|split]].
  - exists (touch now m). split.
    + unfold d'. rewrite active_membership_touched, Hm. cbn [option_map].
      unfold has_member_id. now rewrite String.eqb_refl.
    + cbn [touch RoomMember.last_seen RoomMember.id RoomMember.room_id RoomMember.user_id
           RoomMember.status RoomMember.nickname RoomMember.role RoomMember.joined_at
           RoomMember.left_at RoomMember.join_order].
      repeat split; assumption || reflexivity.
  - intros x Hx Hne. unfold d'. cbn [room_members]. unfold update_where.
    apply List.in_map_iff. exists x. split; [|exact Hx].
    unfold has_member_id. apply String.eqb_neq in Hne. now rewrite Hne.
  - unfold d'. cbn [room_members]. apply length_update_where.
  - reflexivity.
Qed.

(** X22. The ['join-room'] handler turns away a socket whose user has no
    active membership row for the room, or whose room is not active, with an
    error event only and no change of state. For an active member of an
    active room it joins the channel, adds the user to the room's member set
    and tells the others; the locations it sends back are exactly the
    non-empty stored locations of the other users in the member set, never
    the caller's own. In the store, the row then found for the member has
    [last_seen] equal to the time of the call and every other column as
    before; rows of other ids and all rooms are unchanged. *)
Theorem on_join_room_snapshot socket roomId now st :
  (active_membership roomId (socket_userId socket) (db st) = None ->
   on_join_room number socket roomId now st
   = ([emit number "error" (with_message "Not authorized to join this room")], st))
  /\ (forall m r,
         active_membership roomId (socket_userId socket) (db st) = Some m ->
         room_findUnique roomId (db st) = Some r ->
         Room.status r <> "active"%string ->
         on_join_room number socket roomId now st
         = ([emit number "error" (with_message "Not authorized to join this room")], st))
  /\ (forall m r,
         active_membership roomId (socket_userId socket) (db st) = Some m ->
         room_findUnique roomId (db st) = Some r ->
         Room.status r = "active"%string ->
         let rd := sAdd roomId [socket_userId socket] (redis st) in
         let locs := other_locations roomId (socket_userId socket) rd in
         on_join_room number socket roomId now st
         = (([socket_join roomId;
              emit number "joined-room" (with_room roomId (Room.name r));
              emit_to_room number roomId "user-joined"
                (with_user (socket_userId socket) (socket_userName socket))]
             ++ (if (0 <? Z.of_nat (length locs))
                 then [emit number "room-locations" (with_locations locs)]
                 else []))%list,
            mkState (mkDB (rooms (db st))
                          (update_where (has_member_id (RoomMember.id m)) (touch now)
                                        (room_members (db st))))
                    rd)
         /\ sIsMember roomId (socket_userId socket) rd = true
         /\ (forall u, u <> socket_userId socket ->
                       sIsMember roomId u rd = sIsMember roomId u (redis st))
         /\ location_keys rd = location_keys (redis st)
         /\ (forall doc,
                In doc locs <->
                doc <> ""%string
                /\ exists u, u <> socket_userId socket
                             /\ sIsMember roomId u (redis st) = true
                             /\ location_keys (redis st) !! (roomId, u) = Some doc))
  /\ (forall m r,
         active_membership roomId (socket_userId socket) (db st) = Some m ->
         room_findUnique roomId (db st) = Some r ->
         Room.status r = "active"%string ->
         let st' := snd (on_join_room number socket roomId now st) in
         (exists seen,
             active_membership roomId (socket_userId socket) (db st') = Some seen
             /\ RoomMember.last_seen seen = Some now
             /\ RoomMember.id seen = RoomMember.id m
             /\ RoomMember.room_id seen = roomId
             /\ RoomMember.user_id seen = socket_userId socket
             /\ RoomMember.status seen = "active"%string
             /\ RoomMember.nickname seen = RoomMember.nickname m
             /\ RoomMember.role seen = RoomMember.role m
             /\ RoomMember.joined_at seen = RoomMember.joined_at m
             /\ RoomMember.left_at seen = RoomMember.left_at m
             /\ RoomMember.join_order seen = RoomMember.join_order m)
         /\ (forall x, In x (room_members (db st)) ->
                       RoomMember.id x <> RoomMember.id m ->
                       In x (room_members (db st')))
         /\ length (room_members (db st')) = length (room_members (db st))
         /\ rooms (db st') = rooms (db st)).
Proof.
  destruct (on_join_room_snapshot_sends socket roomId now st) as (Hnone & Hoff & Hin).
  do 3 (split; [assumption|]).
  intros m r Hm Hr Hs st'.
  destruct (Hin m r Hm Hr Hs) as (Heq & _).
  unfold st'. rewrite Heq. cbn [snd db].
  exact (touched_rows roomId (socket_userId socket) now (db st) m Hm).
Qed.

(** X23. The ['location-update'] handler writes nothing and only emits an
    error for a socket whose user has no active membership row in the room.
    For an active member it stores, under the key of that room and user and
    no other, the serialised location carrying the socket's own user id and
    name, the time of the call and [isLive]; a later update replaces the
    earlier one. In the store, the row then found for the member has
    [last_seen] equal to the time of the call and every other column as
    before; rows of other ids and all rooms are unchanged. *)
Theorem on_location_update_stores socket data now st :
  let roomId := lu_roomId number data in
  let uid := socket_userId socket in
  (active_membership roomId uid (db st) = None ->
   on_location_update number stringify socket data now st
   = ([emit number "error"
            (with_message "Not authorized to update location in this room")], st))
  /\ (forall m,
         active_membership roomId uid (db st) = Some m ->
         let st' := snd (on_location_update number stringify socket data now st) in
         exists stored,
           location_keys (redis st') !! (roomId, uid) = Some (stringify stored)
           /\ loc_userId number stored = uid
           /\ loc_userName number stored = socket_userName socket
           /\ loc_timestamp number stored = now
           /\ isLive number stored = true
           /\ loc_latitude number stored = latitude number data
           /\ loc_longitude number stored = longitude number data
           /\ (forall k, k <> (roomId, uid) ->
                         location_keys (redis st') !! k = location_keys (redis st) !! k)
           /\ member_sets (redis st') = member_sets (redis st)
           /\ rooms (db st') = rooms (db st)
           /\ room_members (db st')
              = update_where (has_member_id (RoomMember.id m)) (touch now)
                             (room_members (db st))
           /\ In (emit number "location-confirmed"
                       (with_confirmation number now (latitude number data)
                                          (longitude number data)))
                 (fst (on_location_update number stringify socket data now st))
           /\ forall data' later,
                lu_roomId number data' = roomId ->
                exists stored',
                  location_keys
                    (redis (snd (on_location_update number stringify socket data' later st')))
                    !! (roomId, uid) = Some (stringify stored')
                  /\ loc_timestamp number stored' = later
                  /\ loc_latitude number stored' = latitude number data'
                  /\ loc_longitude number stored' = longitude number data')
  /\ (forall m,
         active_membership roomId uid (db st) = Some m ->
         let st' := snd (on_location_update number stringify socket data now st) in
         (exists seen,
             active_membership roomId uid (db st') = Some seen
             /\ RoomMember.last_seen seen = Some now
             /\ RoomMember.id seen = RoomMember.id m
             /\ RoomMember.room_id seen = roomId
             /\ RoomMember.user_id seen = uid
             /\ RoomMember.status seen = "active"%string
             /\ RoomMember.nickname seen = RoomMember.nickname m
             /\ RoomMember.role seen = RoomMember.role m
             /\ RoomMember.joined_at seen = RoomMember.joined_at m
             /\ RoomMember.left_at seen = RoomMember.left_at m
             /\ RoomMember.join_order seen = RoomMember.join_order m)
         /\ (forall x, In x (room_members (db st)) ->
                       RoomMember.id x <> RoomMember.id m ->
                       In x (room_members (db st')))
         /\ length (room_members (db st')) = length (room_members (db st))
         /\ rooms (db st') = rooms (db st)).
Proof.
  intros roomId uid.
  destruct (on_location_update_stores_key socket data now st) as (Hnone & Hstore).
  fold roomId uid in Hnone, Hstore.
  do 2 (split; [assumption|]).
  intros m Hm st'.
  destruct (Hstore m Hm) as (stored & _ & _ & _ & _ & _ & _ & _ & _ & _ & Hrooms & Hrows & _).
  fold st' in Hrooms, Hrows.
  assert (Hdb : db st' = mkDB (rooms (db st'))  (room_members (db st')))
    by now destruct (db st').
  rewrite Hdb, Hrooms, Hrows.
  exact (touched_rows roomId uid now (db st) m Hm).
Qed.


End PresenceProperties.

Lemma on_join_room_snapshot_witness :
  let bob := RoomMember.mk "m2" "r1" "bob" "Member" "member" "active" 2000 None (Some 2000) 2 in
  active_membership "r1" "bob" (db alice_shares) = Some bob
  /\ fst (on_join_room Z bob_socket "r1" 6000 alice_shares)
     = [socket_join "r1"; emit Z "joined-room" (with_room "r1" "Trip");
        emit_to_room Z "r1" "user-joined" (with_user "bob" "Bob");
        emit Z "room-locations" (with_locations ["{userId:alice}"%string])]
  /\ (exists seen,
         active_membership "r1" "bob"
           (db (snd (on_join_room Z bob_socket "r1" 6000 alice_shares))) = Some seen
         /\ RoomMember.last_seen seen = Some 6000)
  /\ on_join_room Z (mkSocket "mallory" "M") "r1" 6000 alice_shares
     = ([emit Z "error" (with_message "Not authorized to join this room")], alice_shares).
Proof.
  intros bob.
  assert (H1 : active_membership "r1" "bob" (db alice_shares) = Some bob)
    by (vm_compute; reflexivity).
  assert (H2 : room_findUnique "r1" (db alice_shares)
               = Some (Room.mk "r1" "ABC123" "Trip" "Park" 10 20 "alice" 5 "active" 1000 1000
                               (Some 86401000) None))
    by (vm_compute; reflexivity).
  destruct (on_join_room_snapshot Z bob_socket "r1" 6000 alice_shares)
    as (_ & _ & Hin & Hrow).
  destruct (Hin bob _ H1 H2 eq_refl) as (Heq & _).
  destruct (Hrow bob _ H1 H2 eq_refl) as ((seen & Hseen & Hls & _) & _).
  split; [exact H1|]. split; [|split].
  - rewrite Heq. vm_compute. reflexivity.
  - exists seen. split; [exact Hseen|exact Hls].
  - apply (proj1 (on_join_room_snapshot Z (mkSocket "mallory" "M") "r1" 6000 alice_shares)).
    vm_compute. reflexivity.
Defined.

Lemma on_location_update_stores_witness :
  let update := mkLocationUpdate Z "r1" 48 2 None None None None None None None in
  let joined := snd (on_join_room Z alice_socket "r1" 4000 after_join) in
  (exists m, active_membership "r1" "alice" (db joined) = Some m)
  /\ location_keys (redis alice_shares) !! ("r1", "alice")%string
     = Some "{userId:alice}"%string
  /\ (exists seen,
         active_membership "r1" "alice" (db alice_shares) = Some seen
         /\ RoomMember.last_seen seen = Some 5000)
  /\ on_location_update Z sample_stringify (mkSocket "mallory" "M") update 5000 joined
     = ([emit Z "error" (with_message "Not authorized to update location in this room")],
        joined).
Proof.
  intros update joined.
  assert (H1 : active_membership "r1" "alice" (db joined)
               = Some (RoomMember.mk "m1" "r1" "alice" "Trip" "owner" "active" 1000 None
                                     (Some 4000) 1))
    by (vm_compute; reflexivity).
  destruct (on_location_update_stores Z sample_stringify alice_socket update 5000 joined)
    as (_ & Hstore & Hrow).
  destruct (Hstore _ H1) as (stored & Hkey & Huid & _).
  destruct (Hrow _ H1) as ((seen & Hseen & Hls & _) & _).
  split; [eauto|]. split; [|split].
  - unfold alice_shares. fold joined update. simpl in Hkey. rewrite Hkey.
    unfold sample_stringify. now rewrite Huid.
  - exists seen. split; [exact Hseen|exact Hls].
  - apply (proj1 (on_location_update_stores Z sample_stringify (mkSocket "mallory" "M")
                    update 5000 joined)).
    vm_compute. reflexivity.
Defined.


(** ** Membership and the handlers *)

Lemma leaveRoom_Ok_tx roomId userId now st res st' :
  leaveRoom roomId userId now st = (Ok res, st') ->
  leaveRoom_tx roomId userId now (db st) = (Ok res, db st').
Proof.
  unfold leaveRoom, transaction. intros H.
  destruct (leaveRoom_tx roomId userId now (db st)) as [[r|e] d]; [|discriminate].
  destruct (RoomMember.status r =? "left")%string; injection H as <- <-; [|reflexivity].
  simpl. now rewrite updateRoomMemberCount_db.
Qed.

(** X25. In a consistent store, once [leaveRoom] has succeeded for a user,
    that user has no active membership in the room any more, and the
    handlers turn the user's socket away: no chat message is stored or
    published, no history is returned, the channel is not joined and no
    location is stored; each answers with an error event and leaves the
    state alone. *)
Theorem handlers_refuse_after_leaveRoom (number : Type)
    (stringify : LocationData number -> string) roomId userId now st res st' socket :
  consistent (db st) ->
  leaveRoom roomId userId now st = (Ok res, st') ->
  socket_userId socket = userId ->
  active_membership roomId userId (db st') = None
  /\ (forall body messageId t,
         send_message socket roomId body messageId t st'
         = ([emit_error "Not authorized to send messages in this room"], st'))
  /\ request_chat_history socket roomId st'
     = ([emit_error "Not authorized to access chat history"], st')
  /\ (forall t,
         on_join_room number socket roomId t st'
         = ([emit number "error" (with_message "Not authorized to join this room")], st'))
  /\ (forall data t,
         lu_roomId number data = roomId ->
         on_location_update number stringify socket data t st'
         = ([emit number "error"
                  (with_message "Not authorized to update location in this room")], st')).
Proof.
  intros Hc Hleave Hsock.
  assert (Hc' : consistent (db st')).
  { pose proof (consistent_step (OpLeave roomId userId now) st Hc) as H.
    simpl in H. now rewrite Hleave in H. }
  pose proof (leaveRoom_Ok_tx _ _ _ _ _ _ Hleave) as Htx.
  apply leaveRoom_tx_leaves_left in Htx as (_ & m & Hm & Hleft).
  assert (Hnone : active_membership roomId userId (db st') = None).
  { destruct (active_membership roomId userId (db st')) as [x|] eqn:E; [|reflexivity].
    exfalso. apply List.find_some in E as [Hx Hp]. apply List.find_some in Hm as [Hmin Hmp].
    apply andb_true_iff in Hp as [Hp Hs]. apply String.eqb_eq in Hs.
    unfold is_member_of in Hp, Hmp. rewrite !andb_true_iff, !String.eqb_eq in Hp, Hmp.
    assert (x = m).
    { apply (NoDup_map_inj _ _ _ _ (memberships_unique _ Hc') Hx Hmin). simpl.
      destruct Hp as [-> ->], Hmp as [-> ->]. reflexivity. }
    subst x. congruence. }
  split; [exact Hnone|]. split; [|split; [|split]].
  - intros body messageId t. unfold send_message. now rewrite Hsock, Hnone.
  - unfold request_chat_history. now rewrite Hsock, Hnone.
  - intros t. unfold on_join_room. now rewrite Hsock, Hnone.
  - intros data t Hroom. unfold on_location_update. now rewrite Hroom, Hsock, Hnone.
Qed.

Lemma handlers_refuse_after_leaveRoom_witness :
  consistent (db after_join)
  /\ is_active_member "r1" (db after_join) bob_socket
  /\ is_ok (fst (leaveRoom "r1" "bob" 3000 after_join)) = true
  /\ send_message bob_socket "r1" "hello" "c1" 3500 (snd (leaveRoom "r1" "bob" 3000 after_join))
     = ([emit_error "Not authorized to send messages in this room"],
        snd (leaveRoom "r1" "bob" 3000 after_join)).
Proof.
  assert (H0 : consistent (db after_join)) by (apply consistent_run, initial_consistent).
  split; [exact H0|]. split; [eexists; vm_compute; reflexivity|].
  split; [vm_compute; reflexivity|].
  destruct (leaveRoom "r1" "bob" 3000 after_join) as [[res|e] st'] eqn:E;
    [|vm_compute in E; discriminate].
  destruct (handlers_refuse_after_leaveRoom Z sample_stringify "r1" "bob" 3000 after_join
              res st' bob_socket H0 E eq_refl) as (_ & Hsend & _).
  apply Hsend.
Defined.

(** ** [String.prototype.trim] *)

Lemma strip_prefix_Some w s rest :
  strip_prefix w s = Some rest -> s = (w ++ rest)%list.
Proof.
  revert s. induction w as [|a w IH]; intros s; simpl.
  - now intros [= ->].
  - destruct s as [|b s]; [discriminate|].
    destruct (Ascii.eqb_spec a b) as [->|]; [|discriminate].
    intros H. now rewrite (IH _ H).
Qed.

Lemma strip_prefix_app w rest : strip_prefix w (w ++ rest)%list = Some rest.
Proof.
  induction w as [|a w IH]; simpl; [reflexivity|]. now rewrite Ascii.eqb_refl.
Qed.

Lemma strip_any_Some ws s rest :
  strip_any ws s = Some rest -> exists w, In w ws /\ s = (w ++ rest)%list.
Proof.
  induction ws as [|w ws IH]; simpl; [discriminate|].
  destruct (strip_prefix w s) as [r|] eqn:E.
  - intros [= ->]. exists w. split; [now left|]. now apply strip_prefix_Some.
  - intros H. destruct (IH H) as (w' & Hin & Hs). exists w'. split; [now right|exact Hs].
Qed.

Lemma strip_any_None ws s w rest :
  strip_any ws s = None -> In w ws -> s <> (w ++ rest)%list.
Proof.
  induction ws as [|w0 ws IH]; simpl; [tauto|].
  destruct (strip_prefix w0 s) as [r|] eqn:E; [discriminate|].
  intros H [->|Hin] Hs.
  - rewrite Hs, strip_prefix_app in E. discriminate.
  - now apply (IH H Hin).
Qed.

Lemma drop_leading_split ws n s :
  exists run,
    Forall (fun w => In w ws) run
    /\ s = (List.concat run ++ drop_leading ws n s)%list.
Proof.
  revert s. induction n as [|n IH]; intros s; simpl.
  - exists []. split; [constructor|reflexivity].
  - destruct (strip_any ws s) as [rest|] eqn:E.
    + destruct (strip_any_Some _ _ _ E) as (w & Hin & ->).
      destruct (IH rest) as (run & Hrun & Hrest).
      exists (w :: run). split; [now constructor|].
      simpl. rewrite <- List.app_assoc. now rewrite <- Hrest.
    + exists []. split; [constructor|reflexivity].
Qed.

Lemma drop_leading_done ws n s :
  (forall w, In w ws -> w <> []) ->
  (length s <= n)%nat ->
  strip_any ws (drop_leading ws n s) = None.
Proof.
  intros Hne. revert s. induction n as [|n IH]; intros s Hlen; simpl.
  - destruct s; [|simpl in Hlen; lia].
    destruct (strip_any ws []) as [rest|] eqn:E; [|reflexivity].
    destruct (strip_any_Some _ _ _ E) as (w & Hin & Hs).
    destruct w; [now destruct (Hne _ Hin)|discriminate].
  - destruct (strip_any ws s) as [rest|] eqn:E; [|exact E].
    apply IH. destruct (strip_any_Some _ _ _ E) as (w & Hin & ->).
    rewrite List.length_app in Hlen.
    destruct w; [now destruct (Hne _ Hin)|]. simpl in Hlen. lia.
Qed.

Lemma white_space_nonempty w : In w white_space -> w <> [].
Proof.
  intros Hin ->. revert Hin. vm_compute. intuition discriminate.
Qed.

Lemma rev_concat {A} (l : list (list A)) :
  List.rev (List.concat l) = List.concat (List.map (@List.rev A) (List.rev l)).
Proof.
  induction l as [|a l IH]; simpl; [reflexivity|].
  rewrite List.rev_app_distr, IH, List.map_app, List.concat_app. simpl.
  now rewrite List.app_nil_r.
Qed.

(** What [trim] keeps: the text between a leading and a trailing run of
    white space, itself without white space at either end. *)
Lemma trim_bytes_spec s :
  exists pre post,
    s = (pre ++ trim_bytes s ++ post)%list
    /\ blank pre /\ blank post
    /\ (forall w rest, In w white_space -> trim_bytes s <> (w ++ rest)%list)
    /\ (forall w rest, In w white_space -> trim_bytes s <> (rest ++ w)%list).
Proof.
  unfold trim_bytes.
  set (front := drop_leading white_space (length s) s).
  set (wsr := List.map (@List.rev ascii) white_space).
  set (back := drop_leading wsr (length front) (List.rev front)).
  destruct (drop_leading_split white_space (length s) s) as (run1 & Hrun1 & Hs).
  fold front in Hs.
  destruct (drop_leading_split wsr (length front) (List.rev front)) as (run2 & Hrun2 & Hf).
  fold back in Hf.
  assert (Hfront : front = (List.rev back ++ List.concat (List.map (@List.rev ascii)
                                                       (List.rev run2)))%list).
  { rewrite <- (List.rev_involutive front), Hf, List.rev_app_distr. now rewrite rev_concat. }
  assert (Hnone1 : strip_any white_space front = None).
  { apply drop_leading_done; [exact white_space_nonempty|]. lia. }
  assert (Hnone2 : strip_any wsr back = None).
  { apply drop_leading_done; [|rewrite List.length_rev; lia].
    intros w Hw. unfold wsr in Hw. apply List.in_map_iff in Hw as (w0 & <- & Hw0).
    intros E. apply (white_space_nonempty w0 Hw0).
    rewrite <- (List.rev_involutive w0), E. reflexivity. }
  exists (List.concat run1), (List.concat (List.map (@List.rev ascii) (List.rev run2))).
  split; [now rewrite <- Hfront|]. split; [now exists run1|]. split.
  { eexists. split; [|reflexivity].
    apply List.Forall_forall. intros w Hw. apply List.in_map_iff in Hw as (w' & <- & Hw').
    apply List.in_rev in Hw'. rewrite List.Forall_forall in Hrun2.
    specialize (Hrun2 _ Hw'). unfold wsr in Hrun2.
    apply List.in_map_iff in Hrun2 as (w0 & <- & Hw0). now rewrite List.rev_involutive. }
  split.
  - intros w rest Hw E.
    apply (strip_any_None _ _ w
             (rest ++ List.concat (List.map (@List.rev ascii) (List.rev run2)))%list
             Hnone1 Hw).
    now rewrite Hfront, E, List.app_assoc.
  - intros w rest Hw E.
    apply (strip_any_None wsr back (List.rev w) (List.rev rest) Hnone2).
    + unfold wsr. now apply List.in_map.
    + rewrite <- (List.rev_involutive back), E, List.rev_app_distr. reflexivity.
Qed.

(** X26. Once [joinRoom] has succeeded for a user, whether by a new row or
    by a reactivated one, the user's socket is accepted by the chat
    handlers for that room: a message it sends is put at the head of the
    room's list and published on the room's channel, and the history it then
    requests is the earlier history followed by that message. The content
    stored is the text sent without the run of white space before it and the
    run after it, and has no white space at either end. *)
Theorem chat_open_after_joinRoom data lockValue memberId now st res st' socket :
  joinRoom data lockValue memberId now st = (Ok res, st') ->
  socket_userId socket = userId data ->
  let roomId := Room.id (room res) in
  is_active_member roomId (db st') socket
  /\ forall body messageId t,
       let sent := mkChatMessage messageId roomId (socket_userId socket)
                                 (socket_userName socket) (trim body) t in
       fst (send_message socket roomId body messageId t st')
       = [publish ("chat:room:" ++ roomId ++ ":updates") sent]
       /\ fst (request_chat_history socket roomId
                 (snd (send_message socket roomId body messageId t st')))
          = [emit_chat_history (history roomId st' ++ [sent])%list]
       /\ lRange_all roomId (redis (snd (send_message socket roomId body messageId t st')))
          = sent :: lRange_all roomId (redis st')
       /\ exists pre post,
            list_ascii_of_string body
            = (pre ++ list_ascii_of_string (content sent) ++ post)%list
            /\ blank pre /\ blank post
            /\ (forall w rest,
                   In w white_space ->
                   list_ascii_of_string (content sent) <> (w ++ rest)%list)
            /\ (forall w rest,
                   In w white_space ->
                   list_ascii_of_string (content sent) <> (rest ++ w)%list).
Proof.
  intros Hjoin Hsock roomId.
  destruct (joinRoom_Ok_inv _ _ _ _ _ _ _ Hjoin)
    as (rid & r & _ & _ & Hr & _ & Hroom & _ & _ & Hcase).
  assert (Hrid : roomId = rid).
  { unfold roomId. rewrite Hroom. exact (room_findUnique_id _ _ _ Hr). }
  assert (Hrow : exists x, In x (room_members (db st'))
                           /\ is_member_of rid (userId data) x = true
                           /\ RoomMember.status x = "active"%string).
  { destruct Hcase as [(existing & m & Hfind & _ & _ & _ & _ & Hmem)|(_ & _ & _ & _ & Hmem)].
    - apply List.find_some in Hfind as [Hin Hp].
      exists (RoomMember.reactivate (or_else (nickname data) (RoomMember.nickname existing))
                                    now existing).
      split; [|split; [exact Hp|reflexivity]].
      rewrite Hmem. unfold update_where. apply List.in_map_iff. exists existing.
      split; [|exact Hin]. unfold has_member_id. now rewrite String.eqb_refl.
    - exists (member_row rid data memberId now (db st)).
      split; [rewrite Hmem; apply List.in_or_app; right; now left|].
      split; [|reflexivity]. unfold is_member_of. simpl. now rewrite !String.eqb_refl. }
  destruct Hrow as (x & Hx & Hkey & Hact).
  assert (Hmember : is_active_member roomId (db st') socket).
  { unfold is_active_member, active_membership. rewrite Hsock, Hrid.
    destruct (find_In_true
                (fun m => is_member_of rid (userId data) m
                          && (RoomMember.status m =? "active")%string) _ x Hx) as [b Hb].
    { now rewrite Hkey, Hact. }
    rewrite Hb. eauto. }
  split; [exact Hmember|].
  intros body messageId t sent.
  destruct (send_message_member socket roomId body messageId t st' Hmember) as [Hdb Hhist].
  split; [|split; [|split]].
  - destruct Hmember as [b Hb]. unfold send_message. now rewrite Hb.
  - rewrite request_chat_history_member by now rewrite Hdb.
    simpl. now rewrite Hhist.
  - destruct Hmember as [b Hb]. unfold send_message. rewrite Hb.
    cbn [snd on_redis redis]. unfold lRange_all, lPush. cbn [chat_lists set_chats].
    now rewrite lookup_insert_eq.
  - cbn [content sent]. unfold trim. rewrite list_ascii_of_string_of_list_ascii.
    apply trim_bytes_spec.
Qed.

(** bob, who has joined, sends a message padded with spaces, and one
    padded with a no-break space (U+00A0) and a byte order mark (U+FEFF). *)
Lemma chat_open_after_joinRoom_witness :
  let padded := string_of_list_ascii (utf8 [194; 160; 104; 105; 239; 187; 191]%N) in
  is_ok (fst (joinRoom (join_as "bob") "token-1" "m2" 2000 after_create)) = true
  /\ fst (send_message bob_socket "r1" " hi all " "c1" 2500 after_join)
     = [publish "chat:room:r1:updates" (mkChatMessage "c1" "r1" "bob" "Bob" "hi all" 2500)]
  /\ fst (request_chat_history bob_socket "r1"
            (snd (send_message bob_socket "r1" " hi all " "c1" 2500 after_join)))
     = [emit_chat_history [mkChatMessage "c1" "r1" "bob" "Bob" "hi all" 2500]]
  /\ fst (send_message bob_socket "r1" padded "c2" 2600 after_join)
     = [publish "chat:room:r1:updates" (mkChatMessage "c2" "r1" "bob" "Bob" "hi" 2600)].
Proof.
  intros padded.
  split; [vm_compute; reflexivity|].
  destruct (joinRoom (join_as "bob") "token-1" "m2" 2000 after_create) as [[res|e] st'] eqn:E;
    [|vm_compute in E; discriminate].
  assert (Hst : st' = after_join /\ Room.id (room res) = "r1"%string).
  { vm_compute in E. injection E as <- <-. split; vm_compute; reflexivity. }
  destruct Hst as [-> Hid].
  destruct (chat_open_after_joinRoom (join_as "bob") "token-1" "m2" 2000 after_create res
              after_join bob_socket E eq_refl) as [_ Hchat].
  rewrite Hid in Hchat. destruct (Hchat " hi all "%string "c1"%string 2500) as (H1 & H2 & _).
  destruct (Hchat padded "c2"%string 2600) as (H3 & _).
  split; [exact H1|]. split; [rewrite H2; vm_compute; reflexivity|].
  rewrite H3. vm_compute. reflexivity.
Defined.

(** ** What the routes answer when the service fails *)

Lemma joinRoom_Err_cases data lockValue memberId now st e st' :
  joinRoom data lockValue memberId now st = (Err e, st') ->
  In e [RoomNotFoundOrInactive; RoomBusy; RoomNotFound; RoomNotActive; RoomExpired;
        RoomFull; AlreadyMember; UniqueViolation; RecordNotFound].
Proof.
  intros H.
  destruct (resolve_code (roomCode data) st) as [rid|e0] eqn:Hres.
  2:{ unfold joinRoom in H. rewrite Hres in H. injection H as <- _.
      unfold resolve_code in Hres. destruct (truthy _); [discriminate|].
      destruct (room_findByCode _ _) as [r|]; [destruct (Room.status r =? "active")%string|];
        try discriminate; injection Hres as <-; simpl; auto. }
  destruct (set_nx rid lockValue (redis st)) as [locked|] eqn:Hnx.
  2:{ unfold joinRoom in H. rewrite Hres, Hnx in H. injection H as <- _. simpl. auto. }
  rewrite (joinRoom_acquired data lockValue memberId now st rid locked Hres Hnx) in H.
  unfold transaction in H.
  destruct (room_findUnique rid (db st)) as [r|] eqn:Hr.
  2:{ unfold joinRoom_tx, bind, query, throw in H. rewrite Hr in H.
      injection H as <- _. simpl. auto. }
  destruct (join_guard now r (db st)) as [g|] eqn:Hg.
  { rewrite (joinRoom_tx_guarded data memberId now rid _ r g Hr Hg) in H.
    injection H as <- _. unfold join_guard in Hg.
    destruct (negb _); [injection Hg as <-; simpl; auto 10|].
    destruct (expired now r); [injection Hg as <-; simpl; auto 10|].
    destruct (_ >=? _); [injection Hg as <-; simpl; auto 10|discriminate]. }
  rewrite (joinRoom_tx_passed data memberId now rid _ r Hr Hg) in H.
  destruct (roomMember_find rid (userId data) (db st)) as [existing|].
  - destruct (RoomMember.status existing =? "active")%string;
      [injection H as <- _; simpl; auto 10|].
    destruct (List.find _ _); [discriminate|injection H as <- _; simpl; auto 10].
  - cbv zeta in H. destruct (existsb _ _); [injection H as <- _; simpl; auto 10|discriminate].
Qed.

Lemma leaveRoom_Err_cases roomId userId now st e st' :
  leaveRoom roomId userId now st = (Err e, st') ->
  In e [NotMember; NotActiveMember; RecordNotFound].
Proof.
  unfold leaveRoom, transaction. intros H.
  destruct (roomMember_find roomId userId (db st)) as [m|] eqn:Hf.
  2:{ rewrite (leaveRoom_tx_missing _ _ _ _ Hf) in H. injection H as <- _. simpl. auto. }
  destruct (String.eqb_spec (RoomMember.status m) "left") as [Hl|Hl].
  { rewrite (leaveRoom_tx_left _ _ _ _ _ Hf Hl), Hl in H. discriminate. }
  destruct (String.eqb_spec (RoomMember.status m) "active") as [Ha|Ha].
  2:{ unfold leaveRoom_tx, bind, query, throw in H. rewrite Hf in H.
      apply String.eqb_neq in Ha, Hl. rewrite Ha, Hl in H. injection H as <- _.
      simpl. auto. }
  destruct (leaveRoom_tx_active roomId userId now (db st) m Hf Ha) as (m' & _ & Heq).
  cbv zeta in Heq. rewrite Heq in H. clear Heq.
  destruct (RoomMember.role m =? "owner")%string.
  - destruct (next_member _ _ _).
    + destruct (List.find _ _); simpl in H; [discriminate|].
      injection H as <- _. simpl. auto.
    + destruct (List.find _ _); simpl in H; [discriminate|].
      injection H as <- _. simpl. auto.
  - simpl in H. discriminate.
Qed.

Lemma getRoomDetails_Err_cases roomId userId st e st' :
  getRoomDetails roomId userId st = (Err e, st') ->
  In e [RoomNotFound; AccessDenied].
Proof.
  unfold getRoomDetails. intros H.
  destruct (room_keys (redis st) !! roomId).
  - destruct (truthy userId && _); [|discriminate]. injection H as <- _. simpl. auto.
  - destruct (room_findUnique roomId (db st)); [|injection H as <- _; simpl; auto].
    destruct (truthy userId && _); [|discriminate]. injection H as <- _. simpl. auto.
Qed.

Ltac pick_case :=
  match goal with
  | |- _ /\ _ => split; pick_case
  | |- _ \/ _ => (left; pick_case) || (right; pick_case)
  | |- _ => reflexivity
  end.

(** X27. What the routes answer for the errors the service raises itself.
    [POST /join]: unknown code or room 404, busy lock 429, expired room 410,
    full room 409, active member 409, and a room that is not active falls
    through to 500 JOIN_ROOM_FAILED. [POST /:roomId/leave]: no membership
    403, membership neither active nor left 409 ALREADY_LEFT.
    [GET /:roomId]: unknown room 404, not a member 403. The message of the
    error is passed on unchanged. An error of the store itself is the only
    other failure. *)
Theorem routes_answer_service_errors :
  (forall data lockValue memberId now st e st',
      joinRoom data lockValue memberId now st = (Err e, st') ->
      let answer := join_route_catch (message e) in
      (error answer = message e
       /\ (((e = RoomNotFoundOrInactive \/ e = RoomNotFound)
            /\ statusCode answer = 404 /\ code answer = "ROOM_NOT_FOUND"%string)
           \/ (e = RoomBusy /\ statusCode answer = 429 /\ code answer = "ROOM_BUSY"%string)
           \/ (e = RoomNotActive
               /\ statusCode answer = 500 /\ code answer = "JOIN_ROOM_FAILED"%string)
           \/ (e = RoomExpired /\ statusCode answer = 410 /\ code answer = "ROOM_EXPIRED"%string)
           \/ (e = RoomFull /\ statusCode answer = 409 /\ code answer = "ROOM_FULL"%string)
           \/ (e = AlreadyMember
               /\ statusCode answer = 409 /\ code answer = "ALREADY_MEMBER"%string)))
      \/ e = UniqueViolation \/ e = RecordNotFound)
  /\ (forall roomId userId now st e st',
         leaveRoom roomId userId now st = (Err e, st') ->
         let answer := leave_route_catch (message e) in
         (error answer = message e
          /\ ((e = NotMember /\ statusCode answer = 403 /\ code answer = "NOT_MEMBER"%string)
              \/ (e = NotActiveMember
                  /\ statusCode answer = 409 /\ code answer = "ALREADY_LEFT"%string)))
         \/ e = RecordNotFound)
  /\ (forall roomId userId st e st',
         getRoomDetails roomId userId st = (Err e, st') ->
         let answer := details_route_catch (message e) in
         error answer = message e
         /\ ((e = RoomNotFound /\ statusCode answer = 404 /\ code answer = "ROOM_NOT_FOUND"%string)
             \/ (e = AccessDenied
                 /\ statusCode answer = 403 /\ code answer = "ACCESS_DENIED"%string))).
Proof.
  split; [|split].
  - intros data lockValue memberId now st e st' H answer.
    apply joinRoom_Err_cases in H. simpl in H.
    destruct H as [<-|[<-|[<-|[<-|[<-|[<-|[<-|[<-|[<-|[]]]]]]]]]]; unfold answer;
      pick_case.
  - intros roomId userId now st e st' H answer.
    apply leaveRoom_Err_cases in H. simpl in H.
    destruct H as [<-|[<-|[<-|[]]]]; unfold answer; pick_case.
  - intros roomId userId st e st' H answer.
    apply getRoomDetails_Err_cases in H. simpl in H.
    destruct H as [<-|[<-|[]]]; unfold answer; pick_case.
Qed.

Lemma routes_answer_service_errors_witness :
  let closed := snd (leaveRoom "r1" "alice" 1500 after_create) in
  joinRoom (join_as "bob") "token-1" "m2" 2000 closed = (Err RoomNotActive, closed)
  /\ statusCode (join_route_catch (message RoomNotActive)) = 500
  /\ joinRoom (mkJoinRoomData "NOROOM" "bob" None) "token-1" "m2" 2000 after_create
     = (Err RoomNotFoundOrInactive, after_create)
  /\ statusCode (join_route_catch (message RoomNotFoundOrInactive)) = 404.
Proof.
  intros closed.
  assert (H1 : joinRoom (join_as "bob") "token-1" "m2" 2000 closed = (Err RoomNotActive, closed))
    by (vm_compute; reflexivity).
  assert (H2 : joinRoom (mkJoinRoomData "NOROOM" "bob" None) "token-1" "m2" 2000 after_create
               = (Err RoomNotFoundOrInactive, after_create))
    by (vm_compute; reflexivity).
  split; [exact H1|]. split.
  - destruct (proj1 routes_answer_service_errors _ _ _ _ _ _ _ H1)
      as [[_ Hcases]|[Hd|Hd]]; [|discriminate Hd|discriminate Hd].
    destruct Hcases
      as [([He|He] & _)|[(He & _)|[(_ & Hs & _)|[(He & _)|[(He & _)|(He & _)]]]]];
      try discriminate He.
    exact Hs.
  - split; [exact H2|].
    destruct (proj1 routes_answer_service_errors _ _ _ _ _ _ _ H2)
      as [[_ Hcases]|[Hd|Hd]]; [|discriminate Hd|discriminate Hd].
    destruct Hcases
      as [(_ & Hs & _)|[(He & _)|[(He & _)|[(He & _)|[(He & _)|(He & _)]]]]];
      try discriminate He.
    exact Hs.
Defined.

(** ** Disconnecting *)

Lemma sIsMember_sRem_other_key key key' member u r :
  key' <> key -> sIsMember key' u (sRem key member r) = sIsMember key' u r.
Proof.
  intros Hne. unfold sIsMember, sRem. simpl.
  destruct (member_sets r !! key) as [s|]; [|reflexivity].
  destruct (decide (s ∖ {[member]} = ∅)).
  - now rewrite lookup_delete_ne.
  - now rewrite lookup_insert_ne.
Qed.

Lemma drop_presence_fold uid roomIds st :
  db (List.fold_left (drop_presence uid) roomIds st) = db st
  /\ (forall rid u,
         sIsMember rid u (redis (List.fold_left (drop_presence uid) roomIds st))
         = if (u =? uid)%string && existsb (String.eqb rid) roomIds then false
           else sIsMember rid u (redis st))
  /\ (forall rid u,
         location_keys (redis (List.fold_left (drop_presence uid) roomIds st)) !! (rid, u)
         = if (u =? uid)%string && existsb (String.eqb rid) roomIds then None
           else location_keys (redis st) !! (rid, u))
  /\ room_keys (redis (List.fold_left (drop_presence uid) roomIds st)) = room_keys (redis st)
  /\ room_code_keys (redis (List.fold_left (drop_presence uid) roomIds st))
     = room_code_keys (redis st)
  /\ chat_lists (redis (List.fold_left (drop_presence uid) roomIds st)) = chat_lists (redis st)
  /\ lock_keys (redis (List.fold_left (drop_presence uid) roomIds st)) = lock_keys (redis st).
Proof.
  revert st. induction roomIds as [|a l IH]; intros st; simpl.
  - repeat split; intros; now rewrite andb_false_r.
  - destruct (IH (drop_presence uid st a)) as (Hdb & Hset & Hloc & H1 & H2 & H3 & H4).
    split; [rewrite Hdb; reflexivity|].
    split; [|split; [|repeat split; assumption]].
    + intros rid u. rewrite Hset. unfold drop_presence. simpl.
      destruct (String.eqb_spec u uid) as [->|Hu]; simpl.
      * destruct (String.eqb_spec rid a) as [->|Hr]; simpl.
        -- destruct (existsb _ l); [reflexivity|]. apply sIsMember_sRem.
        -- destruct (existsb _ l); [reflexivity|]. now apply sIsMember_sRem_other_key.
      * destruct (String.eqb_spec rid a) as [->|Hr].
        -- now apply sIsMember_sRem.
        -- now apply sIsMember_sRem_other_key.
    + intros rid u. rewrite Hloc. unfold drop_presence. simpl.
      destruct (String.eqb_spec u uid) as [->|Hu]; simpl.
      * destruct (String.eqb_spec rid a) as [->|Hr]; simpl.
        -- destruct (existsb _ l); [reflexivity|]. apply lookup_delete_eq.
        -- destruct (existsb _ l); [reflexivity|]. apply lookup_delete_ne. congruence.
      * apply lookup_delete_ne. congruence.
Qed.

(** X28. When a socket disconnects, its [socket] key is deleted and, in
    every room where its user has an active membership row, the user's
    location key is deleted and the user is taken out of the member set.
    The membership rows stay as they are: disconnecting is not leaving. The
    entries of other users, and the user's own entries in rooms without an
    active membership, are untouched. *)
Theorem on_disconnect_clears (number : Type) socket sv :
  let sv' := snd (on_disconnect number socket sv) in
  let uid := socket_userId socket in
  db (core sv') = db (core sv)
  /\ socket_keys sv' !! uid = None
  /\ (forall other, other <> uid -> socket_keys sv' !! other = socket_keys sv !! other)
  /\ (forall m,
         In m (room_members (db (core sv))) ->
         RoomMember.user_id m = uid ->
         RoomMember.status m = "active"%string ->
         location_keys (redis (core sv')) !! (RoomMember.room_id m, uid) = None
         /\ sIsMember (RoomMember.room_id m) uid (redis (core sv')) = false)
  /\ (forall rid u,
         u <> uid ->
         location_keys (redis (core sv')) !! (rid, u)
         = location_keys (redis (core sv)) !! (rid, u)
         /\ sIsMember rid u (redis (core sv')) = sIsMember rid u (redis (core sv)))
  /\ (forall rid,
         ~ In rid (active_room_ids uid (db (core sv))) ->
         location_keys (redis (core sv')) !! (rid, uid)
         = location_keys (redis (core sv)) !! (rid, uid)
         /\ sIsMember rid uid (redis (core sv')) = sIsMember rid uid (redis (core sv))).
Proof.
  intros sv' uid. unfold sv', on_disconnect. fold uid. simpl.
  destruct (drop_presence_fold uid (active_room_ids uid (db (core sv))) (core sv))
    as (Hdb & Hset & Hloc & _).
  split; [exact Hdb|]. split; [apply lookup_delete_eq|].
  split; [intros other Ho; apply lookup_delete_ne; congruence|].
  split; [|split].
  - intros m Hin Hu Hs.
    assert (Hroom : existsb (String.eqb (RoomMember.room_id m))
                      (active_room_ids uid (db (core sv))) = true).
    { apply existsb_eqb_In. unfold active_room_ids. apply List.in_map.
      apply List.filter_In. split; [exact Hin|]. now rewrite Hu, Hs, String.eqb_refl. }
    rewrite Hset, Hloc, Hroom, String.eqb_refl. split; reflexivity.
  - intros rid u Hu. rewrite Hset, Hloc. apply String.eqb_neq in Hu. rewrite Hu.
    split; reflexivity.
  - intros rid Hnot. rewrite Hset, Hloc, (existsb_eqb_not_In _ _ Hnot), andb_false_r.
    split; reflexivity.
Qed.

Lemma on_disconnect_clears_witness :
  let sv := mkServer alice_shares
              {[ "alice"%string := mkSocketInfo "sock-1" "Alice" 3900 ]} in
  let sv' := snd (on_disconnect Z alice_socket sv) in
  sIsMember "r1" "alice" (redis (core sv)) = true
  /\ sIsMember "r1" "alice" (redis (core sv')) = false
  /\ location_keys (redis (core sv')) !! ("r1", "alice")%string = None
  /\ socket_keys sv' !! "alice"%string = None
  /\ active_membership "r1" "alice" (db (core sv')) <> None.
Proof.
  intros sv sv'.
  destruct (on_disconnect_clears Z alice_socket sv) as (Hdb & Hsock & _ & Hrooms & _).
  destruct (Hrooms (RoomMember.mk "m1" "r1" "alice" "Trip" "owner" "active" 1000 None
                                  (Some 5000) 1)) as [Hloc Hset];
    [vm_compute; auto|reflexivity|reflexivity|].
  split; [vm_compute; reflexivity|]. split; [exact Hset|]. split; [exact Hloc|].
  split; [exact Hsock|].
  unfold sv'. rewrite Hdb. vm_compute. discriminate.
Defined.
